(** * Verification-gated submission forms and the API base-URL resolver

    A shallow embedding of

    - [getPublicApiUrl] (the API configuration module),
    - [ResearchSubmissionForm] and its [VerificationStep],
    - [JournalSubmissionForm] and its [VerificationStep],

    together with the properties the specification states about them.

    Conventions of the embedding.
    - A JavaScript string is a [string]; a character stands for the UTF-16
      code unit with the same number, so the strings modelled are those over
      U+0000..U+00FF.
    - A value that may be [undefined] is an [option]; [None] is [undefined].
    - [sessionStorage] is a finite map from keys to strings.
    - An event handler is a function from the state it closes over, and the
      answer of the network, to the new state and the list of effects it
      performed, oldest first. *)

From Stdlib Require Import ZArith NArith String Ascii List Bool Lia.
From stdpp Require Import base strings gmap list option.

Local Open Scope string_scope.

(** ** The fragment of the JavaScript runtime the components use *)

Module JS.

(** [WhiteSpace] and [LineTerminator] code points below U+0100: TAB, LF, VT,
    FF, CR, SP and NBSP. [String.prototype.trim] and [StringToNumber] strip
    exactly these. *)
Definition is_white (c : ascii) : bool :=
  let n := N_of_ascii c in
  ((9 <=? n) && (n <=? 13) || (n =? 32) || (n =? 160))%N.

Definition is_empty (s : string) : bool :=
  match s with EmptyString => true | String _ _ => false end.

Fixpoint trimStart (s : string) : string :=
  match s with
  | EmptyString => EmptyString
  | String c r => if is_white c then trimStart r else s
  end.

Fixpoint trimEnd (s : string) : string :=
  match s with
  | EmptyString => EmptyString
  | String c r =>
      let r' := trimEnd r in
      if is_white c && is_empty r' then EmptyString else String c r'
  end.

(** [s.trim()] *)
Definition trim (s : string) : string := trimEnd (trimStart s).

(** [ToBoolean] of a string: the empty string is the only falsy one. *)
Definition truthy (s : string) : bool := negb (is_empty s).

(** [ToBoolean] of a string that may be [undefined]. *)
Definition truthy_opt (o : option string) : bool :=
  match o with Some s => truthy s | None => false end.

(** [s || undefined] *)
Definition or_undefined (s : string) : option string :=
  if truthy s then Some s else None.

(** [a || b] on values that are strings or [undefined]. *)
Definition or_else (a b : option string) : option string :=
  if truthy_opt a then a else b.

(** [a || "literal"] with a non-empty literal. *)
Definition or_default (a : option string) (d : string) : string :=
  match a with
  | Some s => if truthy s then s else d
  | None => d
  end.

(** [ToString] of a string that may be [undefined]. *)
Definition ToString (o : option string) : string :=
  match o with Some s => s | None => "undefined" end.

(** [s.startsWith("/")] *)
Definition startsWith_slash (s : string) : bool :=
  match s with
  | String c _ => Ascii.eqb c "/"
  | EmptyString => false
  end.

(** [s.replace(/\/$/, "")]: the pattern matches a slash that is the last
    character of the input, so at most that one character is removed. *)
Fixpoint replace_trailing_slash (s : string) : string :=
  match s with
  | EmptyString => EmptyString
  | String c r =>
      if is_empty r
      then (if Ascii.eqb c "/" then EmptyString else s)
      else String c (replace_trailing_slash r)
  end.

(** [s.toLowerCase()] on U+0000..U+00FF: A-Z, and the Latin-1 capitals
    U+00C0..U+00DE except the multiplication sign U+00D7, move up by 32. *)
Definition lower_char (c : ascii) : ascii :=
  let n := N_of_ascii c in
  if ((65 <=? n) && (n <=? 90)
      || (192 <=? n) && (n <=? 222) && negb (n =? 215))%N
  then ascii_of_N (n + 32) else c.

Fixpoint toLowerCase (s : string) : string :=
  match s with
  | EmptyString => EmptyString
  | String c r => String (lower_char c) (toLowerCase r)
  end.

(** *** Numbers

    [Number(s)] applies [StringToNumber]: the string is stripped of
    white space; the empty string is [0]; a [StrNumericLiteral] is its
    mathematical value rounded to a double; anything else is [NaN].
    [Finite neg m e] stands for the double nearest to [(-1)^neg * m * 10^e];
    whether the result is [NaN] does not depend on the rounding. *)
Inductive number :=
| NaN
| Infinity (negative : bool)
| Finite (negative : bool) (mantissa : N) (exponent : Z).

Definition Number_isNaN (x : number) : bool :=
  match x with NaN => true | _ => false end.

Definition zero : number := Finite false 0 0.

Definition digit_of (base : N) (c : ascii) : option N :=
  let n := N_of_ascii c in
  let d :=
    if ((48 <=? n) && (n <=? 57))%N then Some (n - 48)%N
    else if ((97 <=? n) && (n <=? 102))%N then Some (n - 87)%N
    else if ((65 <=? n) && (n <=? 70))%N then Some (n - 55)%N
    else None in
  match d with
  | Some v => if (v <? base)%N then Some v else None
  | None => None
  end.

(** The longest prefix of digits: its value on top of [acc], how many
    digits it has on top of [count], and what follows it. *)
Fixpoint digits (base : N) (s : string) (acc : N) (count : nat)
  : N * nat * string :=
  match s with
  | EmptyString => (acc, count, EmptyString)
  | String c r =>
      match digit_of base c with
      | Some d => digits base r (acc * base + d)%N (S count)
      | None => (acc, count, s)
      end
  end.

(** [ExponentPart], optional, up to the end of the literal. *)
Definition exponent_part (s : string) : option Z :=
  match s with
  | EmptyString => Some 0%Z
  | String c r =>
      if Ascii.eqb c "e" || Ascii.eqb c "E" then
        let '(neg, r') :=
          match r with
          | String c' r' =>
              if Ascii.eqb c' "+" then (false, r')
              else if Ascii.eqb c' "-" then (true, r')
              else (false, r)
          | EmptyString => (false, r)
          end in
        let '(v, cnt, rest) := digits 10 r' 0 0 in
        match cnt, rest with
        | S _, EmptyString => Some (if neg then - Z.of_N v else Z.of_N v)%Z
        | _, _ => None
        end
      else None
  end.

(** [StrUnsignedDecimalLiteral] with the sign already read. *)
Definition unsigned_decimal (neg : bool) (s : string) : number :=
  if String.eqb s "Infinity" then Infinity neg
  else
    let '(i, ni, r1) := digits 10 s 0 0 in
    match r1 with
    | String "." r2 =>
        let '(m, nf, r3) := digits 10 r2 i 0 in
        match (ni + nf)%nat, exponent_part r3 with
        | S _, Some e => Finite neg m (e - Z.of_nat nf)
        | _, _ => NaN
        end
    | _ =>
        match ni, exponent_part r1 with
        | S _, Some e => Finite neg i e
        | _, _ => NaN
        end
    end.

(** [NonDecimalIntegerLiteral]: [0x], [0o] or [0b] and at least one digit. *)
Definition non_decimal (s : string) : option number :=
  match s with
  | String "0" (String p r) =>
      let base :=
        if Ascii.eqb p "x" || Ascii.eqb p "X" then Some 16%N
        else if Ascii.eqb p "o" || Ascii.eqb p "O" then Some 8%N
        else if Ascii.eqb p "b" || Ascii.eqb p "B" then Some 2%N
        else None in
      match base with
      | Some b =>
          match digits b r 0 0 with
          | (v, S _, EmptyString) => Some (Finite false v 0)
          | _ => Some NaN
          end
      | None => None
      end
  | _ => None
  end.

(** [Number(s)] for a string [s]. *)
Definition Number (s : string) : number :=
  let t := trim s in
  match t with
  | EmptyString => zero
  | String c r =>
      match non_decimal t with
      | Some x => x
      | None =>
          if Ascii.eqb c "+" then unsigned_decimal false r
          else if Ascii.eqb c "-" then unsigned_decimal true r
          else unsigned_decimal false t
      end
  end.

(** *** [URLSearchParams]

    [toString] is the [application/x-www-form-urlencoded] serializer: a
    code point is encoded in UTF-8, a space becomes [+], the bytes of
    [0-9A-Za-z*-._] stand for themselves and every other byte is written
    [%XX]. *)
Definition utf8 (c : ascii) : list N :=
  let n := N_of_ascii c in
  if (n <? 128)%N then [n] else [(192 + n / 64)%N; (128 + n mod 64)%N].

Definition hex_digit (n : N) : ascii :=
  if (n <? 10)%N then ascii_of_N (48 + n) else ascii_of_N (55 + n).

Definition percent_byte (b : N) : string :=
  String "%" (String (hex_digit (b / 16)) (String (hex_digit (b mod 16)) "")).

Definition urlencoded_plain (b : N) : bool :=
  ((48 <=? b) && (b <=? 57) || (65 <=? b) && (b <=? 90)
   || (97 <=? b) && (b <=? 122)
   || (b =? 42) || (b =? 45) || (b =? 46) || (b =? 95))%N.

Definition urlencoded_byte (b : N) : string :=
  if (b =? 32)%N then "+"
  else if urlencoded_plain b then String (ascii_of_N b) ""
  else percent_byte b.

Fixpoint urlencode (s : string) : string :=
  match s with
  | EmptyString => EmptyString
  | String c r =>
      fold_right String.append (urlencode r) (map urlencoded_byte (utf8 c))
  end.

Fixpoint join_amp (l : list string) : string :=
  match l with
  | [] => ""
  | [x] => x
  | x :: r => x +:+ "&" +:+ join_amp r
  end.

(** [new URLSearchParams(record).toString()], the record given as its
    entries in insertion order. *)
Definition URLSearchParams_toString (entries : list (string * string)) : string :=
  join_amp (map (fun kv => urlencode (fst kv) +:+ "=" +:+ urlencode (snd kv)) entries).

End JS.

(** ** The API configuration module *)

Module process.
(** [process.env], restricted to the variables the module reads. *)
Record env := {
  NEXT_PUBLIC_USE_PROXY : option string;
  DEBUG_API : option string;
  NEXT_PUBLIC_DEBUG_API : option string;
}.
End process.

Module Config.

Definition API_BASE : string := "https://cdn.tcioe.edu.np".

Section Module_load.
Variable env : process.env.

Definition USE_PROXY : bool :=
  String.eqb
    (JS.toLowerCase (JS.or_default (process.NEXT_PUBLIC_USE_PROXY env) ""))
    "true".

Definition PRIVATE_DEBUG_FLAG : option string := process.DEBUG_API env.
Definition PUBLIC_DEBUG_FLAG : option string := process.NEXT_PUBLIC_DEBUG_API env.

Definition DEBUG_API : bool :=
  String.eqb
    (JS.toLowerCase
       (JS.or_default (JS.or_else PRIVATE_DEBUG_FLAG PUBLIC_DEBUG_FLAG) ""))
    "true".

(** [getPublicApiUrl(path)]. The console is threaded through so that what
    the function writes would show; the body of the debug branch is an
    empty [try] block. *)
Definition getPublicApiUrl (path : string) (console : list string)
  : string * list string :=
  if USE_PROXY then
    ("/api/proxy" +:+ (if JS.startsWith_slash path then "" else "/") +:+ path,
     console)
  else
    let base := JS.replace_trailing_slash API_BASE in
    let suffix := if JS.startsWith_slash path then path else "/" +:+ path in
    let url := base +:+ suffix in
    let console := if DEBUG_API then console else console in
    (base +:+ suffix, console).
End Module_load.

(** The resolver as the specification words it: the path with a slash put
    in front when it has none, after the proxy prefix or after the host. *)
Definition with_leading_slash (path : string) : string :=
  if JS.startsWith_slash path then path else "/" +:+ path.

Definition resolved_url (proxy : bool) (path : string) : string :=
  if proxy then "/api/proxy" +:+ with_leading_slash path
  else "https://cdn.tcioe.edu.np" +:+ with_leading_slash path.

(** [DEPARTMENT_CODE], computed at module load from the variable
    [NEXT_PUBLIC_DEPARTMENT]. *)
Definition DEPARTMENT_CODE (NEXT_PUBLIC_DEPARTMENT : option string) : string :=
  JS.toLowerCase (JS.or_default NEXT_PUBLIC_DEPARTMENT "doece").

End Config.

(** ** What the browser and the remote API hand to the components *)

Module VerificationData.
(** The state [verificationData] holds when it is not [null]. *)
Record t := { email : string; sessionId : string }.
End VerificationData.

Module StoredProof.
(** The record the verification page leaves under [verification_complete],
    as [JSON.parse] returns it; [verifiedAt] is a time in milliseconds. *)
Record t := {
  email : string;
  sessionId : string;
  purpose : string;
  verifiedAt : Z;
  name : option string;
}.
End StoredProof.

Module ResponseBody.
(** The fields the components read from a parsed response body. *)
Record t := {
  detail : option string;
  error : option string;
  session_id : option string;
  sessionId : option string;
}.
(** [{}], and any JSON value other than [null] with none of the fields. *)
Definition empty : t :=
  {| detail := None; error := None; session_id := None; sessionId := None |}.
End ResponseBody.

(** What [response.json()] settles to. *)
Inductive Json :=
| json_rejects
| json_null
| json_object (b : ResponseBody.t).

Module Response.
Record t := { ok : bool; json : Json }.
End Response.

(** A thrown value: an [Error] with its message, or something else. *)
Inductive Thrown :=
| ErrorObj (message : string)
| NonError.

(** What [await fetch(...)] does. *)
Inductive FetchOutcome :=
| Rejects (e : Thrown)
| Resolves (r : Response.t).

(** [await response.json().catch(() => ({}))]; [None] is [null]. *)
Definition json_or_empty (r : Response.t) : option ResponseBody.t :=
  match Response.json r with
  | json_rejects => Some ResponseBody.empty
  | json_null => None
  | json_object b => Some b
  end.

(** [data?.detail || data?.error] *)
Definition detail_or_error (data : option ResponseBody.t) : option string :=
  JS.or_else (data ≫= ResponseBody.detail) (data ≫= ResponseBody.error).

(** [error instanceof Error ? error.message : fallback] *)
Definition message_of (e : Thrown) (fallback : string) : string :=
  match e with
  | ErrorObj m => m
  | NonError => fallback
  end.

(** The message of the [TypeError] raised by reading [session_id] of [null];
    its wording is the engine's. *)
Definition TypeError_null_message : string :=
  "Cannot read properties of null (reading 'session_id')".

(** The effects of a handler, in the order they happen. Updates of component
    state are not listed: they show in the state the handler returns. *)
Inductive Event (Body : Type) :=
| toast (description : string) (destructive : bool)
| fetch (url : string) (body : Body)
| console_error (message : string)
| sessionStorage_setItem (key value : string)
| sessionStorage_removeItem (key : string)
| router_push (href : string).

Arguments toast {Body} _ _.
Arguments fetch {Body} _ _.
Arguments console_error {Body} _.
Arguments sessionStorage_setItem {Body} _ _.
Arguments sessionStorage_removeItem {Body} _.
Arguments router_push {Body} _.

(** What a submission form renders: the verification step, or the form. *)
Inductive View :=
| VerificationStep_view
| form_view.

(** ** The research submission form *)

Module Research.

Module ParticipantForm.
Record t := {
  fullName : string;
  participantType : string;
  email : string;
  role : string;
  designation : string;
  organization : string;
  linkedinUrl : string;
  orcidId : string;
}.
End ParticipantForm.

Module ResearchFormValues.
Record t := {
  title : string;
  abstract : string;
  description : string;
  researchType : string;
  status : string;
  principalInvestigator : string;
  piEmail : string;
  startDate : string;
  endDate : string;
  fundingAgency : string;
  fundingAmount : string;
  keywords : string;
  methodology : string;
  expectedOutcomes : string;
  publicationsUrl : string;
  projectUrl : string;
  githubUrl : string;
  submittedByName : string;
  submittedByEmail : string;
  participants : list ParticipantForm.t;
}.

(** [form.setValue("submittedByEmail", x)] *)
Definition set_submittedByEmail (x : string) (v : t) : t :=
  {| title := title v; abstract := abstract v; description := description v;
     researchType := researchType v; status := status v;
     principalInvestigator := principalInvestigator v; piEmail := piEmail v;
     startDate := startDate v; endDate := endDate v;
     fundingAgency := fundingAgency v; fundingAmount := fundingAmount v;
     keywords := keywords v; methodology := methodology v;
     expectedOutcomes := expectedOutcomes v;
     publicationsUrl := publicationsUrl v; projectUrl := projectUrl v;
     githubUrl := githubUrl v; submittedByName := submittedByName v;
     submittedByEmail := x; participants := participants v |}.

(** [form.setValue("submittedByName", x)] *)
Definition set_submittedByName (x : string) (v : t) : t :=
  {| title := title v; abstract := abstract v; description := description v;
     researchType := researchType v; status := status v;
     principalInvestigator := principalInvestigator v; piEmail := piEmail v;
     startDate := startDate v; endDate := endDate v;
     fundingAgency := fundingAgency v; fundingAmount := fundingAmount v;
     keywords := keywords v; methodology := methodology v;
     expectedOutcomes := expectedOutcomes v;
     publicationsUrl := publicationsUrl v; projectUrl := projectUrl v;
     githubUrl := githubUrl v; submittedByName := x;
     submittedByEmail := submittedByEmail v; participants := participants v |}.
End ResearchFormValues.

Definition defaultValues : ResearchFormValues.t :=
  {| ResearchFormValues.title := "";
     ResearchFormValues.abstract := "";
     ResearchFormValues.description := "";
     ResearchFormValues.researchType := "applied";
     ResearchFormValues.status := "proposed";
     ResearchFormValues.principalInvestigator := "";
     ResearchFormValues.piEmail := "";
     ResearchFormValues.startDate := "";
     ResearchFormValues.endDate := "";
     ResearchFormValues.fundingAgency := "";
     ResearchFormValues.fundingAmount := "";
     ResearchFormValues.keywords := "";
     ResearchFormValues.methodology := "";
     ResearchFormValues.expectedOutcomes := "";
     ResearchFormValues.publicationsUrl := "";
     ResearchFormValues.projectUrl := "";
     ResearchFormValues.githubUrl := "";
     ResearchFormValues.submittedByName := "";
     ResearchFormValues.submittedByEmail := "";
     ResearchFormValues.participants :=
       [ {| ParticipantForm.fullName := "";
            ParticipantForm.participantType := "student";
            ParticipantForm.email := "";
            ParticipantForm.role := "Researcher";
            ParticipantForm.designation := "";
            ParticipantForm.organization := "";
            ParticipantForm.linkedinUrl := "";
            ParticipantForm.orcidId := "" |} ] |}.

(** An element of the payload's [participants]. *)
Module Participant.
Record t := {
  full_name : string;
  participant_type : string;
  email : option string;
  role : option string;
  designation : option string;
  organization : option string;
  linkedin_url : option string;
  orcid_id : option string;
  department : string;
}.
End Participant.

Module Payload.
Record t := {
  title : string;
  abstract : string;
  description : string;
  research_type : string;
  status : string;
  principal_investigator : string;
  pi_email : string;
  start_date : option string;
  end_date : option string;
  funding_agency : option string;
  funding_amount : option JS.number;
  keywords : option string;
  methodology : option string;
  expected_outcomes : option string;
  publications_url : option string;
  project_url : option string;
  github_url : option string;
  submitted_by_name : string;
  submitted_by_email : string;
  department : string;
  participants : list Participant.t;
  otp_session : string;
}.
End Payload.

(** The JSON bodies the two components post. *)
Inductive Body :=
| otp_request (email full_name purpose : string)
| submission (payload : Payload.t).

(** The state of [ResearchSubmissionForm]: the values held by the form
    library and the two [useState] cells. *)
Record State := {
  values : ResearchFormValues.t;
  isVerified : bool;
  verificationData : option VerificationData.t;
}.

Record World := {
  component : State;
  sessionStorage : gmap string string;
}.

(** The state right after mounting: [useForm({ defaultValues })],
    [useState(false)], [useState(null)]. *)
Definition initial : State :=
  {| values := defaultValues; isVerified := false; verificationData := None |}.

Definition mount (storage : gmap string string) : World :=
  {| component := initial; sessionStorage := storage |}.

(** The callback given to [useEffect] returns nothing, so the component
    registers no clean-up. *)
Definition useEffect_cleanup : option (gmap string string → gmap string string) :=
  None.

(** Unmounting runs the registered clean-ups and drops the component's
    state; what is left is the storage. *)
Definition unmount (w : World) : gmap string string :=
  match useEffect_cleanup with
  | Some cleanup => cleanup (sessionStorage w)
  | None => sessionStorage w
  end.

Section Component.
(** [JSON.parse] on a stored proof; [None] when it throws. *)
Variable JSON_parse : string → option StoredProof.t.
(** [department.uuid] of the props. *)
Variable department_uuid : string.

(** The effect that checks for verification completion. [verified] is
    [searchParams.get("verified")] and [now] is [Date.now()]. *)
Definition useEffect_verification
    (verified : option string) (now : Z) (w : World)
  : World * list (Event Body) :=
  match verified with
  | Some v =>
    if String.eqb v "true" then
      match sessionStorage w !! "verification_complete" with
      | Some stored =>
        if JS.truthy stored then
          match JSON_parse stored with
          | Some data =>
            if String.eqb (StoredProof.purpose data) "research_submission"
               && (now - StoredProof.verifiedAt data <? 30 * 60 * 1000)%Z
            then
              let vals :=
                ResearchFormValues.set_submittedByEmail
                  (StoredProof.email data) (values (component w)) in
              let vals :=
                match StoredProof.name data with
                | Some n =>
                    if JS.truthy n
                    then ResearchFormValues.set_submittedByName n vals
                    else vals
                | None => vals
                end in
              ({| component :=
                    {| values := vals;
                       isVerified := true;
                       verificationData :=
                         Some {| VerificationData.email := StoredProof.email data;
                                 VerificationData.sessionId := StoredProof.sessionId data |} |};
                  sessionStorage := sessionStorage w |},
               [toast "Email verified successfully!" false])
            else (w, [])
          | None => (w, [console_error "Failed to parse verification data"])
          end
        else (w, [])
      | None => (w, [])
      end
    else (w, [])
  | None => (w, [])
  end.

(** [values.participants.map(...)]: one row as it goes into the payload. *)
Definition participant_of (participant : ParticipantForm.t) : Participant.t :=
  {| Participant.full_name := JS.trim (ParticipantForm.fullName participant);
     Participant.participant_type := ParticipantForm.participantType participant;
     Participant.email := JS.or_undefined (JS.trim (ParticipantForm.email participant));
     Participant.role := JS.or_undefined (JS.trim (ParticipantForm.role participant));
     Participant.designation :=
       JS.or_undefined (JS.trim (ParticipantForm.designation participant));
     Participant.organization :=
       JS.or_undefined (JS.trim (ParticipantForm.organization participant));
     Participant.linkedin_url :=
       JS.or_undefined (JS.trim (ParticipantForm.linkedinUrl participant));
     Participant.orcid_id :=
       JS.or_undefined (JS.trim (ParticipantForm.orcidId participant));
     Participant.department := department_uuid |}.

(** [.map(...).filter((participant) => participant.full_name)] *)
Definition participants_of (rows : list ParticipantForm.t) : list Participant.t :=
  List.filter (fun participant => JS.truthy (Participant.full_name participant))
              (List.map participant_of rows).

Definition payload_of (v : ResearchFormValues.t) (vd : VerificationData.t)
  : Payload.t :=
  let participants := participants_of (ResearchFormValues.participants v) in
  let funding := JS.Number (ResearchFormValues.fundingAmount v) in
  {| Payload.title := JS.trim (ResearchFormValues.title v);
     Payload.abstract := JS.trim (ResearchFormValues.abstract v);
     Payload.description := JS.trim (ResearchFormValues.description v);
     Payload.research_type := ResearchFormValues.researchType v;
     Payload.status := ResearchFormValues.status v;
     Payload.principal_investigator :=
       JS.trim (ResearchFormValues.principalInvestigator v);
     Payload.pi_email := JS.trim (ResearchFormValues.piEmail v);
     Payload.start_date := JS.or_undefined (ResearchFormValues.startDate v);
     Payload.end_date := JS.or_undefined (ResearchFormValues.endDate v);
     Payload.funding_agency :=
       JS.or_undefined (JS.trim (ResearchFormValues.fundingAgency v));
     Payload.funding_amount :=
       if JS.Number_isNaN funding then None else Some funding;
     Payload.keywords := JS.or_undefined (JS.trim (ResearchFormValues.keywords v));
     Payload.methodology :=
       JS.or_undefined (JS.trim (ResearchFormValues.methodology v));
     Payload.expected_outcomes :=
       JS.or_undefined (JS.trim (ResearchFormValues.expectedOutcomes v));
     Payload.publications_url :=
       JS.or_undefined (JS.trim (ResearchFormValues.publicationsUrl v));
     Payload.project_url :=
       JS.or_undefined (JS.trim (ResearchFormValues.projectUrl v));
     Payload.github_url :=
       JS.or_undefined (JS.trim (ResearchFormValues.githubUrl v));
     Payload.submitted_by_name := JS.trim (ResearchFormValues.submittedByName v);
     Payload.submitted_by_email := VerificationData.email vd;
     Payload.department := department_uuid;
     Payload.participants := participants;
     Payload.otp_session := VerificationData.sessionId vd |}.

(** [onSubmit(values)], with the answer the network gives to its request. *)
Definition onSubmit
    (outcome : FetchOutcome) (v : ResearchFormValues.t) (w : World)
  : World * list (Event Body) :=
  let st := component w in
  if negb (isVerified st)
     || negb (JS.truthy_opt (VerificationData.sessionId <$> verificationData st))
  then
    (w, [toast "Verify your campus email before submitting" true])
  else
    match verificationData st with
    | None => (w, [toast "Verify your campus email before submitting" true])
    | Some vd =>
      let payload := payload_of v vd in
      let request := fetch "/api/submissions/research" (submission payload) in
      match outcome with
      | Rejects e =>
          (w, [request; toast (message_of e "Failed to submit research") true])
      | Resolves response =>
          let data := json_or_empty response in
          if negb (Response.ok response) then
            let message :=
              JS.or_default (detail_or_error data) "Failed to submit research" in
            (w, [request; toast message true])
          else
            ({| component :=
                  {| values := defaultValues;
                     isVerified := false;
                     verificationData := None |};
                sessionStorage := delete "verification_complete" (sessionStorage w) |},
             [request;
              toast "Research submitted for departmental review" false;
              sessionStorage_removeItem "verification_complete"])
      end
    end.
End Component.

(** [if (!isVerified) return <VerificationStep />], and the form otherwise. *)
Definition render (st : State) : View :=
  if negb (isVerified st) then VerificationStep_view else form_view.

(** The row the button [Add participant] appends. *)
Definition new_participant : ParticipantForm.t :=
  {| ParticipantForm.fullName := "";
     ParticipantForm.participantType := "student";
     ParticipantForm.email := "";
     ParticipantForm.role := "Researcher";
     ParticipantForm.designation := "";
     ParticipantForm.organization := "";
     ParticipantForm.linkedinUrl := "";
     ParticipantForm.orcidId := "" |}.

(** [append(row)] and [remove(index)] of the field array [participants]. *)
Definition append (row : ParticipantForm.t) (rows : list ParticipantForm.t)
  : list ParticipantForm.t :=
  rows ++ [row].

Definition remove (index : nat) (rows : list ParticipantForm.t)
  : list ParticipantForm.t :=
  delete index rows.

(** The buttons of the participants list: [Add participant], and for each row
    its remove button, which is rendered only when [fields.length > 1]. *)
Inductive Click :=
| add_click
| remove_click (index : nat).

Definition rendered (c : Click) (rows : list ParticipantForm.t) : bool :=
  match c with
  | add_click => true
  | remove_click index => (1 <? length rows)%nat && (index <? length rows)%nat
  end.

(** The rows after a click; a button that is not there cannot be clicked. *)
Definition onClick (c : Click) (rows : list ParticipantForm.t)
  : list ParticipantForm.t :=
  if rendered c rows then
    match c with
    | add_click => append new_participant rows
    | remove_click index => remove index rows
    end
  else rows.

(** The form values once the field array holds [rows]. *)
Definition with_participants
    (rows : list ParticipantForm.t) (v : ResearchFormValues.t)
  : ResearchFormValues.t :=
  {| ResearchFormValues.title := ResearchFormValues.title v;
     ResearchFormValues.abstract := ResearchFormValues.abstract v;
     ResearchFormValues.description := ResearchFormValues.description v;
     ResearchFormValues.researchType := ResearchFormValues.researchType v;
     ResearchFormValues.status := ResearchFormValues.status v;
     ResearchFormValues.principalInvestigator :=
       ResearchFormValues.principalInvestigator v;
     ResearchFormValues.piEmail := ResearchFormValues.piEmail v;
     ResearchFormValues.startDate := ResearchFormValues.startDate v;
     ResearchFormValues.endDate := ResearchFormValues.endDate v;
     ResearchFormValues.fundingAgency := ResearchFormValues.fundingAgency v;
     ResearchFormValues.fundingAmount := ResearchFormValues.fundingAmount v;
     ResearchFormValues.keywords := ResearchFormValues.keywords v;
     ResearchFormValues.methodology := ResearchFormValues.methodology v;
     ResearchFormValues.expectedOutcomes := ResearchFormValues.expectedOutcomes v;
     ResearchFormValues.publicationsUrl := ResearchFormValues.publicationsUrl v;
     ResearchFormValues.projectUrl := ResearchFormValues.projectUrl v;
     ResearchFormValues.githubUrl := ResearchFormValues.githubUrl v;
     ResearchFormValues.submittedByName := ResearchFormValues.submittedByName v;
     ResearchFormValues.submittedByEmail := ResearchFormValues.submittedByEmail v;
     ResearchFormValues.participants := rows |}.

(** The fields the form registers with a [required] rule. *)
Module Field.
Inductive t :=
| title
| principalInvestigator
| piEmail.
End Field.

(** The rule [required: message] on a text field: the empty text breaks it,
    any other text, white space included, passes. *)
Definition required (f : Field.t) (message value : string) : list (Field.t * string) :=
  if JS.truthy value then [] else [(f, message)].

(** What the rules find wrong with the values, field by field in the order
    of the form: the content of [formState.errors]. *)
Definition errors_of (v : ResearchFormValues.t) : list (Field.t * string) :=
  required Field.title "Title is required" (ResearchFormValues.title v)
  ++ required Field.principalInvestigator "Required"
       (ResearchFormValues.principalInvestigator v)
  ++ required Field.piEmail "Required" (ResearchFormValues.piEmail v).

(** [handleSubmit(onSubmit)], the handler of the form's submit event: the
    form library checks the rules on the values it holds and calls [onSubmit]
    with them only when none is broken; otherwise it records the errors, which
    the form shows under the fields, and [onSubmit] is not called. *)
Definition handleSubmit (department_uuid : string) (outcome : FetchOutcome) (w : World)
  : World * list (Event Body) * list (Field.t * string) :=
  let v := values (component w) in
  match errors_of v with
  | [] => (onSubmit department_uuid outcome v w, [])
  | errors => (w, [], errors)
  end.

(** The state of [VerificationStep]. *)
Module VerificationStep.
Record State := { name : string; email : string; sending : bool }.

Definition setSending (b : bool) (s : State) : State :=
  {| name := name s; email := email s; sending := b |}.

(** [handleVerify()], with the answer the network gives to its request. *)
Definition handleVerify
    (outcome : FetchOutcome) (s : State) (storage : gmap string string)
  : State * gmap string string * list (Event Body) :=
  if negb (JS.truthy (JS.trim (name s))) || negb (JS.truthy (JS.trim (email s)))
  then (s, storage, [toast "Please enter your name and email" true])
  else
    let request :=
      fetch "/api/submissions/otp/request"
            (otp_request (JS.trim (email s)) (JS.trim (name s)) "research_submission") in
    let failed message :=
      (setSending false s, storage, [request; toast message true]) in
    match outcome with
    | Rejects e => failed (message_of e "Unable to send verification code")
    | Resolves response =>
        let data := json_or_empty response in
        if negb (Response.ok response) then
          failed (JS.or_default (detail_or_error data)
                                "Unable to send verification code")
        else
          match data with
          | None => failed TypeError_null_message
          | Some data =>
              let sessionId :=
                JS.or_else (ResponseBody.session_id data)
                           (ResponseBody.sessionId data) in
              let params :=
                [("email", JS.trim (email s));
                 ("name", JS.trim (name s));
                 ("type", "research");
                 ("session", JS.ToString sessionId)] in
              (setSending false s,
               <["pending_verification_name" := JS.trim (name s)]> storage,
               [request;
                sessionStorage_setItem "pending_verification_name" (JS.trim (name s));
                router_push ("/verification?" +:+ JS.URLSearchParams_toString params)])
          end
    end.
(** [disabled={sending || !name.trim() || !email.trim()}] of the button that
    calls [handleVerify]. *)
Definition button_disabled (s : State) : bool :=
  sending s || negb (JS.truthy (JS.trim (name s))) || negb (JS.truthy (JS.trim (email s))).

(** [onChange] of the two inputs: [setName(e.target.value)],
    [setEmail(e.target.value)]. *)
Definition setName (x : string) (s : State) : State :=
  {| name := x; email := email s; sending := sending s |}.

Definition setEmail (x : string) (s : State) : State :=
  {| name := name s; email := x; sending := sending s |}.

End VerificationStep.

End Research.

(** ** The journal article submission form *)

Module Journal.

Module AuthorForm.
Record t := {
  givenName : string;
  familyName : string;
  email : string;
  affiliation : string;
  country : string;
  bio : string;
}.
End AuthorForm.

Module JournalFormValues.
Record t := {
  title : string;
  genre : string;
  abstract : string;
  keywords : string;
  discipline : string;
  year : string;
  volume : string;
  number : string;
  pages : string;
  submittedByName : string;
  submittedByEmail : string;
  authors : list AuthorForm.t;
}.

(** [form.setValue("submittedByEmail", x)] *)
Definition set_submittedByEmail (x : string) (v : t) : t :=
  {| title := title v; genre := genre v; abstract := abstract v;
     keywords := keywords v; discipline := discipline v; year := year v;
     volume := volume v; number := number v; pages := pages v;
     submittedByName := submittedByName v; submittedByEmail := x;
     authors := authors v |}.

(** [form.setValue("submittedByName", x)] *)
Definition set_submittedByName (x : string) (v : t) : t :=
  {| title := title v; genre := genre v; abstract := abstract v;
     keywords := keywords v; discipline := discipline v; year := year v;
     volume := volume v; number := number v; pages := pages v;
     submittedByName := x; submittedByEmail := submittedByEmail v;
     authors := authors v |}.
End JournalFormValues.

Definition defaultValues : JournalFormValues.t :=
  {| JournalFormValues.title := "";
     JournalFormValues.genre := "";
     JournalFormValues.abstract := "";
     JournalFormValues.keywords := "";
     JournalFormValues.discipline := "";
     JournalFormValues.year := "";
     JournalFormValues.volume := "";
     JournalFormValues.number := "";
     JournalFormValues.pages := "";
     JournalFormValues.submittedByName := "";
     JournalFormValues.submittedByEmail := "";
     JournalFormValues.authors :=
       [ {| AuthorForm.givenName := ""; AuthorForm.familyName := "";
            AuthorForm.email := ""; AuthorForm.affiliation := "";
            AuthorForm.country := ""; AuthorForm.bio := "" |} ] |}.

(** An element of the payload's [authors]. *)
Module Author.
Record t := {
  given_name : string;
  family_name : option string;
  email : option string;
  affiliation : option string;
  country : option string;
  bio : option string;
}.
End Author.

Module Payload.
Record t := {
  title : string;
  genre : string;
  abstract : string;
  keywords : option string;
  discipline : option string;
  year : option JS.number;
  volume : option JS.number;
  number : option JS.number;
  pages : option string;
  submitted_by_name : string;
  submitted_by_email : string;
  department : string;
  authors : list Author.t;
  otp_session : string;
}.
End Payload.

(** The JSON bodies the two components post. *)
Inductive Body :=
| otp_request (email full_name purpose : string)
| submission (payload : Payload.t).

(** The state of [JournalSubmissionForm]: the values held by the form
    library and the two [useState] cells. *)
Record State := {
  values : JournalFormValues.t;
  isVerified : bool;
  verificationData : option VerificationData.t;
}.

Record World := {
  component : State;
  sessionStorage : gmap string string;
}.

(** The state right after mounting: [useForm({ defaultValues })],
    [useState(false)], [useState(null)]. *)
Definition initial : State :=
  {| values := defaultValues; isVerified := false; verificationData := None |}.

Definition mount (storage : gmap string string) : World :=
  {| component := initial; sessionStorage := storage |}.

(** The callback given to [useEffect] returns nothing, so the component
    registers no clean-up. *)
Definition useEffect_cleanup : option (gmap string string → gmap string string) :=
  None.

(** Unmounting runs the registered clean-ups and drops the component's
    state; what is left is the storage. *)
Definition unmount (w : World) : gmap string string :=
  match useEffect_cleanup with
  | Some cleanup => cleanup (sessionStorage w)
  | None => sessionStorage w
  end.

Section Component.
(** [JSON.parse] on a stored proof; [None] when it throws. *)
Variable JSON_parse : string → option StoredProof.t.
(** [department.uuid] of the props. *)
Variable department_uuid : string.

(** The effect that checks for verification completion. [verified] is
    [searchParams.get("verified")] and [now] is [Date.now()]. *)
Definition useEffect_verification
    (verified : option string) (now : Z) (w : World)
  : World * list (Event Body) :=
  match verified with
  | Some v =>
    if String.eqb v "true" then
      match sessionStorage w !! "verification_complete" with
      | Some stored =>
        if JS.truthy stored then
          match JSON_parse stored with
          | Some data =>
            if String.eqb (StoredProof.purpose data) "journal_submission"
               && (now - StoredProof.verifiedAt data <? 30 * 60 * 1000)%Z
            then
              let vals :=
                JournalFormValues.set_submittedByEmail
                  (StoredProof.email data) (values (component w)) in
              let vals :=
                match StoredProof.name data with
                | Some n =>
                    if JS.truthy n
                    then JournalFormValues.set_submittedByName n vals
                    else vals
                | None => vals
                end in
              ({| component :=
                    {| values := vals;
                       isVerified := true;
                       verificationData :=
                         Some {| VerificationData.email := StoredProof.email data;
                                 VerificationData.sessionId := StoredProof.sessionId data |} |};
                  sessionStorage := sessionStorage w |},
               [toast "Email verified successfully!" false])
            else (w, [])
          | None => (w, [console_error "Failed to parse verification data"])
          end
        else (w, [])
      | None => (w, [])
      end
    else (w, [])
  | None => (w, [])
  end.

(** [values.authors.map(...)]: one row as it goes into the payload. *)
Definition author_of (author : AuthorForm.t) : Author.t :=
  {| Author.given_name := JS.trim (AuthorForm.givenName author);
     Author.family_name := JS.or_undefined (JS.trim (AuthorForm.familyName author));
     Author.email := JS.or_undefined (JS.trim (AuthorForm.email author));
     Author.affiliation := JS.or_undefined (JS.trim (AuthorForm.affiliation author));
     Author.country := JS.or_undefined (JS.trim (AuthorForm.country author));
     Author.bio := JS.or_undefined (JS.trim (AuthorForm.bio author)) |}.

(** [.map(...).filter((author) => author.given_name)] *)
Definition authors_of (rows : list AuthorForm.t) : list Author.t :=
  List.filter (fun author => JS.truthy (Author.given_name author))
              (List.map author_of rows).

Definition payload_of
    (v : JournalFormValues.t) (authors : list Author.t) (vd : VerificationData.t)
  : Payload.t :=
  let year := JS.Number (JournalFormValues.year v) in
  let volume := JS.Number (JournalFormValues.volume v) in
  let number := JS.Number (JournalFormValues.number v) in
  {| Payload.title := JS.trim (JournalFormValues.title v);
     Payload.genre := JS.trim (JournalFormValues.genre v);
     Payload.abstract := JS.trim (JournalFormValues.abstract v);
     Payload.keywords := JS.or_undefined (JS.trim (JournalFormValues.keywords v));
     Payload.discipline :=
       JS.or_undefined (JS.trim (JournalFormValues.discipline v));
     Payload.year := if JS.Number_isNaN year then None else Some year;
     Payload.volume := if JS.Number_isNaN volume then None else Some volume;
     Payload.number := if JS.Number_isNaN number then None else Some number;
     Payload.pages := JS.or_undefined (JS.trim (JournalFormValues.pages v));
     Payload.submitted_by_name := JS.trim (JournalFormValues.submittedByName v);
     Payload.submitted_by_email := VerificationData.email vd;
     Payload.department := department_uuid;
     Payload.authors := authors;
     Payload.otp_session := VerificationData.sessionId vd |}.

(** [onSubmit(values)], with the answer the network gives to its request. *)
Definition onSubmit
    (outcome : FetchOutcome) (v : JournalFormValues.t) (w : World)
  : World * list (Event Body) :=
  let st := component w in
  if negb (isVerified st)
     || negb (JS.truthy_opt (VerificationData.sessionId <$> verificationData st))
  then
    (w, [toast "Verify your campus email before submitting" true])
  else
    match verificationData st with
    | None => (w, [toast "Verify your campus email before submitting" true])
    | Some vd =>
      let authors := authors_of (JournalFormValues.authors v) in
      if (length authors =? 0)%nat then
        (w, [toast "Add at least one author" true])
      else
      let payload := payload_of v authors vd in
      let request := fetch "/api/submissions/journal" (submission payload) in
      match outcome with
      | Rejects e =>
          (w, [request; toast (message_of e "Failed to submit article") true])
      | Resolves response =>
          let data := json_or_empty response in
          if negb (Response.ok response) then
            let message :=
              JS.or_default (detail_or_error data) "Failed to submit article" in
            (w, [request; toast message true])
          else
            ({| component :=
                  {| values := defaultValues;
                     isVerified := false;
                     verificationData := None |};
                sessionStorage := delete "verification_complete" (sessionStorage w) |},
             [request;
              toast "Journal article submitted" false;
              sessionStorage_removeItem "verification_complete"])
      end
    end.
End Component.

(** [if (!isVerified) return <VerificationStep />], and the form otherwise. *)
Definition render (st : State) : View :=
  if negb (isVerified st) then VerificationStep_view else form_view.

(** The row the button [Add author] appends. *)
Definition new_author : AuthorForm.t :=
  {| AuthorForm.givenName := ""; AuthorForm.familyName := "";
     AuthorForm.email := ""; AuthorForm.affiliation := "";
     AuthorForm.country := ""; AuthorForm.bio := "" |}.

(** [append(row)] and [remove(index)] of the field array [authors]. *)
Definition append (row : AuthorForm.t) (rows : list AuthorForm.t)
  : list AuthorForm.t :=
  rows ++ [row].

Definition remove (index : nat) (rows : list AuthorForm.t) : list AuthorForm.t :=
  delete index rows.

(** The buttons of the authors list: [Add author], and for each row its
    remove button, which is rendered only when [fields.length > 1]. *)
Inductive Click :=
| add_click
| remove_click (index : nat).

Definition rendered (c : Click) (rows : list AuthorForm.t) : bool :=
  match c with
  | add_click => true
  | remove_click index => (1 <? length rows)%nat && (index <? length rows)%nat
  end.

(** The rows after a click; a button that is not there cannot be clicked. *)
Definition onClick (c : Click) (rows : list AuthorForm.t) : list AuthorForm.t :=
  if rendered c rows then
    match c with
    | add_click => append new_author rows
    | remove_click index => remove index rows
    end
  else rows.

(** The form values once the field array holds [rows]. *)
Definition with_authors (rows : list AuthorForm.t) (v : JournalFormValues.t)
  : JournalFormValues.t :=
  {| JournalFormValues.title := JournalFormValues.title v;
     JournalFormValues.genre := JournalFormValues.genre v;
     JournalFormValues.abstract := JournalFormValues.abstract v;
     JournalFormValues.keywords := JournalFormValues.keywords v;
     JournalFormValues.discipline := JournalFormValues.discipline v;
     JournalFormValues.year := JournalFormValues.year v;
     JournalFormValues.volume := JournalFormValues.volume v;
     JournalFormValues.number := JournalFormValues.number v;
     JournalFormValues.pages := JournalFormValues.pages v;
     JournalFormValues.submittedByName := JournalFormValues.submittedByName v;
     JournalFormValues.submittedByEmail := JournalFormValues.submittedByEmail v;
     JournalFormValues.authors := rows |}.

(** The fields the form registers with a [required] rule; every author row
    registers its given name. *)
Module Field.
Inductive t :=
| title
| genre
| abstract
| authors_givenName (index : nat).
End Field.

(** The rule [required: message] on a text field: the empty text breaks it,
    any other text, white space included, passes. *)
Definition required (f : Field.t) (message value : string) : list (Field.t * string) :=
  if JS.truthy value then [] else [(f, message)].

(** What the rules find wrong with the values, field by field in the order
    of the form: the content of [formState.errors]. *)
Definition errors_of (v : JournalFormValues.t) : list (Field.t * string) :=
  required Field.title "Title is required" (JournalFormValues.title v)
  ++ required Field.genre "Genre is required" (JournalFormValues.genre v)
  ++ required Field.abstract "Abstract is required" (JournalFormValues.abstract v)
  ++ concat (imap (λ index author,
                     required (Field.authors_givenName index) "Required"
                       (AuthorForm.givenName author))
                  (JournalFormValues.authors v)).

(** [handleSubmit(onSubmit)], the handler of the form's submit event: the
    form library checks the rules on the values it holds and calls [onSubmit]
    with them only when none is broken; otherwise it records the errors, which
    the form shows under the fields, and [onSubmit] is not called. *)
Definition handleSubmit (department_uuid : string) (outcome : FetchOutcome) (w : World)
  : World * list (Event Body) * list (Field.t * string) :=
  let v := values (component w) in
  match errors_of v with
  | [] => (onSubmit department_uuid outcome v w, [])
  | errors => (w, [], errors)
  end.

(** The state of [VerificationStep]. *)
Module VerificationStep.
Record State := { name : string; email : string; sending : bool }.

Definition setSending (b : bool) (s : State) : State :=
  {| name := name s; email := email s; sending := b |}.

(** [handleVerify()], with the answer the network gives to its request. *)
Definition handleVerify
    (outcome : FetchOutcome) (s : State) (storage : gmap string string)
  : State * gmap string string * list (Event Body) :=
  if negb (JS.truthy (JS.trim (name s))) || negb (JS.truthy (JS.trim (email s)))
  then (s, storage, [toast "Please enter your name and email" true])
  else
    let request :=
      fetch "/api/submissions/otp/request"
            (otp_request (JS.trim (email s)) (JS.trim (name s)) "journal_submission") in
    let failed message :=
      (setSending false s, storage, [request; toast message true]) in
    match outcome with
    | Rejects e => failed (message_of e "Unable to send verification code")
    | Resolves response =>
        let data := json_or_empty response in
        if negb (Response.ok response) then
          failed (JS.or_default (detail_or_error data)
                                "Unable to send verification code")
        else
          match data with
          | None => failed TypeError_null_message
          | Some data =>
              let sessionId :=
                JS.or_else (ResponseBody.session_id data)
                           (ResponseBody.sessionId data) in
              let params :=
                [("email", JS.trim (email s));
                 ("name", JS.trim (name s));
                 ("type", "journal");
                 ("session", JS.ToString sessionId)] in
              (setSending false s,
               <["pending_verification_name" := JS.trim (name s)]> storage,
               [request;
                sessionStorage_setItem "pending_verification_name" (JS.trim (name s));
                router_push ("/verification?" +:+ JS.URLSearchParams_toString params)])
          end
    end.
(** [disabled={sending || !name.trim() || !email.trim()}] of the button that
    calls [handleVerify]. *)
Definition button_disabled (s : State) : bool :=
  sending s || negb (JS.truthy (JS.trim (name s))) || negb (JS.truthy (JS.trim (email s))).

(** [onChange] of the two inputs: [setName(e.target.value)],
    [setEmail(e.target.value)]. *)
Definition setName (x : string) (s : State) : State :=
  {| name := x; email := email s; sending := sending s |}.

Definition setEmail (x : string) (s : State) : State :=
  {| name := name s; email := x; sending := sending s |}.

End VerificationStep.

End Journal.

(** ** Vocabulary of the statements *)

(** A trace that contains no network request. *)
Definition is_fetch {Body : Type} (e : Event Body) : bool :=
  match e with fetch _ _ => true | _ => false end.

Definition no_fetch {Body : Type} (trace : list (Event Body)) : Prop :=
  forallb (fun e => negb (is_fetch e)) trace = true.

(** The captured verification data carries no session identifier:
    [!verificationData?.sessionId]. *)
Definition lacks_session (vd : option VerificationData.t) : Prop :=
  match vd with
  | None => True
  | Some d => VerificationData.sessionId d = ""
  end.

(** A proof is fresh while it is younger than thirty minutes. *)
Definition fresh (now : Z) (data : StoredProof.t) : Prop :=
  (now - StoredProof.verifiedAt data < 1800000)%Z.

(** The error message a failed submission shows according to the
    specification: the server's [detail], else its [error], else the generic
    message; a request that was never answered has neither field. *)
Definition specified_message (outcome : FetchOutcome) (generic : string) : string :=
  match outcome with
  | Rejects _ => generic
  | Resolves response => JS.or_default (detail_or_error (json_or_empty response)) generic
  end.

(** A submission fails when the request is rejected or answered without
    success. *)
Definition fails (outcome : FetchOutcome) : Prop :=
  match outcome with
  | Rejects _ => True
  | Resolves response => Response.ok response = false
  end.

(** What a form shows of a proof it accepted: the flag is set, the proof's
    email and session identifier are captured, the email is pre-filled, and so
    is the name when the proof has one (an empty name counts as none: the
    field keeps what it held). *)
Definition research_accepted
    (data : StoredProof.t) (before after : Research.State) : Prop :=
  Research.isVerified after = true
  ∧ Research.verificationData after
    = Some {| VerificationData.email := StoredProof.email data;
              VerificationData.sessionId := StoredProof.sessionId data |}
  ∧ Research.ResearchFormValues.submittedByEmail (Research.values after)
    = StoredProof.email data
  ∧ Research.ResearchFormValues.submittedByName (Research.values after)
    = match StoredProof.name data with
      | Some (String c n) => String c n
      | _ => Research.ResearchFormValues.submittedByName (Research.values before)
      end.

Definition journal_accepted
    (data : StoredProof.t) (before after : Journal.State) : Prop :=
  Journal.isVerified after = true
  ∧ Journal.verificationData after
    = Some {| VerificationData.email := StoredProof.email data;
              VerificationData.sessionId := StoredProof.sessionId data |}
  ∧ Journal.JournalFormValues.submittedByEmail (Journal.values after)
    = StoredProof.email data
  ∧ Journal.JournalFormValues.submittedByName (Journal.values after)
    = match StoredProof.name data with
      | Some (String c n) => String c n
      | _ => Journal.JournalFormValues.submittedByName (Journal.values before)
      end.

(** An optional text field as the specification wants it sent: absent when
    the entry is blank, the trimmed entry otherwise. *)
Definition absent_if_blank (entered : string) (sent : option string) : Prop :=
  match JS.trim entered with
  | EmptyString => sent = None
  | String c r => sent = Some (String c r)
  end.

(** The error message a failed submission does show: for an answered request
    the server's [detail], else its [error], else the generic message; for a
    rejected request the thrown error's own message, and the generic one when
    what was thrown is not an error. *)
Definition surfaced_message (outcome : FetchOutcome) (generic : string) : string :=
  match outcome with
  | Rejects e => message_of e generic
  | Resolves response => JS.or_default (detail_or_error (json_or_empty response)) generic
  end.

(** The verified state in which [onSubmit] passes its guard. *)
Definition research_verified (w : Research.World) (vd : VerificationData.t) : Prop :=
  Research.isVerified (Research.component w) = true
  ∧ Research.verificationData (Research.component w) = Some vd
  ∧ VerificationData.sessionId vd ≠ "".

Definition journal_verified (w : Journal.World) (vd : VerificationData.t) : Prop :=
  Journal.isVerified (Journal.component w) = true
  ∧ Journal.verificationData (Journal.component w) = Some vd
  ∧ VerificationData.sessionId vd ≠ "".

(** A person row is named when its name field is not blank. *)
Definition named_participant (r : Research.ParticipantForm.t) : bool :=
  JS.truthy (JS.trim (Research.ParticipantForm.fullName r)).

Definition named_author (r : Journal.AuthorForm.t) : bool :=
  JS.truthy (JS.trim (Journal.AuthorForm.givenName r)).

(** ** Concrete inputs *)

Module Sample.

Definition now : Z := 1700000060000.

Definition research_proof : StoredProof.t :=
  {| StoredProof.email := "a@x.np";
     StoredProof.sessionId := "s1";
     StoredProof.purpose := "research_submission";
     StoredProof.verifiedAt := now - 60000;
     StoredProof.name := Some "A B" |}.

Definition journal_proof : StoredProof.t :=
  {| StoredProof.email := "a@tcioe.edu.np";
     StoredProof.sessionId := "s1";
     StoredProof.purpose := "journal_submission";
     StoredProof.verifiedAt := now - 60000;
     StoredProof.name := None |}.

(** The JSON texts of the two proofs, as the verification page stores them. *)
Definition quoted (s : string) : string :=
  String (ascii_of_nat 34) s +:+ String (ascii_of_nat 34) "".

Definition member (key value : string) : string := quoted key +:+ ":" +:+ value.

Definition research_json : string :=
  "{" +:+ member "email" (quoted "a@x.np")
  +:+ "," +:+ member "sessionId" (quoted "s1")
  +:+ "," +:+ member "purpose" (quoted "research_submission")
  +:+ "," +:+ member "verifiedAt" "1700000000000"
  +:+ "," +:+ member "name" (quoted "A B") +:+ "}".

Definition journal_json : string :=
  "{" +:+ member "email" (quoted "a@tcioe.edu.np")
  +:+ "," +:+ member "sessionId" (quoted "s1")
  +:+ "," +:+ member "purpose" (quoted "journal_submission")
  +:+ "," +:+ member "verifiedAt" "1700000000000" +:+ "}".

(** [JSON.parse] on these two texts; it throws on every other text. *)
Definition JSON_parse (s : string) : option StoredProof.t :=
  if String.eqb s research_json then Some research_proof
  else if String.eqb s journal_json then Some journal_proof
  else None.

Definition research_storage : gmap string string :=
  {[ "verification_complete" := research_json ]}.
Definition journal_storage : gmap string string :=
  {[ "verification_complete" := journal_json ]}.

Definition verified_data : VerificationData.t :=
  {| VerificationData.email := "a@x.np"; VerificationData.sessionId := "s1" |}.

(** A research form that has been verified and filled in. *)
Definition research_world : Research.World :=
  {| Research.component :=
       {| Research.values :=
            Research.ResearchFormValues.set_submittedByEmail "typed@x.np"
              Research.defaultValues;
          Research.isVerified := true;
          Research.verificationData := Some verified_data |};
     Research.sessionStorage := research_storage |}.

Definition one_author : Journal.AuthorForm.t :=
  {| Journal.AuthorForm.givenName := " Ada ";
     Journal.AuthorForm.familyName := "";
     Journal.AuthorForm.email := "";
     Journal.AuthorForm.affiliation := "  ";
     Journal.AuthorForm.country := "";
     Journal.AuthorForm.bio := "" |}.

Definition journal_values : Journal.JournalFormValues.t :=
  {| Journal.JournalFormValues.title := "T";
     Journal.JournalFormValues.genre := "G";
     Journal.JournalFormValues.abstract := "A";
     Journal.JournalFormValues.keywords := "";
     Journal.JournalFormValues.discipline := "";
     Journal.JournalFormValues.year := "";
     Journal.JournalFormValues.volume := "";
     Journal.JournalFormValues.number := "";
     Journal.JournalFormValues.pages := "";
     Journal.JournalFormValues.submittedByName := "";
     Journal.JournalFormValues.submittedByEmail := "";
     Journal.JournalFormValues.authors := [one_author] |}.

(** A journal form that has been verified and filled in. *)
Definition journal_world : Journal.World :=
  {| Journal.component :=
       {| Journal.values := journal_values;
          Journal.isVerified := true;
          Journal.verificationData := Some verified_data |};
     Journal.sessionStorage := journal_storage |}.

Definition ok_response : Response.t :=
  {| Response.ok := true; Response.json := json_object ResponseBody.empty |}.

Definition otp_response : Response.t :=
  {| Response.ok := true;
     Response.json :=
       json_object {| ResponseBody.detail := None; ResponseBody.error := None;
                      ResponseBody.session_id := Some "s1";
                      ResponseBody.sessionId := None |} |}.

Definition journal_claimant : Journal.VerificationStep.State :=
  {| Journal.VerificationStep.name := "A B";
     Journal.VerificationStep.email := "a@tcioe.edu.np";
     Journal.VerificationStep.sending := false |}.

Definition research_claimant : Research.VerificationStep.State :=
  {| Research.VerificationStep.name := "A B";
     Research.VerificationStep.email := "a@tcioe.edu.np";
     Research.VerificationStep.sending := false |}.

End Sample.

(** ** Proof steps shared by the two forms *)

(** Rewrite with every equation of the context that fixes a term of the
    goal, then compute. *)
Ltac settle :=
  repeat first
    [ match goal with
      | H : ?x = _ |- context [?x] => rewrite H
      end
    | progress cbn ].

(** Case analysis on the network's answer. *)
Ltac by_outcome outcome :=
  let e := fresh "e" in
  let ok := fresh "ok" in
  let body := fresh "body" in
  destruct outcome as [e | [ok body]]; [| destruct ok]; cbn.

(** ** Vocabulary of the further statements *)

Definition is_toast {Body : Type} (e : Event Body) : bool :=
  match e with toast _ _ => true | _ => false end.

Definition is_push {Body : Type} (e : Event Body) : bool :=
  match e with router_push _ => true | _ => false end.

(** How many events of a kind a trace holds. *)
Definition count {Body : Type} (kind : Event Body → bool) (trace : list (Event Body)) : nat :=
  length (List.filter kind trace).

(** Every character of a string passes a test. *)
Fixpoint all_chars (test : ascii → bool) (s : string) : bool :=
  match s with
  | EmptyString => true
  | String c r => test c && all_chars test r
  end.

(** The characters that cannot end or split a query parameter: letters,
    digits, [*], [-], [.], [_], and the [%] and [+] of the encoding. *)
Definition query_safe (c : ascii) : bool :=
  JS.urlencoded_plain (N_of_ascii c) || Ascii.eqb c "%" || Ascii.eqb c "+".

(** A text with no white space at either end. *)
Definition trimmed (s : string) : Prop := JS.trim s = s.

(** An optional text as it may be sent: left out, or trimmed and not empty. *)
Definition sent_text (o : option string) : Prop :=
  match o with
  | Some s => s ≠ "" ∧ trimmed s
  | None => True
  end.

(** The rows after a sequence of clicks on the buttons of the list. *)
Definition research_clicks
    (clicks : list Research.Click) (rows : list Research.ParticipantForm.t)
  : list Research.ParticipantForm.t :=
  fold_left (λ r c, Research.onClick c r) clicks rows.

Definition journal_clicks
    (clicks : list Journal.Click) (rows : list Journal.AuthorForm.t)
  : list Journal.AuthorForm.t :=
  fold_left (λ r c, Journal.onClick c r) clicks rows.

(** An answer of the OTP endpoint after which [handleVerify] navigates: a
    success whose body is not [null]. *)
Definition issues_session (outcome : FetchOutcome) : bool :=
  match outcome with
  | Rejects _ => false
  | Resolves response =>
      Response.ok response
      && match Response.json response with json_null => false | _ => true end
  end.

(** The address of the verification page with its four parameters, the
    values already encoded. *)
Definition verification_url (type email name session : string) : string :=
  "/verification?email=" +:+ email +:+ "&name=" +:+ name
  +:+ "&type=" +:+ type +:+ "&session=" +:+ session.

(** The OTP request of a verification step. *)
Definition research_otp_request (s : Research.VerificationStep.State)
  : Event Research.Body :=
  fetch "/api/submissions/otp/request"
        (Research.otp_request (JS.trim (Research.VerificationStep.email s))
           (JS.trim (Research.VerificationStep.name s)) "research_submission").

Definition journal_otp_request (s : Journal.VerificationStep.State)
  : Event Journal.Body :=
  fetch "/api/submissions/otp/request"
        (Journal.otp_request (JS.trim (Journal.VerificationStep.email s))
           (JS.trim (Journal.VerificationStep.name s)) "journal_submission").

(** A form whose field array holds other rows, everything else as it was. *)
Definition research_with_rows
    (rows : list Research.ParticipantForm.t) (w : Research.World) : Research.World :=
  {| Research.component :=
       {| Research.values :=
            Research.with_participants rows (Research.values (Research.component w));
          Research.isVerified := Research.isVerified (Research.component w);
          Research.verificationData := Research.verificationData (Research.component w) |};
     Research.sessionStorage := Research.sessionStorage w |}.

Definition journal_with_rows
    (rows : list Journal.AuthorForm.t) (w : Journal.World) : Journal.World :=
  {| Journal.component :=
       {| Journal.values :=
            Journal.with_authors rows (Journal.values (Journal.component w));
          Journal.isVerified := Journal.isVerified (Journal.component w);
          Journal.verificationData := Journal.verificationData (Journal.component w) |};
     Journal.sessionStorage := Journal.sessionStorage w |}.

(** An author row whose given name passes the [required] rule and is blank
    all the same: it is not empty and nothing but white space. *)
Definition spaces_only_author (a : Journal.AuthorForm.t) : Prop :=
  Journal.AuthorForm.givenName a ≠ "" ∧ named_author a = false.

(** ** Further concrete inputs *)

Module Cases.

(** A proof of the research form's purpose that carries no session
    identifier. *)
Definition sessionless_proof : StoredProof.t :=
  {| StoredProof.email := "a@x.np";
     StoredProof.sessionId := "";
     StoredProof.purpose := "research_submission";
     StoredProof.verifiedAt := Sample.now - 60000;
     StoredProof.name := None |}.

Definition sessionless_json : string :=
  "{" +:+ Sample.member "email" (Sample.quoted "a@x.np")
  +:+ "," +:+ Sample.member "sessionId" (Sample.quoted "")
  +:+ "," +:+ Sample.member "purpose" (Sample.quoted "research_submission")
  +:+ "," +:+ Sample.member "verifiedAt" "1700000000000" +:+ "}".

Definition JSON_parse (s : string) : option StoredProof.t :=
  if String.eqb s sessionless_json then Some sessionless_proof else Sample.JSON_parse s.

Definition sessionless_storage : gmap string string :=
  {[ "verification_complete" := sessionless_json ]}.

Definition failed_response : Response.t :=
  {| Response.ok := false;
     Response.json :=
       json_object {| ResponseBody.detail := None;
                      ResponseBody.error := Some "Too many requests";
                      ResponseBody.session_id := None;
                      ResponseBody.sessionId := None |} |}.

(** A verified research form with its required fields filled in and its one
    participant row left as it comes. *)
Definition research_values : Research.ResearchFormValues.t :=
  {| Research.ResearchFormValues.title := "Solar pumps";
     Research.ResearchFormValues.abstract := "";
     Research.ResearchFormValues.description := "";
     Research.ResearchFormValues.researchType := "applied";
     Research.ResearchFormValues.status := "proposed";
     Research.ResearchFormValues.principalInvestigator := "A B";
     Research.ResearchFormValues.piEmail := "a@x.np";
     Research.ResearchFormValues.startDate := "";
     Research.ResearchFormValues.endDate := "";
     Research.ResearchFormValues.fundingAgency := "";
     Research.ResearchFormValues.fundingAmount := "";
     Research.ResearchFormValues.keywords := "";
     Research.ResearchFormValues.methodology := "";
     Research.ResearchFormValues.expectedOutcomes := "";
     Research.ResearchFormValues.publicationsUrl := "";
     Research.ResearchFormValues.projectUrl := "";
     Research.ResearchFormValues.githubUrl := "";
     Research.ResearchFormValues.submittedByName := "A B";
     Research.ResearchFormValues.submittedByEmail := "a@x.np";
     Research.ResearchFormValues.participants := [Research.new_participant] |}.

Definition research_world : Research.World :=
  {| Research.component :=
       {| Research.values := research_values;
          Research.isVerified := true;
          Research.verificationData := Some Sample.verified_data |};
     Research.sessionStorage := Sample.research_storage |}.

(** An author row into whose given name two spaces were typed. *)
Definition spaces_author : Journal.AuthorForm.t :=
  {| Journal.AuthorForm.givenName := "  ";
     Journal.AuthorForm.familyName := "";
     Journal.AuthorForm.email := "";
     Journal.AuthorForm.affiliation := "";
     Journal.AuthorForm.country := "";
     Journal.AuthorForm.bio := "" |}.

(** The verified journal form of the samples, title, genre and abstract
    filled in, with that row as its only author. *)
Definition spaces_world : Journal.World :=
  journal_with_rows [spaces_author] Sample.journal_world.

(** The same form with a named author followed by the row the add button
    appends. *)
Definition added_row_world : Journal.World :=
  journal_with_rows [Sample.one_author; Journal.new_author] Sample.journal_world.

(** The same form with a named author followed by the row of spaces. *)
Definition named_and_spaces_world : Journal.World :=
  journal_with_rows [Sample.one_author; spaces_author] Sample.journal_world.

End Cases.

(** ** The runtime fragment on small inputs *)

Example trim_strips_both_ends : JS.trim "  A B  " = "A B" ∧ JS.trim "   " = "".
Proof. split; reflexivity. Qed.

Example Number_on_entries :
  JS.Number "2024" = JS.Finite false 2024 0
  ∧ JS.Number " 12.50 " = JS.Finite false 1250 (-2)
  ∧ JS.Number "-1e3" = JS.Finite true 1 3
  ∧ JS.Number "0x1F" = JS.Finite false 31 0
  ∧ JS.Number "" = JS.zero
  ∧ JS.Number "1e" = JS.NaN
  ∧ JS.Number "twelve" = JS.NaN.
Proof. repeat split. Qed.

Example urlencode_on_entries :
  JS.urlencode "a@tcioe.edu.np" = "a%40tcioe.edu.np"
  ∧ JS.urlencode "A B" = "A+B"
  ∧ JS.urlencode "x*y-z._~" = "x*y-z._%7E".
Proof. repeat split. Qed.

Example proxy_flag_reads_the_variable :
  Config.USE_PROXY
    {| process.NEXT_PUBLIC_USE_PROXY := Some "TRUE";
       process.DEBUG_API := None;
       process.NEXT_PUBLIC_DEBUG_API := None |} = true
  ∧ Config.USE_PROXY
      {| process.NEXT_PUBLIC_USE_PROXY := None;
         process.DEBUG_API := Some "true";
         process.NEXT_PUBLIC_DEBUG_API := None |} = false.
Proof. split; reflexivity. Qed.

Example resolver_on_paths :
  ∀ env console,
    Config.USE_PROXY env = false →
    Config.getPublicApiUrl env "api/v1/public" console
    = ("https://cdn.tcioe.edu.np/api/v1/public", console)
    ∧ Config.getPublicApiUrl env "/api/v1/public" console
      = ("https://cdn.tcioe.edu.np/api/v1/public", console).
Proof.
  intros env console H. unfold Config.getPublicApiUrl. rewrite H.
  destruct (Config.DEBUG_API env); split; reflexivity.
Qed.

(** ** The API base-URL resolver *)

Lemma base_has_no_trailing_slash :
  JS.replace_trailing_slash Config.API_BASE = "https://cdn.tcioe.edu.np".
Proof. reflexivity. Qed.

(** C10. [getPublicApiUrl] returns the proxy prefix or the fixed host followed
    by the path, a slash put in front of a path that has none; the debug
    variables change nothing of the result, and the console is left as it
    was. *)
Theorem getPublicApiUrl_resolves (env : process.env) (path : string) (console : list string) :
  Config.getPublicApiUrl env path console
    = (Config.resolved_url (Config.USE_PROXY env) path, console)
  ∧ ∀ d1 d2 : option string,
      Config.getPublicApiUrl
        {| process.NEXT_PUBLIC_USE_PROXY := process.NEXT_PUBLIC_USE_PROXY env;
           process.DEBUG_API := d1;
           process.NEXT_PUBLIC_DEBUG_API := d2 |} path console
      = Config.getPublicApiUrl env path console.
Proof.
  assert (Hmain : ∀ e, Config.getPublicApiUrl e path console
                       = (Config.resolved_url (Config.USE_PROXY e) path, console)).
  { intros e. unfold Config.getPublicApiUrl, Config.resolved_url, Config.with_leading_slash.
    rewrite base_has_no_trailing_slash.
    destruct (Config.USE_PROXY e).
    - destruct (JS.startsWith_slash path); reflexivity.
    - destruct (Config.DEBUG_API e); reflexivity. }
  split; [apply Hmain |].
  intros d1 d2. rewrite !Hmain. reflexivity.
Qed.

(** ** Ingestion of the verification result *)

Lemma truthy_true (s : string) : JS.truthy s = true ↔ s ≠ "".
Proof. unfold JS.truthy. destruct s; simpl; split; intros; congruence. Qed.

Lemma truthy_false (s : string) : JS.truthy s = false ↔ s = "".
Proof. unfold JS.truthy. destruct s; simpl; split; intros; congruence. Qed.

Lemma thirty_minutes (now : Z) (data : StoredProof.t) :
  (now - StoredProof.verifiedAt data <? 30 * 60 * 1000)%Z = true ↔ fresh now data.
Proof. unfold fresh. rewrite Z.ltb_lt. lia. Qed.

Lemma research_effect_accepts JSON_parse now stored data (w : Research.World) :
  Research.sessionStorage w !! "verification_complete" = Some stored →
  stored ≠ "" →
  JSON_parse stored = Some data →
  StoredProof.purpose data = "research_submission" →
  fresh now data →
  let r := Research.useEffect_verification JSON_parse (Some "true") now w in
  research_accepted data (Research.component w) (Research.component r.1)
  ∧ Research.sessionStorage r.1 = Research.sessionStorage w
  ∧ r.2 = [toast "Email verified successfully!" false].
Proof.
  intros Hget Hne Hparse Hpurpose Hfresh. cbn zeta.
  unfold Research.useEffect_verification. cbn [String.eqb Ascii.eqb Bool.eqb].
  rewrite Hget. apply truthy_true in Hne. rewrite Hne, Hparse, Hpurpose.
  apply thirty_minutes in Hfresh. rewrite Hfresh.
  cbn [String.eqb Ascii.eqb Bool.eqb andb fst snd].
  unfold research_accepted. cbn.
  repeat split.
  all: destruct (StoredProof.name data) as [[|c n]|]; reflexivity.
Qed.

Lemma research_effect_ignores JSON_parse now stored data (w : Research.World) :
  Research.sessionStorage w !! "verification_complete" = Some stored →
  JSON_parse stored = Some data →
  ¬ (StoredProof.purpose data = "research_submission" ∧ fresh now data) →
  Research.useEffect_verification JSON_parse (Some "true") now w = (w, []).
Proof.
  intros Hget Hparse Hno.
  unfold Research.useEffect_verification. cbn [String.eqb Ascii.eqb Bool.eqb].
  rewrite Hget. destruct (JS.truthy stored); [| reflexivity].
  rewrite Hparse.
  destruct (String.eqb_spec (StoredProof.purpose data) "research_submission") as [Hp | Hp];
    [| reflexivity].
  destruct (now - StoredProof.verifiedAt data <? 30 * 60 * 1000)%Z eqn:Hlt;
    [| reflexivity].
  exfalso. apply Hno. split; [exact Hp | by apply thirty_minutes].
Qed.

Lemma journal_effect_accepts JSON_parse now stored data (w : Journal.World) :
  Journal.sessionStorage w !! "verification_complete" = Some stored →
  stored ≠ "" →
  JSON_parse stored = Some data →
  StoredProof.purpose data = "journal_submission" →
  fresh now data →
  let r := Journal.useEffect_verification JSON_parse (Some "true") now w in
  journal_accepted data (Journal.component w) (Journal.component r.1)
  ∧ Journal.sessionStorage r.1 = Journal.sessionStorage w
  ∧ r.2 = [toast "Email verified successfully!" false].
Proof.
  intros Hget Hne Hparse Hpurpose Hfresh. cbn zeta.
  unfold Journal.useEffect_verification. cbn [String.eqb Ascii.eqb Bool.eqb].
  rewrite Hget. apply truthy_true in Hne. rewrite Hne, Hparse, Hpurpose.
  apply thirty_minutes in Hfresh. rewrite Hfresh.
  cbn [String.eqb Ascii.eqb Bool.eqb andb fst snd].
  unfold journal_accepted. cbn.
  repeat split.
  all: destruct (StoredProof.name data) as [[|c n]|]; reflexivity.
Qed.

Lemma journal_effect_ignores JSON_parse now stored data (w : Journal.World) :
  Journal.sessionStorage w !! "verification_complete" = Some stored →
  JSON_parse stored = Some data →
  ¬ (StoredProof.purpose data = "journal_submission" ∧ fresh now data) →
  Journal.useEffect_verification JSON_parse (Some "true") now w = (w, []).
Proof.
  intros Hget Hparse Hno.
  unfold Journal.useEffect_verification. cbn [String.eqb Ascii.eqb Bool.eqb].
  rewrite Hget. destruct (JS.truthy stored); [| reflexivity].
  rewrite Hparse.
  destruct (String.eqb_spec (StoredProof.purpose data) "journal_submission") as [Hp | Hp];
    [| reflexivity].
  destruct (now - StoredProof.verifiedAt data <? 30 * 60 * 1000)%Z eqn:Hlt;
    [| reflexivity].
  exfalso. apply Hno. split; [exact Hp | by apply thirty_minutes].
Qed.

Lemma purpose_and_fresh_dec (expected : string) (now : Z) (data : StoredProof.t) :
  let valid := StoredProof.purpose data = expected ∧ fresh now data in
  valid ∨ ¬ valid.
Proof.
  cbn zeta. unfold fresh.
  destruct (String.eqb_spec (StoredProof.purpose data) expected) as [Hp | Hp];
    [| right; tauto].
  destruct (Z.lt_ge_cases (now - StoredProof.verifiedAt data) 1800000) as [Hlt | Hge];
    [left; tauto | right; lia].
Qed.

(** C1. A stored proof read while the query parameter [verified] is ["true"]
    is accepted (flag set, email and session identifier captured, email and
    name pre-filled) exactly when its purpose is the form's own and it is
    younger than 1,800,000 ms; any other proof leaves the form as it was, so an
    unverified form stays unverified. *)
Theorem proof_accepted_iff_purpose_and_fresh
    (JSON_parse : string → option StoredProof.t) (now : Z)
    (stored : string) (data : StoredProof.t)
    (Hstored : stored ≠ "") (Hparse : JSON_parse stored = Some data) :
  (∀ w : Research.World,
      Research.sessionStorage w !! "verification_complete" = Some stored →
      let w' := (Research.useEffect_verification JSON_parse (Some "true") now w).1 in
      let valid := StoredProof.purpose data = "research_submission" ∧ fresh now data in
      (valid → research_accepted data (Research.component w) (Research.component w'))
      ∧ (¬ valid → w' = w)
      ∧ (Research.isVerified (Research.component w) = false →
         (Research.isVerified (Research.component w') = true ↔ valid)))
  ∧ (∀ w : Journal.World,
      Journal.sessionStorage w !! "verification_complete" = Some stored →
      let w' := (Journal.useEffect_verification JSON_parse (Some "true") now w).1 in
      let valid := StoredProof.purpose data = "journal_submission" ∧ fresh now data in
      (valid → journal_accepted data (Journal.component w) (Journal.component w'))
      ∧ (¬ valid → w' = w)
      ∧ (Journal.isVerified (Journal.component w) = false →
         (Journal.isVerified (Journal.component w') = true ↔ valid))).
Proof.
  split; intros w Hget; cbn zeta.
  - assert (Hyes : StoredProof.purpose data = "research_submission" ∧ fresh now data →
                   research_accepted data (Research.component w)
                     (Research.component
                        (Research.useEffect_verification JSON_parse (Some "true") now w).1)).
    { intros [Hp Hf].
      apply (research_effect_accepts JSON_parse now stored data w); assumption. }
    assert (Hno : ¬ (StoredProof.purpose data = "research_submission" ∧ fresh now data) →
                  (Research.useEffect_verification JSON_parse (Some "true") now w).1 = w).
    { intros Hn. by rewrite (research_effect_ignores JSON_parse now stored data w). }
    split; [exact Hyes | split; [exact Hno |]].
    intros Hunverified. split.
    + intros Hset.
      destruct (purpose_and_fresh_dec "research_submission" now data) as [Hv | Hn];
        [exact Hv |].
      rewrite (Hno Hn) in Hset. congruence.
    + intros Hv. apply Hyes in Hv. apply Hv.
  - assert (Hyes : StoredProof.purpose data = "journal_submission" ∧ fresh now data →
                   journal_accepted data (Journal.component w)
                     (Journal.component
                        (Journal.useEffect_verification JSON_parse (Some "true") now w).1)).
    { intros [Hp Hf].
      apply (journal_effect_accepts JSON_parse now stored data w); assumption. }
    assert (Hno : ¬ (StoredProof.purpose data = "journal_submission" ∧ fresh now data) →
                  (Journal.useEffect_verification JSON_parse (Some "true") now w).1 = w).
    { intros Hn. by rewrite (journal_effect_ignores JSON_parse now stored data w). }
    split; [exact Hyes | split; [exact Hno |]].
    intros Hunverified. split.
    + intros Hset.
      destruct (purpose_and_fresh_dec "journal_submission" now data) as [Hv | Hn];
        [exact Hv |].
      rewrite (Hno Hn) in Hset. congruence.
    + intros Hv. apply Hyes in Hv. apply Hv.
Qed.

(** The proof of the specification's example, read by a freshly mounted
    research form sixty seconds after it was issued, is accepted. *)
Lemma proof_accepted_witness :
  research_accepted Sample.research_proof Research.initial
    (Research.component
       (Research.useEffect_verification Sample.JSON_parse (Some "true") Sample.now
          (Research.mount Sample.research_storage)).1).
Proof.
  refine (proj1 (proj1 (proof_accepted_iff_purpose_and_fresh
                          Sample.JSON_parse Sample.now
                          Sample.research_json Sample.research_proof _ _)
                       (Research.mount Sample.research_storage) _) _).
  - discriminate.
  - reflexivity.
  - vm_compute. reflexivity.
  - split; [reflexivity | unfold fresh; vm_compute; reflexivity].
Defined.

(** ** Submission *)

Lemma research_onSubmit_blocked dept outcome v (w : Research.World) :
  Research.isVerified (Research.component w) = false
  ∨ lacks_session (Research.verificationData (Research.component w)) →
  Research.onSubmit dept outcome v w
  = (w, [toast "Verify your campus email before submitting" true]).
Proof.
  unfold Research.onSubmit, lacks_session.
  destruct (Research.isVerified (Research.component w));
    destruct (Research.verificationData (Research.component w)) as [vd |];
    cbn; try reflexivity.
  intros [H | H]; [discriminate | rewrite H; reflexivity].
Qed.

Lemma journal_onSubmit_blocked dept outcome v (w : Journal.World) :
  Journal.isVerified (Journal.component w) = false
  ∨ lacks_session (Journal.verificationData (Journal.component w)) →
  Journal.onSubmit dept outcome v w
  = (w, [toast "Verify your campus email before submitting" true]).
Proof.
  unfold Journal.onSubmit, lacks_session.
  destruct (Journal.isVerified (Journal.component w));
    destruct (Journal.verificationData (Journal.component w)) as [vd |];
    cbn; try reflexivity.
  intros [H | H]; [discriminate | rewrite H; reflexivity].
Qed.

(** C2. With the verified flag unset, or with no session identifier in the
    captured verification data, submitting on either form shows the error
    notice and nothing else: no request is sent and the state is unchanged. *)
Theorem unverified_submit_sends_nothing
    (dept : string) (outcome : FetchOutcome)
    (vr : Research.ResearchFormValues.t) (wr : Research.World)
    (vj : Journal.JournalFormValues.t) (wj : Journal.World)
    (Hr : Research.isVerified (Research.component wr) = false
          ∨ lacks_session (Research.verificationData (Research.component wr)))
    (Hj : Journal.isVerified (Journal.component wj) = false
          ∨ lacks_session (Journal.verificationData (Journal.component wj))) :
  (Research.onSubmit dept outcome vr wr
     = (wr, [toast "Verify your campus email before submitting" true])
   ∧ no_fetch (Research.onSubmit dept outcome vr wr).2)
  ∧ (Journal.onSubmit dept outcome vj wj
       = (wj, [toast "Verify your campus email before submitting" true])
     ∧ no_fetch (Journal.onSubmit dept outcome vj wj).2).
Proof.
  rewrite (research_onSubmit_blocked dept outcome vr wr Hr).
  rewrite (journal_onSubmit_blocked dept outcome vj wj Hj).
  repeat split.
Qed.

(** Both forms right after mounting, and a network that would have answered
    with success. *)
Lemma unverified_submit_witness :
  (Research.onSubmit "d1" (Resolves Sample.ok_response) Research.defaultValues
     (Research.mount ∅)
   = (Research.mount ∅, [toast "Verify your campus email before submitting" true])
   ∧ no_fetch (Research.onSubmit "d1" (Resolves Sample.ok_response)
                 Research.defaultValues (Research.mount ∅)).2)
  ∧ (Journal.onSubmit "d1" (Resolves Sample.ok_response) Sample.journal_values
       (Journal.mount ∅)
     = (Journal.mount ∅, [toast "Verify your campus email before submitting" true])
     ∧ no_fetch (Journal.onSubmit "d1" (Resolves Sample.ok_response)
                   Sample.journal_values (Journal.mount ∅)).2).
Proof.
  apply (unverified_submit_sends_nothing "d1" (Resolves Sample.ok_response)
           Research.defaultValues (Research.mount ∅)
           Sample.journal_values (Journal.mount ∅));
    left; reflexivity.
Defined.

Lemma research_onSubmit_open dept outcome v (w : Research.World) vd :
  research_verified w vd →
  Research.onSubmit dept outcome v w
  = let request :=
      fetch "/api/submissions/research"
            (Research.submission (Research.payload_of dept v vd)) in
    match outcome with
    | Rejects e =>
        (w, [request; toast (message_of e "Failed to submit research") true])
    | Resolves response =>
        if Response.ok response then
          ({| Research.component := Research.initial;
              Research.sessionStorage :=
                delete "verification_complete" (Research.sessionStorage w) |},
           [request;
            toast "Research submitted for departmental review" false;
            sessionStorage_removeItem "verification_complete"])
        else
          (w, [request;
               toast (JS.or_default (detail_or_error (json_or_empty response))
                                    "Failed to submit research") true])
    end.
Proof.
  intros (Hv & Hd & Hs). apply truthy_true in Hs.
  unfold Research.onSubmit. settle.
  by_outcome outcome; reflexivity.
Qed.

Lemma journal_onSubmit_no_author dept outcome v (w : Journal.World) vd :
  journal_verified w vd →
  Journal.authors_of (Journal.JournalFormValues.authors v) = [] →
  Journal.onSubmit dept outcome v w = (w, [toast "Add at least one author" true]).
Proof.
  intros (Hv & Hd & Hs) Hnone. apply truthy_true in Hs.
  unfold Journal.onSubmit. settle. reflexivity.
Qed.

Lemma journal_onSubmit_open dept outcome v (w : Journal.World) vd :
  journal_verified w vd →
  Journal.authors_of (Journal.JournalFormValues.authors v) ≠ [] →
  Journal.onSubmit dept outcome v w
  = let request :=
      fetch "/api/submissions/journal"
            (Journal.submission
               (Journal.payload_of dept v
                  (Journal.authors_of (Journal.JournalFormValues.authors v)) vd)) in
    match outcome with
    | Rejects e =>
        (w, [request; toast (message_of e "Failed to submit article") true])
    | Resolves response =>
        if Response.ok response then
          ({| Journal.component := Journal.initial;
              Journal.sessionStorage :=
                delete "verification_complete" (Journal.sessionStorage w) |},
           [request;
            toast "Journal article submitted" false;
            sessionStorage_removeItem "verification_complete"])
        else
          (w, [request;
               toast (JS.or_default (detail_or_error (json_or_empty response))
                                    "Failed to submit article") true])
    end.
Proof.
  intros (Hv & Hd & Hs) Hsome. apply truthy_true in Hs.
  unfold Journal.onSubmit. settle.
  destruct (Journal.authors_of (Journal.JournalFormValues.authors v)) as [| a l] eqn:Ha;
    [congruence |].
  cbn. by_outcome outcome; reflexivity.
Qed.

(** Whoever sees a request in the trace of [onSubmit] knows the state passed
    the guard and which payload went out. *)
Lemma research_fetch_inv dept outcome v (w : Research.World) url body :
  In (fetch url body) (Research.onSubmit dept outcome v w).2 →
  ∃ vd, research_verified w vd
        ∧ url = "/api/submissions/research"
        ∧ body = Research.submission (Research.payload_of dept v vd).
Proof.
  destruct (Research.isVerified (Research.component w)) eqn:Hv.
  2:{ rewrite research_onSubmit_blocked by (left; exact Hv).
      cbn. intros [H | []]. discriminate. }
  destruct (Research.verificationData (Research.component w)) as [vd |] eqn:Hd.
  2:{ rewrite research_onSubmit_blocked by (right; rewrite Hd; exact I).
      cbn. intros [H | []]. discriminate. }
  destruct (VerificationData.sessionId vd) as [| c r] eqn:Hs.
  { rewrite research_onSubmit_blocked by (right; rewrite Hd; exact Hs).
    cbn. intros [H | []]. discriminate. }
  assert (Hopen : research_verified w vd).
  { repeat split; [exact Hv | exact Hd | rewrite Hs; discriminate]. }
  rewrite (research_onSubmit_open dept outcome v w vd Hopen).
  intros Hin. exists vd. split; [exact Hopen |].
  by_outcome outcome; cbn in Hin;
    repeat match goal with
           | H : _ ∨ _ |- _ => destruct H as [H | H]
           | H : False |- _ => destruct H
           end;
    try discriminate; injection Hin as <- <-; split; reflexivity.
Qed.

Lemma journal_fetch_inv dept outcome v (w : Journal.World) url body :
  In (fetch url body) (Journal.onSubmit dept outcome v w).2 →
  ∃ vd, journal_verified w vd
        ∧ Journal.authors_of (Journal.JournalFormValues.authors v) ≠ []
        ∧ url = "/api/submissions/journal"
        ∧ body = Journal.submission
                   (Journal.payload_of dept v
                      (Journal.authors_of (Journal.JournalFormValues.authors v)) vd).
Proof.
  destruct (Journal.isVerified (Journal.component w)) eqn:Hv.
  2:{ rewrite journal_onSubmit_blocked by (left; exact Hv).
      cbn. intros [H | []]. discriminate. }
  destruct (Journal.verificationData (Journal.component w)) as [vd |] eqn:Hd.
  2:{ rewrite journal_onSubmit_blocked by (right; rewrite Hd; exact I).
      cbn. intros [H | []]. discriminate. }
  destruct (VerificationData.sessionId vd) as [| c r] eqn:Hs.
  { rewrite journal_onSubmit_blocked by (right; rewrite Hd; exact Hs).
    cbn. intros [H | []]. discriminate. }
  assert (Hopen : journal_verified w vd).
  { repeat split; [exact Hv | exact Hd | rewrite Hs; discriminate]. }
  destruct (Journal.authors_of (Journal.JournalFormValues.authors v)) as [| a l] eqn:Ha.
  { rewrite (journal_onSubmit_no_author dept outcome v w vd Hopen Ha).
    cbn. intros [H | []]. discriminate. }
  assert (Hsome : Journal.authors_of (Journal.JournalFormValues.authors v) ≠ [])
    by (rewrite Ha; discriminate).
  rewrite (journal_onSubmit_open dept outcome v w vd Hopen Hsome).
  intros Hin. exists vd. split; [exact Hopen |]. split; [discriminate |].
  rewrite Ha in Hin.
  by_outcome outcome; cbn in Hin;
    repeat match goal with
           | H : _ ∨ _ |- _ => destruct H as [H | H]
           | H : False |- _ => destruct H
           end;
    try discriminate; injection Hin as <- <-; split; reflexivity.
Qed.

(** ** Person rows *)

Lemma filter_after_map {A B : Type} (f : A → B) (p : B → bool) (l : list A) :
  List.filter p (List.map f l) = List.map f (List.filter (λ x, p (f x)) l).
Proof.
  induction l as [| x l IH]; cbn; [reflexivity |].
  destruct (p (f x)); cbn; rewrite IH; reflexivity.
Qed.

Lemma or_undefined_trim (entered : string) :
  absent_if_blank entered (JS.or_undefined (JS.trim entered)).
Proof.
  unfold absent_if_blank, JS.or_undefined, JS.truthy.
  destruct (JS.trim entered); reflexivity.
Qed.

Lemma absent_if_blank_not_empty (entered : string) (sent : option string) :
  absent_if_blank entered sent → sent ≠ Some "".
Proof.
  unfold absent_if_blank. destruct (JS.trim entered); intros ->; discriminate.
Qed.

Lemma participants_of_named dept (rows : list Research.ParticipantForm.t) :
  Research.participants_of dept rows
  = List.map (Research.participant_of dept) (List.filter named_participant rows).
Proof.
  unfold Research.participants_of.
  exact (filter_after_map (Research.participant_of dept) _ rows).
Qed.

Lemma authors_of_named (rows : list Journal.AuthorForm.t) :
  Journal.authors_of rows = List.map Journal.author_of (List.filter named_author rows).
Proof.
  unfold Journal.authors_of.
  exact (filter_after_map Journal.author_of _ rows).
Qed.

Lemma research_handleSubmit_valid dept outcome (w : Research.World) :
  Research.errors_of (Research.values (Research.component w)) = [] →
  Research.handleSubmit dept outcome w
  = (Research.onSubmit dept outcome (Research.values (Research.component w)) w, []).
Proof. intros H. unfold Research.handleSubmit. rewrite H. reflexivity. Qed.

Lemma research_handleSubmit_invalid dept outcome (w : Research.World) :
  Research.errors_of (Research.values (Research.component w)) ≠ [] →
  Research.handleSubmit dept outcome w
  = (w, [], Research.errors_of (Research.values (Research.component w))).
Proof.
  intros H. unfold Research.handleSubmit.
  destruct (Research.errors_of (Research.values (Research.component w)));
    [congruence | reflexivity].
Qed.

Lemma journal_handleSubmit_valid dept outcome (w : Journal.World) :
  Journal.errors_of (Journal.values (Journal.component w)) = [] →
  Journal.handleSubmit dept outcome w
  = (Journal.onSubmit dept outcome (Journal.values (Journal.component w)) w, []).
Proof. intros H. unfold Journal.handleSubmit. rewrite H. reflexivity. Qed.

Lemma journal_handleSubmit_invalid dept outcome (w : Journal.World) :
  Journal.errors_of (Journal.values (Journal.component w)) ≠ [] →
  Journal.handleSubmit dept outcome w
  = (w, [], Journal.errors_of (Journal.values (Journal.component w))).
Proof.
  intros H. unfold Journal.handleSubmit.
  destruct (Journal.errors_of (Journal.values (Journal.component w)));
    [congruence | reflexivity].
Qed.

Lemma named_author_is_kept (rows : list Journal.AuthorForm.t) :
  List.existsb named_author rows = true → Journal.authors_of rows ≠ [].
Proof.
  rewrite authors_of_named. induction rows as [| r rows IH]; cbn; [discriminate |].
  destruct (named_author r); cbn; [discriminate | exact IH].
Qed.

Lemma research_onSubmit_sends dept outcome v (w : Research.World) vd :
  research_verified w vd →
  ∃ rest,
    (Research.onSubmit dept outcome v w).2
    = fetch "/api/submissions/research"
        (Research.submission (Research.payload_of dept v vd)) :: rest.
Proof.
  intros Hopen. rewrite (research_onSubmit_open dept outcome v w vd Hopen).
  destruct outcome as [e | [[] j]]; eexists; reflexivity.
Qed.

Lemma journal_onSubmit_sends dept outcome v (w : Journal.World) vd :
  journal_verified w vd →
  List.existsb named_author (Journal.JournalFormValues.authors v) = true →
  ∃ rest,
    (Journal.onSubmit dept outcome v w).2
    = fetch "/api/submissions/journal"
        (Journal.submission
           (Journal.payload_of dept v
              (Journal.authors_of (Journal.JournalFormValues.authors v)) vd)) :: rest.
Proof.
  intros Hopen Hnamed. apply named_author_is_kept in Hnamed.
  rewrite (journal_onSubmit_open dept outcome v w vd Hopen Hnamed).
  destruct outcome as [e | [[] j]]; eexists; reflexivity.
Qed.

(** C3. A verified form sends the rows that have a name. The call of
    [onSubmit] on a verified research form, and on a verified journal form with
    a named author, begins with a request whose person array is the list of
    the rows whose name is not blank, in the order entered, each row
    normalised on its own; the same holds of the submit handler
    [handleSubmit(onSubmit)] when no [required] rule is broken. No other
    request is ever sent: every request in a trace of [onSubmit] has that
    person array. A normalised row carries the trimmed name, and each of its
    optional text fields is absent when blank and never the empty string,
    whatever the other fields of the row hold. *)
Theorem payload_persons_are_the_named_rows (dept : string) :
  (∀ outcome v w vd,
      research_verified w vd →
      ∃ payload rest,
        (Research.onSubmit dept outcome v w).2
        = fetch "/api/submissions/research" (Research.submission payload) :: rest
        ∧ Research.Payload.participants payload
          = List.map (Research.participant_of dept)
              (List.filter named_participant (Research.ResearchFormValues.participants v)))
  ∧ (∀ outcome v w vd,
      journal_verified w vd →
      List.existsb named_author (Journal.JournalFormValues.authors v) = true →
      ∃ payload rest,
        (Journal.onSubmit dept outcome v w).2
        = fetch "/api/submissions/journal" (Journal.submission payload) :: rest
        ∧ Journal.Payload.authors payload
          = List.map Journal.author_of
              (List.filter named_author (Journal.JournalFormValues.authors v)))
  ∧ (∀ outcome w vd,
      research_verified w vd →
      Research.errors_of (Research.values (Research.component w)) = [] →
      ∃ payload rest,
        (Research.handleSubmit dept outcome w).1.2
        = fetch "/api/submissions/research" (Research.submission payload) :: rest
        ∧ Research.Payload.participants payload
          = List.map (Research.participant_of dept)
              (List.filter named_participant
                 (Research.ResearchFormValues.participants
                    (Research.values (Research.component w)))))
  ∧ (∀ outcome w vd,
      journal_verified w vd →
      Journal.errors_of (Journal.values (Journal.component w)) = [] →
      List.existsb named_author
        (Journal.JournalFormValues.authors (Journal.values (Journal.component w))) = true →
      ∃ payload rest,
        (Journal.handleSubmit dept outcome w).1.2
        = fetch "/api/submissions/journal" (Journal.submission payload) :: rest
        ∧ Journal.Payload.authors payload
          = List.map Journal.author_of
              (List.filter named_author
                 (Journal.JournalFormValues.authors (Journal.values (Journal.component w)))))
  ∧ (∀ outcome v w url payload,
      In (fetch url (Research.submission payload)) (Research.onSubmit dept outcome v w).2 →
      Research.Payload.participants payload
      = List.map (Research.participant_of dept)
          (List.filter named_participant (Research.ResearchFormValues.participants v)))
  ∧ (∀ outcome v w url payload,
      In (fetch url (Journal.submission payload)) (Journal.onSubmit dept outcome v w).2 →
      Journal.Payload.authors payload
      = List.map Journal.author_of
          (List.filter named_author (Journal.JournalFormValues.authors v)))
  ∧ (∀ r : Research.ParticipantForm.t,
      let p := Research.participant_of dept r in
      Research.Participant.full_name p = JS.trim (Research.ParticipantForm.fullName r)
      ∧ absent_if_blank (Research.ParticipantForm.email r) (Research.Participant.email p)
      ∧ absent_if_blank (Research.ParticipantForm.role r) (Research.Participant.role p)
      ∧ absent_if_blank (Research.ParticipantForm.designation r)
                        (Research.Participant.designation p)
      ∧ absent_if_blank (Research.ParticipantForm.organization r)
                        (Research.Participant.organization p)
      ∧ absent_if_blank (Research.ParticipantForm.linkedinUrl r)
                        (Research.Participant.linkedin_url p)
      ∧ absent_if_blank (Research.ParticipantForm.orcidId r)
                        (Research.Participant.orcid_id p))
  ∧ (∀ r : Journal.AuthorForm.t,
      let a := Journal.author_of r in
      Journal.Author.given_name a = JS.trim (Journal.AuthorForm.givenName r)
      ∧ absent_if_blank (Journal.AuthorForm.familyName r) (Journal.Author.family_name a)
      ∧ absent_if_blank (Journal.AuthorForm.email r) (Journal.Author.email a)
      ∧ absent_if_blank (Journal.AuthorForm.affiliation r) (Journal.Author.affiliation a)
      ∧ absent_if_blank (Journal.AuthorForm.country r) (Journal.Author.country a)
      ∧ absent_if_blank (Journal.AuthorForm.bio r) (Journal.Author.bio a)).
Proof.
  assert (Hr : ∀ outcome v w vd,
      research_verified w vd →
      ∃ payload rest,
        (Research.onSubmit dept outcome v w).2
        = fetch "/api/submissions/research" (Research.submission payload) :: rest
        ∧ Research.Payload.participants payload
          = List.map (Research.participant_of dept)
              (List.filter named_participant (Research.ResearchFormValues.participants v))).
  { intros outcome v w vd Hopen.
    destruct (research_onSubmit_sends dept outcome v w vd Hopen) as [rest Htrace].
    exists (Research.payload_of dept v vd), rest.
    split; [exact Htrace | apply participants_of_named]. }
  assert (Hj : ∀ outcome v w vd,
      journal_verified w vd →
      List.existsb named_author (Journal.JournalFormValues.authors v) = true →
      ∃ payload rest,
        (Journal.onSubmit dept outcome v w).2
        = fetch "/api/submissions/journal" (Journal.submission payload) :: rest
        ∧ Journal.Payload.authors payload
          = List.map Journal.author_of
              (List.filter named_author (Journal.JournalFormValues.authors v))).
  { intros outcome v w vd Hopen Hnamed.
    destruct (journal_onSubmit_sends dept outcome v w vd Hopen Hnamed) as [rest Htrace].
    eexists _, rest. split; [exact Htrace | apply authors_of_named]. }
  split; [exact Hr |]. split; [exact Hj |].
  split; [| split; [| split; [| split; [| split]]]].
  - intros outcome w vd Hopen Hvalid.
    rewrite (research_handleSubmit_valid dept outcome w Hvalid).
    apply (Hr outcome _ w vd Hopen).
  - intros outcome w vd Hopen Hvalid Hnamed.
    rewrite (journal_handleSubmit_valid dept outcome w Hvalid).
    apply (Hj outcome _ w vd Hopen Hnamed).
  - intros outcome v w url payload Hin.
    apply research_fetch_inv in Hin as (vd & _ & _ & Hbody).
    injection Hbody as ->. cbn. apply participants_of_named.
  - intros outcome v w url payload Hin.
    apply journal_fetch_inv in Hin as (vd & _ & _ & _ & Hbody).
    injection Hbody as ->. cbn. apply authors_of_named.
  - intros r. cbn. repeat split; apply or_undefined_trim.
  - intros r. cbn. repeat split; apply or_undefined_trim.
Qed.

(** The verified journal form of the samples, one author of whom only the
    given name is entered, is submitted: the first effect is the request, and
    it carries that author, everything else absent. *)
Lemma payload_persons_witness :
  ∃ payload rest,
    (Journal.handleSubmit "d1" (Resolves Sample.ok_response) Sample.journal_world).1.2
    = fetch "/api/submissions/journal" (Journal.submission payload) :: rest
    ∧ Journal.Payload.authors payload
      = [ {| Journal.Author.given_name := "Ada";
             Journal.Author.family_name := None;
             Journal.Author.email := None;
             Journal.Author.affiliation := None;
             Journal.Author.country := None;
             Journal.Author.bio := None |} ].
Proof.
  refine (proj1 (proj2 (proj2 (proj2 (payload_persons_are_the_named_rows "d1"))))
            (Resolves Sample.ok_response) Sample.journal_world Sample.verified_data _ _ _).
  - repeat split. discriminate.
  - reflexivity.
  - reflexivity.
Defined.

(** ** The identity the payload carries *)

Lemma research_payload_ignores_typed_email dept typed v vd :
  Research.payload_of dept (Research.ResearchFormValues.set_submittedByEmail typed v) vd
  = Research.payload_of dept v vd.
Proof. reflexivity. Qed.

Lemma journal_payload_ignores_typed_email dept typed v authors vd :
  Journal.payload_of dept (Journal.JournalFormValues.set_submittedByEmail typed v) authors vd
  = Journal.payload_of dept v authors vd.
Proof. reflexivity. Qed.

Lemma research_onSubmit_ignores_typed_email dept outcome typed v w :
  Research.onSubmit dept outcome (Research.ResearchFormValues.set_submittedByEmail typed v) w
  = Research.onSubmit dept outcome v w.
Proof. reflexivity. Qed.

Lemma journal_onSubmit_ignores_typed_email dept outcome typed v w :
  Journal.onSubmit dept outcome (Journal.JournalFormValues.set_submittedByEmail typed v) w
  = Journal.onSubmit dept outcome v w.
Proof. reflexivity. Qed.

(** C6. In every payload either form sends, [submitted_by_email] is the email
    captured from the verification proof and [otp_session] is the proof's
    session identifier; two submissions that differ only in the email typed
    into the form behave alike, so the typed email never reaches the
    payload. *)
Theorem payload_identity_is_the_verified_one (dept : string) :
  (∀ outcome v w url payload,
      In (fetch url (Research.submission payload)) (Research.onSubmit dept outcome v w).2 →
      ∃ vd, Research.verificationData (Research.component w) = Some vd
            ∧ Research.Payload.submitted_by_email payload = VerificationData.email vd
            ∧ Research.Payload.otp_session payload = VerificationData.sessionId vd)
  ∧ (∀ outcome v w url payload,
      In (fetch url (Journal.submission payload)) (Journal.onSubmit dept outcome v w).2 →
      ∃ vd, Journal.verificationData (Journal.component w) = Some vd
            ∧ Journal.Payload.submitted_by_email payload = VerificationData.email vd
            ∧ Journal.Payload.otp_session payload = VerificationData.sessionId vd)
  ∧ (∀ data before outcome v w url payload,
      research_accepted data before (Research.component w) →
      In (fetch url (Research.submission payload)) (Research.onSubmit dept outcome v w).2 →
      Research.Payload.submitted_by_email payload = StoredProof.email data
      ∧ Research.Payload.otp_session payload = StoredProof.sessionId data)
  ∧ (∀ data before outcome v w url payload,
      journal_accepted data before (Journal.component w) →
      In (fetch url (Journal.submission payload)) (Journal.onSubmit dept outcome v w).2 →
      Journal.Payload.submitted_by_email payload = StoredProof.email data
      ∧ Journal.Payload.otp_session payload = StoredProof.sessionId data)
  ∧ (∀ outcome typed v w,
      Research.onSubmit dept outcome
        (Research.ResearchFormValues.set_submittedByEmail typed v) w
      = Research.onSubmit dept outcome v w)
  ∧ (∀ outcome typed v w,
      Journal.onSubmit dept outcome
        (Journal.JournalFormValues.set_submittedByEmail typed v) w
      = Journal.onSubmit dept outcome v w).
Proof.
  assert (Hr : ∀ outcome v w url payload,
      In (fetch url (Research.submission payload)) (Research.onSubmit dept outcome v w).2 →
      ∃ vd, Research.verificationData (Research.component w) = Some vd
            ∧ Research.Payload.submitted_by_email payload = VerificationData.email vd
            ∧ Research.Payload.otp_session payload = VerificationData.sessionId vd).
  { intros outcome v w url payload Hin.
    apply research_fetch_inv in Hin as (vd & (_ & Hd & _) & _ & Hbody).
    injection Hbody as ->. exists vd. repeat split. exact Hd. }
  assert (Hj : ∀ outcome v w url payload,
      In (fetch url (Journal.submission payload)) (Journal.onSubmit dept outcome v w).2 →
      ∃ vd, Journal.verificationData (Journal.component w) = Some vd
            ∧ Journal.Payload.submitted_by_email payload = VerificationData.email vd
            ∧ Journal.Payload.otp_session payload = VerificationData.sessionId vd).
  { intros outcome v w url payload Hin.
    apply journal_fetch_inv in Hin as (vd & (_ & Hd & _) & _ & _ & Hbody).
    injection Hbody as ->. exists vd. repeat split. exact Hd. }
  split; [exact Hr |]. split; [exact Hj |].
  split; [| split; [| split]].
  - intros data before outcome v w url payload (_ & Hcaptured & _) Hin.
    destruct (Hr outcome v w url payload Hin) as (vd & Hd & -> & ->).
    rewrite Hcaptured in Hd. injection Hd as <-. split; reflexivity.
  - intros data before outcome v w url payload (_ & Hcaptured & _) Hin.
    destruct (Hj outcome v w url payload Hin) as (vd & Hd & -> & ->).
    rewrite Hcaptured in Hd. injection Hd as <-. split; reflexivity.
  - intros. apply research_onSubmit_ignores_typed_email.
  - intros. apply journal_onSubmit_ignores_typed_email.
Qed.

(** The verified research form into which another email was typed sends the
    verified email and session. *)
Lemma payload_identity_witness :
  ∃ vd, Research.verificationData (Research.component Sample.research_world) = Some vd
        ∧ Research.Payload.submitted_by_email
            (Research.payload_of "d1"
               (Research.values (Research.component Sample.research_world))
               Sample.verified_data)
          = VerificationData.email vd
        ∧ Research.Payload.otp_session
            (Research.payload_of "d1"
               (Research.values (Research.component Sample.research_world))
               Sample.verified_data)
          = VerificationData.sessionId vd.
Proof.
  refine (proj1 (payload_identity_is_the_verified_one "d1")
            (Resolves Sample.ok_response)
            (Research.values (Research.component Sample.research_world))
            Sample.research_world "/api/submissions/research" _ _).
  vm_compute. left. reflexivity.
Defined.

(** ** Success, failure and unmounting *)

Lemma some_author_named (rows : list Journal.AuthorForm.t) :
  List.existsb named_author rows = true ↔ Journal.authors_of rows ≠ [].
Proof.
  rewrite authors_of_named. induction rows as [| r rows IH]; cbn.
  - split; [discriminate | congruence].
  - destruct (named_author r); cbn; [split; [discriminate | reflexivity] | exact IH].
Qed.

Lemma no_author_named (rows : list Journal.AuthorForm.t) :
  List.existsb named_author rows = false ↔ Journal.authors_of rows = [].
Proof.
  rewrite authors_of_named. induction rows as [| r rows IH]; cbn.
  - split; reflexivity.
  - destruct (named_author r); cbn; [split; discriminate | exact IH].
Qed.

(** The claim that unmounting removes the stored proof fails: a verified form
    of either kind that is unmounted leaves the proof under its key. *)
Lemma unmount_keeps_the_stored_proof :
  Research.unmount Sample.research_world !! "verification_complete"
  = Some Sample.research_json
  ∧ Journal.unmount Sample.journal_world !! "verification_complete"
    = Some Sample.journal_json.
Proof. split; vm_compute; reflexivity. Qed.

(** A proof left behind by an unmounted form verifies the form mounted next. *)
Lemma remount_is_verified_again :
  Research.isVerified
    (Research.component
       (Research.useEffect_verification Sample.JSON_parse (Some "true") Sample.now
          (Research.mount (Research.unmount Sample.research_world))).1)
  = true.
Proof. vm_compute. reflexivity. Qed.

(** C4, amended. A successful submission puts every field back to its default,
    clears the verified flag and the captured verification data, and removes
    the storage key [verification_complete]. Unmounting drops the component's
    state, so the form mounted next starts unverified with default fields, but
    it leaves the storage, the stored proof included, as it was. *)
Theorem success_resets_and_unmount_keeps_storage
    (dept : string) (response : Response.t)
    (vr : Research.ResearchFormValues.t) (wr : Research.World)
    (vj : Journal.JournalFormValues.t) (wj : Journal.World)
    (vdr vdj : VerificationData.t)
    (Hok : Response.ok response = true)
    (Hr : research_verified wr vdr)
    (Hj : journal_verified wj vdj)
    (Hauthor : List.existsb named_author (Journal.JournalFormValues.authors vj) = true) :
  (let w' := (Research.onSubmit dept (Resolves response) vr wr).1 in
   Research.values (Research.component w') = Research.defaultValues
   ∧ Research.isVerified (Research.component w') = false
   ∧ Research.verificationData (Research.component w') = None
   ∧ Research.sessionStorage w' = delete "verification_complete" (Research.sessionStorage wr)
   ∧ Research.sessionStorage w' !! "verification_complete" = None)
  ∧ (let w' := (Journal.onSubmit dept (Resolves response) vj wj).1 in
     Journal.values (Journal.component w') = Journal.defaultValues
     ∧ Journal.isVerified (Journal.component w') = false
     ∧ Journal.verificationData (Journal.component w') = None
     ∧ Journal.sessionStorage w' = delete "verification_complete" (Journal.sessionStorage wj)
     ∧ Journal.sessionStorage w' !! "verification_complete" = None)
  ∧ (Research.unmount wr = Research.sessionStorage wr
     ∧ Research.component (Research.mount (Research.unmount wr)) = Research.initial)
  ∧ (Journal.unmount wj = Journal.sessionStorage wj
     ∧ Journal.component (Journal.mount (Journal.unmount wj)) = Journal.initial).
Proof.
  assert (Hsome : Journal.authors_of (Journal.JournalFormValues.authors vj) ≠ [])
    by (apply some_author_named; exact Hauthor).
  cbn zeta.
  rewrite (research_onSubmit_open dept (Resolves response) vr wr vdr Hr).
  rewrite (journal_onSubmit_open dept (Resolves response) vj wj vdj Hj Hsome).
  cbn zeta. rewrite Hok. cbn.
  repeat split; apply lookup_delete_eq.
Qed.

(** The verified sample forms submit with success. *)
Lemma success_resets_witness :
  let w' := (Research.onSubmit "d1" (Resolves Sample.ok_response)
               Research.defaultValues Sample.research_world).1 in
  Research.values (Research.component w') = Research.defaultValues
  ∧ Research.isVerified (Research.component w') = false
  ∧ Research.verificationData (Research.component w') = None
  ∧ Research.sessionStorage w'
    = delete "verification_complete" (Research.sessionStorage Sample.research_world)
  ∧ Research.sessionStorage w' !! "verification_complete" = None.
Proof.
  refine (proj1 (success_resets_and_unmount_keeps_storage
                   "d1" Sample.ok_response
                   Research.defaultValues Sample.research_world
                   Sample.journal_values Sample.journal_world
                   Sample.verified_data Sample.verified_data _ _ _ _)).
  - reflexivity.
  - repeat split. discriminate.
  - repeat split. discriminate.
  - reflexivity.
Defined.

(** The claim that a rejected request shows the server's message or the
    generic one fails: a request rejected with the error [Failed to fetch]
    shows that very message, which is not the one specified. *)
Lemma rejected_request_shows_the_thrown_message :
  (Research.onSubmit "d1" (Rejects (ErrorObj "Failed to fetch"))
     Research.defaultValues Sample.research_world).2
  = [ fetch "/api/submissions/research"
        (Research.submission
           (Research.payload_of "d1" Research.defaultValues Sample.verified_data));
      toast "Failed to fetch" true ]
  ∧ specified_message (Rejects (ErrorObj "Failed to fetch")) "Failed to submit research"
    ≠ "Failed to fetch".
Proof. split; [reflexivity | discriminate]. Qed.

(** C5, amended. A failing submission, whether the request is rejected or
    answered without success, leaves the entered values, the verified flag,
    the captured verification data and the storage exactly as they were, and
    shows one error message after the request: the server's [detail], else its
    [error], else the generic message when the request was answered; the
    thrown error's own message when it was rejected, the generic one if what
    was thrown is not an error. *)
Theorem failed_submit_preserves_state
    (dept : string) (outcome : FetchOutcome)
    (vr : Research.ResearchFormValues.t) (wr : Research.World)
    (vj : Journal.JournalFormValues.t) (wj : Journal.World)
    (vdr vdj : VerificationData.t)
    (Hfail : fails outcome)
    (Hr : research_verified wr vdr)
    (Hj : journal_verified wj vdj)
    (Hauthor : List.existsb named_author (Journal.JournalFormValues.authors vj) = true) :
  Research.onSubmit dept outcome vr wr
  = (wr, [ fetch "/api/submissions/research"
             (Research.submission (Research.payload_of dept vr vdr));
           toast (surfaced_message outcome "Failed to submit research") true ])
  ∧ Journal.onSubmit dept outcome vj wj
    = (wj, [ fetch "/api/submissions/journal"
               (Journal.submission
                  (Journal.payload_of dept vj
                     (Journal.authors_of (Journal.JournalFormValues.authors vj)) vdj));
             toast (surfaced_message outcome "Failed to submit article") true ]).
Proof.
  apply some_author_named in Hauthor.
  rewrite (research_onSubmit_open dept outcome vr wr vdr Hr).
  rewrite (journal_onSubmit_open dept outcome vj wj vdj Hj Hauthor).
  destruct outcome as [e | response]; cbn in Hfail |- *.
  - split; reflexivity.
  - rewrite Hfail. split; reflexivity.
Qed.

(** The verified sample forms, answered 422 with a [detail]. *)
Lemma failed_submit_witness :
  Research.onSubmit "d1"
    (Resolves {| Response.ok := false;
                 Response.json :=
                   json_object {| ResponseBody.detail := Some "Title too long";
                                  ResponseBody.error := None;
                                  ResponseBody.session_id := None;
                                  ResponseBody.sessionId := None |} |})
    Research.defaultValues Sample.research_world
  = (Sample.research_world,
     [ fetch "/api/submissions/research"
         (Research.submission
            (Research.payload_of "d1" Research.defaultValues Sample.verified_data));
       toast "Title too long" true ]).
Proof.
  refine (proj1 (failed_submit_preserves_state "d1" _
                   Research.defaultValues Sample.research_world
                   Sample.journal_values Sample.journal_world
                   Sample.verified_data Sample.verified_data _ _ _ _)).
  - reflexivity.
  - repeat split. discriminate.
  - repeat split. discriminate.
  - reflexivity.
Defined.

(** ** Rows without a name *)

Lemma no_participant_named dept (rows : list Research.ParticipantForm.t) :
  List.existsb named_participant rows = false ↔ Research.participants_of dept rows = [].
Proof.
  rewrite participants_of_named. induction rows as [| r rows IH]; cbn.
  - split; reflexivity.
  - destruct (named_participant r); cbn; [split; discriminate | exact IH].
Qed.

Lemma research_rows_break_no_rule (rows : list Research.ParticipantForm.t) v :
  Research.errors_of (Research.with_participants rows v) = Research.errors_of v.
Proof. reflexivity. Qed.

Lemma journal_empty_name_is_an_error (v : Journal.JournalFormValues.t) i a :
  Journal.JournalFormValues.authors v !! i = Some a →
  Journal.AuthorForm.givenName a = "" →
  In (Journal.Field.authors_givenName i, "Required") (Journal.errors_of v).
Proof.
  intros Hget Hempty. unfold Journal.errors_of.
  do 3 (apply in_or_app; right).
  apply in_concat.
  exists (Journal.required (Journal.Field.authors_givenName i) "Required"
            (Journal.AuthorForm.givenName a)).
  split.
  - apply list_elem_of_In, list_elem_of_lookup. exists i.
    rewrite list_lookup_imap, Hget. reflexivity.
  - rewrite Hempty. cbn. left. reflexivity.
Qed.

(** The claim that a row with an empty name is never an error, and that
    dropping every row never aborts the submission, fails on the journal form.
    With title, genre and abstract filled in, the verified form whose only
    author row holds two spaces passes the rules, drops the row, shows
    [Add at least one author] and sends nothing; and the verified form with a
    named author and the empty row of the add button is refused by the
    [required] rule of that row and sends nothing. The same form with the
    named author alone sends its request. *)
Lemma journal_nameless_rows_stop_the_submission :
  Journal.handleSubmit "d1" (Resolves Sample.ok_response) Cases.spaces_world
  = (Cases.spaces_world, [toast "Add at least one author" true], [])
  ∧ Journal.handleSubmit "d1" (Resolves Sample.ok_response) Cases.added_row_world
    = (Cases.added_row_world, [], [(Journal.Field.authors_givenName 1, "Required")])
  ∧ ∃ request w' rest,
      Journal.handleSubmit "d1" (Resolves Sample.ok_response) Sample.journal_world
      = (w', fetch "/api/submissions/journal" request :: rest, []).
Proof.
  split; [reflexivity | split; [reflexivity |]].
  eexists _, _, _. reflexivity.
Qed.

(** C8, amended. On the research form a person row with an empty post-trim
    name is an unfilled optional row and not an error: no rule looks at the
    rows, and a verified form whose required fields are filled in sends its
    request whatever the rows are, with an empty person array when every row
    is dropped. On the journal form a row whose given name is empty is an
    error: the [required] rule of that row refuses the submission, the error
    is shown under the field and nothing is sent. A row whose given name is
    white space only passes the rule and is dropped without an error as long
    as another row is named; when no row is named the submission is aborted
    with the notice [Add at least one author], nothing is sent and the state
    is kept. *)
Theorem nameless_rows_stop_only_the_journal_form
    (dept : string) (outcome : FetchOutcome)
    (wr : Research.World) (wj : Journal.World)
    (vdr vdj : VerificationData.t)
    (Hr : research_verified wr vdr)
    (Hj : journal_verified wj vdj) :
  let vr := Research.values (Research.component wr) in
  let vj := Journal.values (Journal.component wj) in
  (∀ rows, Research.errors_of (Research.with_participants rows vr) = Research.errors_of vr)
  ∧ (Research.errors_of vr = [] →
     ∃ w' rest,
       Research.handleSubmit dept outcome wr
       = (w',
          fetch "/api/submissions/research"
            (Research.submission (Research.payload_of dept vr vdr)) :: rest,
          []))
  ∧ (List.existsb named_participant (Research.ResearchFormValues.participants vr) = false →
     Research.Payload.participants (Research.payload_of dept vr vdr) = [])
  ∧ (∀ i a,
        Journal.JournalFormValues.authors vj !! i = Some a →
        Journal.AuthorForm.givenName a = "" →
        Journal.handleSubmit dept outcome wj = (wj, [], Journal.errors_of vj)
        ∧ In (Journal.Field.authors_givenName i, "Required") (Journal.errors_of vj))
  ∧ (Journal.errors_of vj = [] →
     List.existsb named_author (Journal.JournalFormValues.authors vj) = true →
     ∃ w' rest,
       Journal.handleSubmit dept outcome wj
       = (w',
          fetch "/api/submissions/journal"
            (Journal.submission
               (Journal.payload_of dept vj
                  (Journal.authors_of (Journal.JournalFormValues.authors vj)) vdj))
            :: rest,
          []))
  ∧ (Journal.errors_of vj = [] →
     List.existsb named_author (Journal.JournalFormValues.authors vj) = false →
     Journal.handleSubmit dept outcome wj
     = (wj, [toast "Add at least one author" true], [])).
Proof.
  cbn zeta. split; [| split; [| split; [| split; [| split]]]].
  - intros rows. apply research_rows_break_no_rule.
  - intros Hvalid. rewrite (research_handleSubmit_valid dept outcome wr Hvalid).
    rewrite (research_onSubmit_open dept outcome _ wr vdr Hr).
    destruct outcome as [e | [[] j]]; eexists _, _; reflexivity.
  - intros Hnone. cbn. by apply no_participant_named.
  - intros i a Hget Hempty.
    pose proof (journal_empty_name_is_an_error _ i a Hget Hempty) as Hin.
    split; [| exact Hin].
    apply journal_handleSubmit_invalid. intros Hnil. rewrite Hnil in Hin. destruct Hin.
  - intros Hvalid Hsome. apply some_author_named in Hsome.
    rewrite (journal_handleSubmit_valid dept outcome wj Hvalid).
    rewrite (journal_onSubmit_open dept outcome _ wj vdj Hj Hsome).
    destruct outcome as [e | [[] j]]; eexists _, _; reflexivity.
  - intros Hvalid Hnone. apply no_author_named in Hnone.
    rewrite (journal_handleSubmit_valid dept outcome wj Hvalid).
    rewrite (journal_onSubmit_no_author dept outcome _ wj vdj Hj Hnone). reflexivity.
Qed.

(** The verified research form with its required fields filled in and its
    only row left blank sends its request, with no participant in it; the
    verified journal form with a named author and a row of spaces sends its
    request too, the row of spaces dropped. *)
Lemma nameless_rows_witness :
  (∃ w' rest,
      Research.handleSubmit "d1" (Resolves Sample.ok_response) Cases.research_world
      = (w',
         fetch "/api/submissions/research"
           (Research.submission
              (Research.payload_of "d1" Cases.research_values Sample.verified_data))
           :: rest,
         []))
  ∧ Research.Payload.participants
      (Research.payload_of "d1" Cases.research_values Sample.verified_data) = []
  ∧ ∃ w' rest,
      Journal.handleSubmit "d1" (Resolves Sample.ok_response) Cases.named_and_spaces_world
      = (w',
         fetch "/api/submissions/journal"
           (Journal.submission
              (Journal.payload_of "d1"
                 (Journal.values (Journal.component Cases.named_and_spaces_world))
                 (Journal.authors_of [Sample.one_author])
                 Sample.verified_data))
           :: rest,
         []).
Proof.
  pose proof (nameless_rows_stop_only_the_journal_form
                "d1" (Resolves Sample.ok_response)
                Cases.research_world Cases.named_and_spaces_world
                Sample.verified_data Sample.verified_data) as H.
  assert (Hr : research_verified Cases.research_world Sample.verified_data)
    by (repeat split; discriminate).
  assert (Hj : journal_verified Cases.named_and_spaces_world Sample.verified_data)
    by (repeat split; discriminate).
  destruct (H Hr Hj) as (_ & Hsent & Hempty & _ & Hnamed & _).
  split; [apply Hsent; reflexivity |].
  split; [apply Hempty; reflexivity |].
  apply Hnamed; reflexivity.
Defined.

(** ** Optional and numeric fields *)

Lemma Number_of_blank (s : string) : JS.trim s = "" → JS.Number s = JS.zero.
Proof. intros H. unfold JS.Number. rewrite H. reflexivity. Qed.

Lemma Number_of_text_is_NaN : JS.Number "abc" = JS.NaN ∧ JS.Number "12 3" = JS.NaN.
Proof. split; reflexivity. Qed.

(** The optional text fields of both payloads are absent when blank. *)
Lemma optional_text_fields_absent_if_blank dept vr vj authors vd :
  let pr := Research.payload_of dept vr vd in
  let pj := Journal.payload_of dept vj authors vd in
  absent_if_blank (Research.ResearchFormValues.fundingAgency vr)
                  (Research.Payload.funding_agency pr)
  ∧ absent_if_blank (Research.ResearchFormValues.keywords vr) (Research.Payload.keywords pr)
  ∧ absent_if_blank (Research.ResearchFormValues.methodology vr)
                    (Research.Payload.methodology pr)
  ∧ absent_if_blank (Research.ResearchFormValues.expectedOutcomes vr)
                    (Research.Payload.expected_outcomes pr)
  ∧ absent_if_blank (Research.ResearchFormValues.publicationsUrl vr)
                    (Research.Payload.publications_url pr)
  ∧ absent_if_blank (Research.ResearchFormValues.projectUrl vr)
                    (Research.Payload.project_url pr)
  ∧ absent_if_blank (Research.ResearchFormValues.githubUrl vr)
                    (Research.Payload.github_url pr)
  ∧ absent_if_blank (Journal.JournalFormValues.keywords vj) (Journal.Payload.keywords pj)
  ∧ absent_if_blank (Journal.JournalFormValues.discipline vj)
                    (Journal.Payload.discipline pj)
  ∧ absent_if_blank (Journal.JournalFormValues.pages vj) (Journal.Payload.pages pj).
Proof. cbn. repeat split; apply or_undefined_trim. Qed.

(** The two dates are not trimmed: an empty entry is absent, any other entry
    is sent as it is. *)
Lemma dates_absent_if_empty dept vr vd :
  Research.Payload.start_date (Research.payload_of dept vr vd)
  = JS.or_undefined (Research.ResearchFormValues.startDate vr)
  ∧ Research.Payload.end_date (Research.payload_of dept vr vd)
    = JS.or_undefined (Research.ResearchFormValues.endDate vr).
Proof. split; reflexivity. Qed.

(** A numeric field is absent exactly when its entry does not parse. *)
Lemma numeric_fields_absent_iff_NaN dept vr vj authors vd :
  (Research.Payload.funding_amount (Research.payload_of dept vr vd) = None
   ↔ JS.Number (Research.ResearchFormValues.fundingAmount vr) = JS.NaN)
  ∧ (Journal.Payload.year (Journal.payload_of dept vj authors vd) = None
     ↔ JS.Number (Journal.JournalFormValues.year vj) = JS.NaN)
  ∧ (Journal.Payload.volume (Journal.payload_of dept vj authors vd) = None
     ↔ JS.Number (Journal.JournalFormValues.volume vj) = JS.NaN)
  ∧ (Journal.Payload.number (Journal.payload_of dept vj authors vd) = None
     ↔ JS.Number (Journal.JournalFormValues.number vj) = JS.NaN).
Proof.
  cbn. repeat split;
    match goal with
    | |- context [JS.Number ?s] => destruct (JS.Number s); cbn; congruence
    end.
Qed.

(** A blank numeric entry parses to zero, so the field is present. *)
Lemma blank_numeric_entry_is_present dept vr vj authors vd :
  (JS.trim (Research.ResearchFormValues.fundingAmount vr) = "" →
   Research.Payload.funding_amount (Research.payload_of dept vr vd) = Some JS.zero)
  ∧ (JS.trim (Journal.JournalFormValues.year vj) = "" →
     Journal.Payload.year (Journal.payload_of dept vj authors vd) = Some JS.zero)
  ∧ (JS.trim (Journal.JournalFormValues.volume vj) = "" →
     Journal.Payload.volume (Journal.payload_of dept vj authors vd) = Some JS.zero)
  ∧ (JS.trim (Journal.JournalFormValues.number vj) = "" →
     Journal.Payload.number (Journal.payload_of dept vj authors vd) = Some JS.zero).
Proof.
  cbn. repeat split; intros H; rewrite (Number_of_blank _ H); reflexivity.
Qed.

(** C7, at the failing input. The verified journal form with year, volume and
    issue left empty, and the verified research form with the funding amount
    left empty, send these fields with the value zero instead of leaving them
    out. *)
Theorem blank_numeric_fields_are_sent_as_zero :
  (∃ payload rest,
      (Journal.onSubmit "d1" (Resolves Sample.ok_response) Sample.journal_values
         Sample.journal_world).2
      = fetch "/api/submissions/journal" (Journal.submission payload) :: rest
      ∧ Journal.JournalFormValues.year Sample.journal_values = ""
      ∧ Journal.Payload.year payload = Some JS.zero
      ∧ Journal.Payload.volume payload = Some JS.zero
      ∧ Journal.Payload.number payload = Some JS.zero)
  ∧ (∃ payload rest,
      (Research.onSubmit "d1" (Resolves Sample.ok_response) Research.defaultValues
         Sample.research_world).2
      = fetch "/api/submissions/research" (Research.submission payload) :: rest
      ∧ Research.ResearchFormValues.fundingAmount Research.defaultValues = ""
      ∧ Research.Payload.funding_amount payload = Some JS.zero).
Proof. split; eexists _, _; repeat split. Qed.

(** ** The verification step *)

(** C9. After a successful answer of the OTP endpoint the verification step
    has sent one request with the trimmed email and name and the form's
    purpose, then stored the trimmed name under [pending_verification_name],
    then navigated to the verification page with the parameters [email],
    [name], [type] and [session], the last one being the session identifier
    the answer issued. *)
Theorem handleVerify_persists_then_navigates
    (response : Response.t) (body : ResponseBody.t) (sid : string)
    (sr : Research.VerificationStep.State) (sj : Journal.VerificationStep.State)
    (storage : gmap string string)
    (Hok : Response.ok response = true)
    (Hbody : json_or_empty response = Some body)
    (Hsid : JS.or_else (ResponseBody.session_id body) (ResponseBody.sessionId body)
            = Some sid)
    (Hr : JS.trim (Research.VerificationStep.name sr) ≠ ""
          ∧ JS.trim (Research.VerificationStep.email sr) ≠ "")
    (Hj : JS.trim (Journal.VerificationStep.name sj) ≠ ""
          ∧ JS.trim (Journal.VerificationStep.email sj) ≠ "") :
  Research.VerificationStep.handleVerify (Resolves response) sr storage
  = (Research.VerificationStep.setSending false sr,
     <["pending_verification_name" := JS.trim (Research.VerificationStep.name sr)]> storage,
     [ fetch "/api/submissions/otp/request"
         (Research.otp_request (JS.trim (Research.VerificationStep.email sr))
            (JS.trim (Research.VerificationStep.name sr)) "research_submission");
       sessionStorage_setItem "pending_verification_name"
         (JS.trim (Research.VerificationStep.name sr));
       router_push
         ("/verification?"
          +:+ JS.URLSearchParams_toString
                [ ("email", JS.trim (Research.VerificationStep.email sr));
                  ("name", JS.trim (Research.VerificationStep.name sr));
                  ("type", "research");
                  ("session", sid) ]) ])
  ∧ Journal.VerificationStep.handleVerify (Resolves response) sj storage
    = (Journal.VerificationStep.setSending false sj,
       <["pending_verification_name" := JS.trim (Journal.VerificationStep.name sj)]> storage,
       [ fetch "/api/submissions/otp/request"
           (Journal.otp_request (JS.trim (Journal.VerificationStep.email sj))
              (JS.trim (Journal.VerificationStep.name sj)) "journal_submission");
         sessionStorage_setItem "pending_verification_name"
           (JS.trim (Journal.VerificationStep.name sj));
         router_push
           ("/verification?"
            +:+ JS.URLSearchParams_toString
                  [ ("email", JS.trim (Journal.VerificationStep.email sj));
                    ("name", JS.trim (Journal.VerificationStep.name sj));
                    ("type", "journal");
                    ("session", sid) ]) ]).
Proof.
  destruct Hr as [Hrn Hre], Hj as [Hjn Hje].
  apply truthy_true in Hrn, Hre, Hjn, Hje.
  unfold Research.VerificationStep.handleVerify, Journal.VerificationStep.handleVerify.
  rewrite Hrn, Hre, Hjn, Hje, Hok, Hbody, Hsid. split; reflexivity.
Qed.

(** The specification's example: the journal OTP request for
    [a@tcioe.edu.np] and [A B], answered with the session [s1]. *)
Lemma handleVerify_witness :
  Journal.VerificationStep.handleVerify (Resolves Sample.otp_response)
    Sample.journal_claimant ∅
  = (Sample.journal_claimant,
     <["pending_verification_name" := "A B"]> ∅,
     [ fetch "/api/submissions/otp/request"
         (Journal.otp_request "a@tcioe.edu.np" "A B" "journal_submission");
       sessionStorage_setItem "pending_verification_name" "A B";
       router_push
         "/verification?email=a%40tcioe.edu.np&name=A+B&type=journal&session=s1" ]).
Proof.
  refine (proj2 (handleVerify_persists_then_navigates
                   Sample.otp_response _ "s1"
                   Sample.research_claimant Sample.journal_claimant ∅ _ _ _ _ _)).
  - reflexivity.
  - reflexivity.
  - reflexivity.
  - split; discriminate.
  - split; discriminate.
Defined.

(** ** Ingestion: edge cases and repetition *)



(** X1. The ingestion effect of either form does nothing at all (same state,
    same storage, no toast, no log) unless the query parameter [verified] is
    exactly ["true"] and the storage holds a non-empty text under
    [verification_complete]; when that text does not parse it logs one error
    and still changes nothing. *)
Theorem ingestion_fails_open
    (JSON_parse : string → option StoredProof.t) (now : Z) :
  (∀ verified (w : Research.World),
      verified ≠ Some "true"
      ∨ Research.sessionStorage w !! "verification_complete" = None
      ∨ Research.sessionStorage w !! "verification_complete" = Some "" →
      Research.useEffect_verification JSON_parse verified now w = (w, []))
  ∧ (∀ stored (w : Research.World),
      Research.sessionStorage w !! "verification_complete" = Some stored →
      stored ≠ "" →
      JSON_parse stored = None →
      Research.useEffect_verification JSON_parse (Some "true") now w
      = (w, [console_error "Failed to parse verification data"]))
  ∧ (∀ verified (w : Journal.World),
      verified ≠ Some "true"
      ∨ Journal.sessionStorage w !! "verification_complete" = None
      ∨ Journal.sessionStorage w !! "verification_complete" = Some "" →
      Journal.useEffect_verification JSON_parse verified now w = (w, []))
  ∧ (∀ stored (w : Journal.World),
      Journal.sessionStorage w !! "verification_complete" = Some stored →
      stored ≠ "" →
      JSON_parse stored = None →
      Journal.useEffect_verification JSON_parse (Some "true") now w
      = (w, [console_error "Failed to parse verification data"])).
Proof.
  split; [| split; [| split]].
  - intros verified w H. unfold Research.useEffect_verification.
    destruct verified as [v |]; [| reflexivity].
    destruct (String.eqb_spec v "true") as [-> | Hv]; [| reflexivity].
    destruct H as [H | [H | H]]; [congruence | |]; rewrite H; reflexivity.
  - intros stored w Hget Hne Hparse. apply truthy_true in Hne.
    unfold Research.useEffect_verification. cbn [String.eqb Ascii.eqb Bool.eqb].
    rewrite Hget, Hne, Hparse. reflexivity.
  - intros verified w H. unfold Journal.useEffect_verification.
    destruct verified as [v |]; [| reflexivity].
    destruct (String.eqb_spec v "true") as [-> | Hv]; [| reflexivity].
    destruct H as [H | [H | H]]; [congruence | |]; rewrite H; reflexivity.
  - intros stored w Hget Hne Hparse. apply truthy_true in Hne.
    unfold Journal.useEffect_verification. cbn [String.eqb Ascii.eqb Bool.eqb].
    rewrite Hget, Hne, Hparse. reflexivity.
Qed.

(** A research form mounted over an empty storage, and over a text that is
    not JSON. *)
Lemma ingestion_fails_open_witness :
  Research.useEffect_verification Sample.JSON_parse (Some "true") Sample.now
    (Research.mount ∅)
  = (Research.mount ∅, [])
  ∧ Research.useEffect_verification Sample.JSON_parse (Some "true") Sample.now
      (Research.mount {[ "verification_complete" := "{oops" ]})
    = (Research.mount {[ "verification_complete" := "{oops" ]},
       [console_error "Failed to parse verification data"]).
Proof.
  pose proof (ingestion_fails_open Sample.JSON_parse Sample.now) as (Hskip & Hbad & _).
  split.
  - apply Hskip. right. left. reflexivity.
  - apply (Hbad "{oops"); [reflexivity | discriminate | reflexivity].
Defined.




Lemma research_effect_flag_inv JSON_parse verified now (w : Research.World) :
  Research.isVerified (Research.component w) = false →
  Research.isVerified
    (Research.component (Research.useEffect_verification JSON_parse verified now w).1)
  = true →
  ∃ stored data,
    verified = Some "true"
    ∧ Research.sessionStorage w !! "verification_complete" = Some stored
    ∧ stored ≠ ""
    ∧ JSON_parse stored = Some data
    ∧ StoredProof.purpose data = "research_submission"
    ∧ fresh now data.
Proof.
  intros Hoff. unfold Research.useEffect_verification.
  destruct verified as [v |]; [| cbn; congruence].
  destruct (String.eqb_spec v "true") as [-> | Hv]; [| cbn; congruence].
  destruct (Research.sessionStorage w !! "verification_complete") as [stored |] eqn:Hget;
    [| cbn; congruence].
  destruct (JS.truthy stored) eqn:Ht; [| cbn; congruence].
  destruct (JSON_parse stored) as [data |] eqn:Hparse; [| cbn; congruence].
  destruct (String.eqb_spec (StoredProof.purpose data) "research_submission") as [Hp | Hp];
    [| cbn; congruence].
  destruct (now - StoredProof.verifiedAt data <? 30 * 60 * 1000)%Z eqn:Hlt;
    [| cbn; congruence].
  intros _. exists stored, data.
  repeat split; try assumption; [by apply truthy_true | by apply thirty_minutes].
Qed.

Lemma journal_effect_flag_inv JSON_parse verified now (w : Journal.World) :
  Journal.isVerified (Journal.component w) = false →
  Journal.isVerified
    (Journal.component (Journal.useEffect_verification JSON_parse verified now w).1)
  = true →
  ∃ stored data,
    verified = Some "true"
    ∧ Journal.sessionStorage w !! "verification_complete" = Some stored
    ∧ stored ≠ ""
    ∧ JSON_parse stored = Some data
    ∧ StoredProof.purpose data = "journal_submission"
    ∧ fresh now data.
Proof.
  intros Hoff. unfold Journal.useEffect_verification.
  destruct verified as [v |]; [| cbn; congruence].
  destruct (String.eqb_spec v "true") as [-> | Hv]; [| cbn; congruence].
  destruct (Journal.sessionStorage w !! "verification_complete") as [stored |] eqn:Hget;
    [| cbn; congruence].
  destruct (JS.truthy stored) eqn:Ht; [| cbn; congruence].
  destruct (JSON_parse stored) as [data |] eqn:Hparse; [| cbn; congruence].
  destruct (String.eqb_spec (StoredProof.purpose data) "journal_submission") as [Hp | Hp];
    [| cbn; congruence].
  destruct (now - StoredProof.verifiedAt data <? 30 * 60 * 1000)%Z eqn:Hlt;
    [| cbn; congruence].
  intros _. exists stored, data.
  repeat split; try assumption; [by apply truthy_true | by apply thirty_minutes].
Qed.

Lemma research_effect_keeps_flag JSON_parse verified now (w : Research.World) :
  Research.isVerified (Research.component w) = true →
  Research.isVerified
    (Research.component (Research.useEffect_verification JSON_parse verified now w).1)
  = true.
Proof.
  intros Hon. unfold Research.useEffect_verification.
  repeat match goal with
         | |- context [match ?x with _ => _ end] => destruct x; try assumption
         end;
    reflexivity.
Qed.

Lemma journal_effect_keeps_flag JSON_parse verified now (w : Journal.World) :
  Journal.isVerified (Journal.component w) = true →
  Journal.isVerified
    (Journal.component (Journal.useEffect_verification JSON_parse verified now w).1)
  = true.
Proof.
  intros Hon. unfold Journal.useEffect_verification.
  repeat match goal with
         | |- context [match ?x with _ => _ end] => destruct x; try assumption
         end;
    reflexivity.
Qed.

(** X3. One stored proof never verifies both forms: when a research form and
    a journal form, both unverified, read the same stored text, at most one of
    them ends up verified, whatever the times and query parameters. *)
Theorem one_proof_verifies_one_form
    (JSON_parse : string → option StoredProof.t)
    (verified_r verified_j : option string) (now_r now_j : Z) (stored : string)
    (wr : Research.World) (wj : Journal.World)
    (Hr : Research.sessionStorage wr !! "verification_complete" = Some stored)
    (Hj : Journal.sessionStorage wj !! "verification_complete" = Some stored)
    (Hr0 : Research.isVerified (Research.component wr) = false)
    (Hj0 : Journal.isVerified (Journal.component wj) = false) :
  ¬ (Research.isVerified
       (Research.component
          (Research.useEffect_verification JSON_parse verified_r now_r wr).1) = true
     ∧ Journal.isVerified
         (Journal.component
            (Journal.useEffect_verification JSON_parse verified_j now_j wj).1) = true).
Proof.
  intros [Hron Hjon].
  apply (research_effect_flag_inv _ _ _ _ Hr0) in Hron
    as (s1 & d1 & _ & Hg1 & _ & Hp1 & Hpurpose1 & _).
  apply (journal_effect_flag_inv _ _ _ _ Hj0) in Hjon
    as (s2 & d2 & _ & Hg2 & _ & Hp2 & Hpurpose2 & _).
  rewrite Hr in Hg1. rewrite Hj in Hg2.
  injection Hg1 as <-. injection Hg2 as <-.
  rewrite Hp1 in Hp2. injection Hp2 as <-.
  rewrite Hpurpose1 in Hpurpose2. discriminate.
Qed.

(** The research proof of the samples, read by both forms. *)
Lemma one_proof_witness :
  ¬ (Research.isVerified
       (Research.component
          (Research.useEffect_verification Sample.JSON_parse (Some "true") Sample.now
             (Research.mount Sample.research_storage)).1) = true
     ∧ Journal.isVerified
         (Journal.component
            (Journal.useEffect_verification Sample.JSON_parse (Some "true") Sample.now
               (Journal.mount Sample.research_storage)).1) = true).
Proof.
  apply (one_proof_verifies_one_form Sample.JSON_parse (Some "true") (Some "true")
           Sample.now Sample.now Sample.research_json
           (Research.mount Sample.research_storage)
           (Journal.mount Sample.research_storage));
    vm_compute; reflexivity.
Defined.

(** X4. The effect has no lower bound on the age of a proof and never clears
    the flag: a form that is verified after the effect ran at one time is also
    verified after it runs at any earlier time, a time before the proof's own
    [verifiedAt] included. *)
Theorem proof_accepted_at_any_earlier_time
    (JSON_parse : string → option StoredProof.t) (verified : option string)
    (now earlier : Z) (wr : Research.World) (wj : Journal.World)
    (Hearlier : (earlier ≤ now)%Z) :
  (Research.isVerified
     (Research.component (Research.useEffect_verification JSON_parse verified now wr).1)
   = true →
   Research.isVerified
     (Research.component (Research.useEffect_verification JSON_parse verified earlier wr).1)
   = true)
  ∧ (Journal.isVerified
       (Journal.component (Journal.useEffect_verification JSON_parse verified now wj).1)
     = true →
     Journal.isVerified
       (Journal.component (Journal.useEffect_verification JSON_parse verified earlier wj).1)
     = true).
Proof.
  split; intros Hon.
  - destruct (Research.isVerified (Research.component wr)) eqn:H0.
    { by apply research_effect_keeps_flag. }
    apply (research_effect_flag_inv _ _ _ _ H0) in Hon
      as (stored & data & -> & Hget & Hne & Hparse & Hp & Hfresh).
    assert (Hfresh' : fresh earlier data) by (unfold fresh in *; lia).
    apply (research_effect_accepts JSON_parse earlier stored data wr Hget Hne Hparse Hp Hfresh').
  - destruct (Journal.isVerified (Journal.component wj)) eqn:H0.
    { by apply journal_effect_keeps_flag. }
    apply (journal_effect_flag_inv _ _ _ _ H0) in Hon
      as (stored & data & -> & Hget & Hne & Hparse & Hp & Hfresh).
    assert (Hfresh' : fresh earlier data) by (unfold fresh in *; lia).
    apply (journal_effect_accepts JSON_parse earlier stored data wj Hget Hne Hparse Hp Hfresh').
Qed.

(** The sample proof, read a day before the time it is stamped with. *)
Lemma proof_accepted_earlier_witness :
  Research.isVerified
    (Research.component
       (Research.useEffect_verification Sample.JSON_parse (Some "true")
          (Sample.now - 86400000) (Research.mount Sample.research_storage)).1)
  = true.
Proof.
  refine (proj1 (proof_accepted_at_any_earlier_time Sample.JSON_parse (Some "true")
                   Sample.now (Sample.now - 86400000)
                   (Research.mount Sample.research_storage)
                   (Journal.mount Sample.journal_storage) _) _).
  - vm_compute. discriminate.
  - vm_compute. reflexivity.
Defined.

(** X5. Ingestion does not look at the session identifier: a fresh proof of
    the right purpose whose [sessionId] is empty is accepted, so the form is
    rendered with its verified badge, and yet every submission from that state
    is refused with the notice to verify first, sending nothing. *)
Theorem sessionless_proof_shows_form_and_blocks_submit
    (JSON_parse : string → option StoredProof.t) (now : Z)
    (stored : string) (data : StoredProof.t) (dept : string) (outcome : FetchOutcome)
    (Hstored : stored ≠ "") (Hparse : JSON_parse stored = Some data)
    (Hfresh : fresh now data) (Hsession : StoredProof.sessionId data = "") :
  (∀ (w : Research.World) v,
      Research.sessionStorage w !! "verification_complete" = Some stored →
      StoredProof.purpose data = "research_submission" →
      let w' := (Research.useEffect_verification JSON_parse (Some "true") now w).1 in
      Research.render (Research.component w') = form_view
      ∧ Research.onSubmit dept outcome v w'
        = (w', [toast "Verify your campus email before submitting" true]))
  ∧ (∀ (w : Journal.World) v,
      Journal.sessionStorage w !! "verification_complete" = Some stored →
      StoredProof.purpose data = "journal_submission" →
      let w' := (Journal.useEffect_verification JSON_parse (Some "true") now w).1 in
      Journal.render (Journal.component w') = form_view
      ∧ Journal.onSubmit dept outcome v w'
        = (w', [toast "Verify your campus email before submitting" true])).
Proof.
  split; intros w v Hget Hp; cbn zeta.
  - destruct (research_effect_accepts JSON_parse now stored data w Hget Hstored Hparse Hp Hfresh)
      as ((Hflag & Hdata & _) & _).
    split.
    + unfold Research.render. rewrite Hflag. reflexivity.
    + apply research_onSubmit_blocked. right. rewrite Hdata. exact Hsession.
  - destruct (journal_effect_accepts JSON_parse now stored data w Hget Hstored Hparse Hp Hfresh)
      as ((Hflag & Hdata & _) & _).
    split.
    + unfold Journal.render. rewrite Hflag. reflexivity.
    + apply journal_onSubmit_blocked. right. rewrite Hdata. exact Hsession.
Qed.

(** A research form mounted over a proof without session identifier. *)
Lemma sessionless_proof_witness :
  let w' := (Research.useEffect_verification Cases.JSON_parse (Some "true") Sample.now
               (Research.mount Cases.sessionless_storage)).1 in
  Research.render (Research.component w') = form_view
  ∧ Research.onSubmit "d1" (Resolves Sample.ok_response) Research.defaultValues w'
    = (w', [toast "Verify your campus email before submitting" true]).
Proof.
  refine (proj1 (sessionless_proof_shows_form_and_blocks_submit
                   Cases.JSON_parse Sample.now Cases.sessionless_json
                   Cases.sessionless_proof "d1" (Resolves Sample.ok_response) _ _ _ _)
            (Research.mount Cases.sessionless_storage) Research.defaultValues _ _).
  - discriminate.
  - reflexivity.
  - unfold fresh. vm_compute. reflexivity.
  - reflexivity.
  - vm_compute. reflexivity.
  - reflexivity.
Defined.

(** X6. A successful submission re-arms the verification: the form goes back
    to the verification step, and since the stored proof is gone the ingestion
    effect does nothing on it afterwards, whatever the query parameter and the
    time, so the old verification cannot be used again. *)
Theorem success_rearms_verification
    (JSON_parse : string → option StoredProof.t)
    (dept : string) (response : Response.t) (verified : option string) (now : Z)
    (vr : Research.ResearchFormValues.t) (wr : Research.World)
    (vj : Journal.JournalFormValues.t) (wj : Journal.World)
    (vdr vdj : VerificationData.t)
    (Hok : Response.ok response = true)
    (Hr : research_verified wr vdr)
    (Hj : journal_verified wj vdj)
    (Hauthor : List.existsb named_author (Journal.JournalFormValues.authors vj) = true) :
  (let w' := (Research.onSubmit dept (Resolves response) vr wr).1 in
   Research.render (Research.component w') = VerificationStep_view
   ∧ Research.useEffect_verification JSON_parse verified now w' = (w', []))
  ∧ (let w' := (Journal.onSubmit dept (Resolves response) vj wj).1 in
     Journal.render (Journal.component w') = VerificationStep_view
     ∧ Journal.useEffect_verification JSON_parse verified now w' = (w', [])).
Proof.
  apply some_author_named in Hauthor. cbn zeta.
  rewrite (research_onSubmit_open dept (Resolves response) vr wr vdr Hr).
  rewrite (journal_onSubmit_open dept (Resolves response) vj wj vdj Hj Hauthor).
  cbn zeta. rewrite Hok. cbn [fst].
  split; (split; [reflexivity |]).
  - unfold Research.useEffect_verification. cbn [Research.sessionStorage].
    rewrite lookup_delete_eq.
    destruct verified as [v |]; [destruct (String.eqb v "true") |]; reflexivity.
  - unfold Journal.useEffect_verification. cbn [Journal.sessionStorage].
    rewrite lookup_delete_eq.
    destruct verified as [v |]; [destruct (String.eqb v "true") |]; reflexivity.
Qed.

(** The verified sample forms after a successful submission. *)
Lemma success_rearms_witness :
  let w' := (Research.onSubmit "d1" (Resolves Sample.ok_response)
               Research.defaultValues Sample.research_world).1 in
  Research.render (Research.component w') = VerificationStep_view
  ∧ Research.useEffect_verification Sample.JSON_parse (Some "true") Sample.now w'
    = (w', []).
Proof.
  refine (proj1 (success_rearms_verification Sample.JSON_parse
                   "d1" Sample.ok_response (Some "true") Sample.now
                   Research.defaultValues Sample.research_world
                   Sample.journal_values Sample.journal_world
                   Sample.verified_data Sample.verified_data _ _ _ _)).
  - reflexivity.
  - repeat split. discriminate.
  - repeat split. discriminate.
  - reflexivity.
Defined.

(** ** Submission: what every run does *)

(** X7. Every run of [onSubmit], on either form and whatever the state and
    the network do, shows exactly one toast and sends at most one request;
    when it sends one, the request is its first effect. *)
Theorem onSubmit_one_toast_at_most_one_request
    (dept : string) (outcome : FetchOutcome)
    (vr : Research.ResearchFormValues.t) (wr : Research.World)
    (vj : Journal.JournalFormValues.t) (wj : Journal.World) :
  (let trace := (Research.onSubmit dept outcome vr wr).2 in
   count is_toast trace = 1
   ∧ (count is_fetch trace ≤ 1)%nat
   ∧ count is_fetch (tail trace) = 0)
  ∧ (let trace := (Journal.onSubmit dept outcome vj wj).2 in
     count is_toast trace = 1
     ∧ (count is_fetch trace ≤ 1)%nat
     ∧ count is_fetch (tail trace) = 0).
Proof.
  cbn zeta. split.
  - unfold Research.onSubmit.
    destruct (Research.isVerified (Research.component wr));
      destruct (Research.verificationData (Research.component wr)) as [vd |];
      cbn; try (repeat split; lia).
    destruct (JS.truthy (VerificationData.sessionId vd)); cbn;
      try (repeat split; lia).
    by_outcome outcome; repeat split; lia.
  - unfold Journal.onSubmit.
    destruct (Journal.isVerified (Journal.component wj));
      destruct (Journal.verificationData (Journal.component wj)) as [vd |];
      cbn; try (repeat split; lia).
    destruct (JS.truthy (VerificationData.sessionId vd)); cbn;
      try (repeat split; lia).
    destruct (Journal.authors_of (Journal.JournalFormValues.authors vj)); cbn;
      try (repeat split; lia).
    by_outcome outcome; repeat split; lia.
Qed.

(** X8. Each handler writes to its own storage key only: [onSubmit] leaves
    every key other than [verification_complete] as it was, and
    [handleVerify] every key other than [pending_verification_name], so asking
    for a new code never disturbs a stored proof. *)
Theorem handlers_touch_only_their_key (dept : string) (outcome : FetchOutcome) (key : string) :
  (key ≠ "verification_complete" →
   (∀ v w, Research.sessionStorage (Research.onSubmit dept outcome v w).1 !! key
           = Research.sessionStorage w !! key)
   ∧ (∀ v w, Journal.sessionStorage (Journal.onSubmit dept outcome v w).1 !! key
             = Journal.sessionStorage w !! key))
  ∧ (key ≠ "pending_verification_name" →
     (∀ s (storage : gmap string string),
         (Research.VerificationStep.handleVerify outcome s storage).1.2 !! key
         = storage !! key)
     ∧ (∀ s (storage : gmap string string),
           (Journal.VerificationStep.handleVerify outcome s storage).1.2 !! key
           = storage !! key)).
Proof.
  split; intros Hkey; split.
  - intros v w. unfold Research.onSubmit.
    destruct (Research.isVerified (Research.component w));
      destruct (Research.verificationData (Research.component w)) as [vd |];
      cbn; try reflexivity.
    destruct (JS.truthy (VerificationData.sessionId vd)); cbn; try reflexivity.
    by_outcome outcome; try reflexivity.
    by apply lookup_delete_ne.
  - intros v w. unfold Journal.onSubmit.
    destruct (Journal.isVerified (Journal.component w));
      destruct (Journal.verificationData (Journal.component w)) as [vd |];
      cbn; try reflexivity.
    destruct (JS.truthy (VerificationData.sessionId vd)); cbn; try reflexivity.
    destruct (Journal.authors_of (Journal.JournalFormValues.authors v)); cbn;
      try reflexivity.
    by_outcome outcome; try reflexivity.
    by apply lookup_delete_ne.
  - intros s storage. unfold Research.VerificationStep.handleVerify.
    destruct (negb (JS.truthy (JS.trim (Research.VerificationStep.name s)))
              || negb (JS.truthy (JS.trim (Research.VerificationStep.email s))));
      [reflexivity |].
    destruct outcome as [e | [[] [| | body]]]; cbn; try reflexivity.
    all: by apply lookup_insert_ne.
  - intros s storage. unfold Journal.VerificationStep.handleVerify.
    destruct (negb (JS.truthy (JS.trim (Journal.VerificationStep.name s)))
              || negb (JS.truthy (JS.trim (Journal.VerificationStep.email s))));
      [reflexivity |].
    destruct outcome as [e | [[] [| | body]]]; cbn; try reflexivity.
    all: by apply lookup_insert_ne.
Qed.

(** The key [theme] survives a successful research submission and a
    successful OTP request. *)
Lemma handlers_touch_witness :
  Research.sessionStorage
    (Research.onSubmit "d1" (Resolves Sample.ok_response) Research.defaultValues
       {| Research.component := Research.component Sample.research_world;
          Research.sessionStorage := <["theme" := "dark"]> Sample.research_storage |}).1
    !! "theme"
  = Some "dark"
  ∧ (Research.VerificationStep.handleVerify (Resolves Sample.otp_response)
       Sample.research_claimant (<["theme" := "dark"]> Sample.research_storage)).1.2
      !! "theme"
    = Some "dark".
Proof.
  pose proof (handlers_touch_only_their_key "d1" (Resolves Sample.ok_response) "theme")
    as [Hsubmit _].
  pose proof (handlers_touch_only_their_key "d1" (Resolves Sample.otp_response) "theme")
    as [_ Hverify].
  split.
  - rewrite (proj1 (Hsubmit ltac:(discriminate))). vm_compute. reflexivity.
  - rewrite (proj1 (Hverify ltac:(discriminate))). vm_compute. reflexivity.
Defined.

(** ** What the payload holds *)

Lemma trimEnd_idempotent (s : string) : JS.trimEnd (JS.trimEnd s) = JS.trimEnd s.
Proof.
  induction s as [| c r IH]; cbn; [reflexivity |].
  destruct (JS.is_white c && JS.is_empty (JS.trimEnd r)) eqn:Hdrop; cbn; [reflexivity |].
  rewrite IH, Hdrop. reflexivity.
Qed.

Lemma trimStart_head (s : string) :
  JS.trimStart s = "" ∨ ∃ c r, JS.trimStart s = String c r ∧ JS.is_white c = false.
Proof.
  induction s as [| c r IH]; cbn; [left; reflexivity |].
  destruct (JS.is_white c) eqn:Hc; [exact IH | right; eauto].
Qed.

Lemma trim_is_trimmed (s : string) : trimmed (JS.trim s).
Proof.
  unfold trimmed, JS.trim.
  destruct (trimStart_head s) as [-> | (c & r & -> & Hc)]; [reflexivity |].
  cbn. rewrite Hc. cbn. rewrite Hc. cbn. rewrite Hc. cbn.
  rewrite trimEnd_idempotent. reflexivity.
Qed.

Lemma or_undefined_trim_sent (s : string) : sent_text (JS.or_undefined (JS.trim s)).
Proof.
  unfold sent_text, JS.or_undefined.
  destruct (JS.truthy (JS.trim s)) eqn:Ht; [| exact I].
  split; [by apply truthy_true | apply trim_is_trimmed].
Qed.

Lemma participant_of_is_clean dept (r : Research.ParticipantForm.t) :
  let p := Research.participant_of dept r in
  trimmed (Research.Participant.full_name p)
  ∧ Research.Participant.department p = dept
  ∧ sent_text (Research.Participant.email p)
  ∧ sent_text (Research.Participant.role p)
  ∧ sent_text (Research.Participant.designation p)
  ∧ sent_text (Research.Participant.organization p)
  ∧ sent_text (Research.Participant.linkedin_url p)
  ∧ sent_text (Research.Participant.orcid_id p).
Proof.
  cbn. repeat split; try apply trim_is_trimmed; apply or_undefined_trim_sent.
Qed.

Lemma author_of_is_clean (r : Journal.AuthorForm.t) :
  let a := Journal.author_of r in
  trimmed (Journal.Author.given_name a)
  ∧ sent_text (Journal.Author.family_name a)
  ∧ sent_text (Journal.Author.email a)
  ∧ sent_text (Journal.Author.affiliation a)
  ∧ sent_text (Journal.Author.country a)
  ∧ sent_text (Journal.Author.bio a).
Proof.
  cbn. repeat split; try apply trim_is_trimmed; apply or_undefined_trim_sent.
Qed.

(** X9. No request ever carries a nameless person. Every participant of a
    research payload has a name that is not empty and has no white space at
    either end, carries the department of the payload itself, and has each
    optional text either left out or non-empty and trimmed; the same holds for
    the authors of a journal payload, whose list moreover is never empty.
    Neither list is longer than the rows entered. *)
Theorem sent_persons_are_named_and_clean (dept : string) :
  (∀ outcome v w url payload,
      In (fetch url (Research.submission payload)) (Research.onSubmit dept outcome v w).2 →
      Forall (λ p, Research.Participant.full_name p ≠ ""
                   ∧ trimmed (Research.Participant.full_name p)
                   ∧ Research.Participant.department p = Research.Payload.department payload
                   ∧ sent_text (Research.Participant.email p)
                   ∧ sent_text (Research.Participant.role p)
                   ∧ sent_text (Research.Participant.designation p)
                   ∧ sent_text (Research.Participant.organization p)
                   ∧ sent_text (Research.Participant.linkedin_url p)
                   ∧ sent_text (Research.Participant.orcid_id p))
             (Research.Payload.participants payload)
      ∧ (length (Research.Payload.participants payload)
         ≤ length (Research.ResearchFormValues.participants v))%nat)
  ∧ (∀ outcome v w url payload,
      In (fetch url (Journal.submission payload)) (Journal.onSubmit dept outcome v w).2 →
      Forall (λ a, Journal.Author.given_name a ≠ ""
                   ∧ trimmed (Journal.Author.given_name a)
                   ∧ sent_text (Journal.Author.family_name a)
                   ∧ sent_text (Journal.Author.email a)
                   ∧ sent_text (Journal.Author.affiliation a)
                   ∧ sent_text (Journal.Author.country a)
                   ∧ sent_text (Journal.Author.bio a))
             (Journal.Payload.authors payload)
      ∧ Journal.Payload.authors payload ≠ []
      ∧ (length (Journal.Payload.authors payload)
         ≤ length (Journal.JournalFormValues.authors v))%nat).
Proof.
  split.
  - intros outcome v w url payload Hin.
    apply research_fetch_inv in Hin as (vd & _ & _ & Hbody).
    injection Hbody as ->. cbn. split.
    + apply List.Forall_forall. intros p Hp.
      unfold Research.participants_of in Hp.
      apply filter_In in Hp as [Hp Hnamed].
      apply in_map_iff in Hp as (r & <- & _).
      split; [by apply truthy_true |].
      apply (participant_of_is_clean dept r).
    + unfold Research.participants_of.
      etransitivity; [apply List.filter_length_le |]. by rewrite List.length_map.
  - intros outcome v w url payload Hin.
    apply journal_fetch_inv in Hin as (vd & _ & Hsome & _ & Hbody).
    injection Hbody as ->. cbn. split; [| split; [exact Hsome |]].
    + apply List.Forall_forall. intros a Ha.
      unfold Journal.authors_of in Ha.
      apply filter_In in Ha as [Ha Hnamed].
      apply in_map_iff in Ha as (r & <- & _).
      split; [by apply truthy_true |].
      apply (author_of_is_clean r).
    + unfold Journal.authors_of.
      etransitivity; [apply List.filter_length_le |]. by rewrite List.length_map.
Qed.

(** The request of the verified sample journal form. *)
Lemma sent_persons_witness :
  Journal.Payload.authors
    (Journal.payload_of "d1" Sample.journal_values
       (Journal.authors_of (Journal.JournalFormValues.authors Sample.journal_values))
       Sample.verified_data)
  ≠ [].
Proof.
  refine (proj1 (proj2 (proj2 (sent_persons_are_named_and_clean "d1")
                          (Resolves Sample.ok_response) Sample.journal_values
                          Sample.journal_world "/api/submissions/journal" _ _))).
  vm_compute. left. reflexivity.
Defined.

(** X10. Every free text of a payload is normalised: the required texts are
    sent trimmed, each optional text is either left out or sent trimmed and
    not empty, and a date is either left out or sent non-empty. The fields
    [research_type] and [status] are sent as selected. *)
Theorem sent_texts_are_trimmed (dept : string) :
  (∀ outcome v w url payload,
      In (fetch url (Research.submission payload)) (Research.onSubmit dept outcome v w).2 →
      trimmed (Research.Payload.title payload)
      ∧ trimmed (Research.Payload.abstract payload)
      ∧ trimmed (Research.Payload.description payload)
      ∧ trimmed (Research.Payload.principal_investigator payload)
      ∧ trimmed (Research.Payload.pi_email payload)
      ∧ trimmed (Research.Payload.submitted_by_name payload)
      ∧ sent_text (Research.Payload.funding_agency payload)
      ∧ sent_text (Research.Payload.keywords payload)
      ∧ sent_text (Research.Payload.methodology payload)
      ∧ sent_text (Research.Payload.expected_outcomes payload)
      ∧ sent_text (Research.Payload.publications_url payload)
      ∧ sent_text (Research.Payload.project_url payload)
      ∧ sent_text (Research.Payload.github_url payload)
      ∧ Research.Payload.start_date payload ≠ Some ""
      ∧ Research.Payload.end_date payload ≠ Some ""
      ∧ Research.Payload.research_type payload = Research.ResearchFormValues.researchType v
      ∧ Research.Payload.status payload = Research.ResearchFormValues.status v)
  ∧ (∀ outcome v w url payload,
      In (fetch url (Journal.submission payload)) (Journal.onSubmit dept outcome v w).2 →
      trimmed (Journal.Payload.title payload)
      ∧ trimmed (Journal.Payload.genre payload)
      ∧ trimmed (Journal.Payload.abstract payload)
      ∧ trimmed (Journal.Payload.submitted_by_name payload)
      ∧ sent_text (Journal.Payload.keywords payload)
      ∧ sent_text (Journal.Payload.discipline payload)
      ∧ sent_text (Journal.Payload.pages payload)).
Proof.
  assert (Hdate : ∀ s, JS.or_undefined s ≠ Some "").
  { intros [| c r]; cbn; discriminate. }
  split.
  - intros outcome v w url payload Hin.
    apply research_fetch_inv in Hin as (vd & _ & _ & Hbody).
    injection Hbody as ->. cbn.
    repeat split;
      first [apply trim_is_trimmed | apply or_undefined_trim_sent | apply Hdate].
  - intros outcome v w url payload Hin.
    apply journal_fetch_inv in Hin as (vd & _ & _ & _ & Hbody).
    injection Hbody as ->. cbn.
    repeat split; first [apply trim_is_trimmed | apply or_undefined_trim_sent].
Qed.

(** The request of the verified sample journal form. *)
Lemma sent_texts_witness :
  trimmed (Journal.Payload.title
             (Journal.payload_of "d1" Sample.journal_values
                (Journal.authors_of (Journal.JournalFormValues.authors Sample.journal_values))
                Sample.verified_data)).
Proof.
  refine (proj1 (proj2 (sent_texts_are_trimmed "d1")
                   (Resolves Sample.ok_response) Sample.journal_values
                   Sample.journal_world "/api/submissions/journal" _ _)).
  vm_compute. left. reflexivity.
Defined.

(** ** The lists of person rows *)

Lemma filter_app_unnamed {A : Type} (p : A → bool) (l : list A) (x : A) :
  p x = false → List.filter p (l ++ [x]) = List.filter p l.
Proof.
  intros Hx. rewrite List.filter_app. cbn. rewrite Hx. apply app_nil_r.
Qed.

Lemma filter_delete_unnamed {A : Type} (p : A → bool) (l : list A) (i : nat) (x : A) :
  l !! i = Some x → p x = false → List.filter p (delete i l) = List.filter p l.
Proof.
  revert i. induction l as [| y l IH]; intros [| i] Hget Hx; try discriminate.
  - injection Hget as ->. cbn. rewrite Hx. reflexivity.
  - change (delete (S i) (y :: l)) with (y :: delete i l).
    cbn [List.filter]. rewrite (IH i Hget Hx). reflexivity.
Qed.

Lemma research_onSubmit_same_persons dept outcome rows v w :
  Research.participants_of dept rows
  = Research.participants_of dept (Research.ResearchFormValues.participants v) →
  Research.onSubmit dept outcome (Research.with_participants rows v) w
  = Research.onSubmit dept outcome v w.
Proof.
  intros H. unfold Research.onSubmit, Research.payload_of.
  cbn -[Research.participants_of]. rewrite H. reflexivity.
Qed.

Lemma journal_onSubmit_same_persons dept outcome rows v w :
  Journal.authors_of rows = Journal.authors_of (Journal.JournalFormValues.authors v) →
  Journal.onSubmit dept outcome (Journal.with_authors rows v) w
  = Journal.onSubmit dept outcome v w.
Proof.
  intros H. unfold Journal.onSubmit, Journal.payload_of.
  cbn -[Journal.authors_of]. rewrite H. reflexivity.
Qed.

Lemma research_click_keeps_named dept (c : Research.Click) rows :
  (∀ i r, c = Research.remove_click i → rows !! i = Some r → named_participant r = false) →
  Research.participants_of dept (Research.onClick c rows)
  = Research.participants_of dept rows.
Proof.
  intros Hunnamed. rewrite !participants_of_named. f_equal.
  unfold Research.onClick. destruct (Research.rendered c rows) eqn:Hr; [| reflexivity].
  destruct c as [| i].
  - unfold Research.append. by apply filter_app_unnamed.
  - unfold Research.remove. cbn in Hr. apply andb_prop in Hr as [_ Hi].
    apply Nat.ltb_lt in Hi. apply lookup_lt_is_Some in Hi as [r Hget].
    apply (filter_delete_unnamed _ _ _ r Hget). by apply (Hunnamed i).
Qed.

Lemma journal_click_keeps_named (c : Journal.Click) rows :
  (∀ i r, c = Journal.remove_click i → rows !! i = Some r → named_author r = false) →
  Journal.authors_of (Journal.onClick c rows) = Journal.authors_of rows.
Proof.
  intros Hunnamed. rewrite !authors_of_named. f_equal.
  unfold Journal.onClick. destruct (Journal.rendered c rows) eqn:Hr; [| reflexivity].
  destruct c as [| i].
  - unfold Journal.append. by apply filter_app_unnamed.
  - unfold Journal.remove. cbn in Hr. apply andb_prop in Hr as [_ Hi].
    apply Nat.ltb_lt in Hi. apply lookup_lt_is_Some in Hi as [r Hget].
    apply (filter_delete_unnamed _ _ _ r Hget). by apply (Hunnamed i).
Qed.

Lemma research_trace_with_rows dept outcome rows (w : Research.World) :
  Research.participants_of dept rows
  = Research.participants_of dept
      (Research.ResearchFormValues.participants (Research.values (Research.component w))) →
  (Research.handleSubmit dept outcome (research_with_rows rows w)).1.2
  = (Research.handleSubmit dept outcome w).1.2
  ∧ (Research.handleSubmit dept outcome (research_with_rows rows w)).2
    = (Research.handleSubmit dept outcome w).2.
Proof.
  intros Hrows. unfold Research.handleSubmit.
  cbn [research_with_rows Research.component Research.values].
  rewrite research_rows_break_no_rule.
  destruct (Research.errors_of (Research.values (Research.component w)));
    [| split; reflexivity].
  split; [| reflexivity]. cbn [fst snd].
  unfold Research.onSubmit, Research.payload_of.
  cbn -[Research.participants_of]. rewrite Hrows.
  destruct (Research.isVerified (Research.component w));
    destruct (Research.verificationData (Research.component w)) as [vd |];
    cbn -[Research.participants_of]; try reflexivity.
  destruct (JS.truthy (VerificationData.sessionId vd));
    cbn -[Research.participants_of]; try reflexivity.
  destruct outcome as [e | [[] j]]; reflexivity.
Qed.

Lemma journal_rows_rule (g : nat → Journal.Field.t) (rows : list Journal.AuthorForm.t) :
  concat (imap (λ index author,
                  Journal.required (g index) "Required"
                    (Journal.AuthorForm.givenName author)) rows) = []
  ↔ List.forallb (λ a, JS.truthy (Journal.AuthorForm.givenName a)) rows = true.
Proof.
  revert g. induction rows as [| a rows IH]; intros g; [split; reflexivity |].
  cbn [imap concat List.forallb]. unfold Journal.required at 1.
  destruct (JS.truthy (Journal.AuthorForm.givenName a)); cbn.
  - apply (IH (g ∘ S)).
  - split; discriminate.
Qed.

Lemma journal_errors_nil (v : Journal.JournalFormValues.t) :
  Journal.errors_of v = []
  ↔ JS.truthy (Journal.JournalFormValues.title v) = true
    ∧ JS.truthy (Journal.JournalFormValues.genre v) = true
    ∧ JS.truthy (Journal.JournalFormValues.abstract v) = true
    ∧ List.forallb (λ a, JS.truthy (Journal.AuthorForm.givenName a))
        (Journal.JournalFormValues.authors v) = true.
Proof.
  unfold Journal.errors_of.
  rewrite <- (journal_rows_rule Journal.Field.authors_givenName).
  set (rows_errors := concat _).
  unfold Journal.required.
  destruct (JS.truthy (Journal.JournalFormValues.title v));
    destruct (JS.truthy (Journal.JournalFormValues.genre v));
    destruct (JS.truthy (Journal.JournalFormValues.abstract v));
    cbn [app]; split;
    try discriminate; try tauto;
    intros (H1 & H2 & H3 & _); discriminate.
Qed.

Lemma forallb_delete {A : Type} (p : A → bool) (l : list A) (i : nat) (x : A) :
  l !! i = Some x → p x = true →
  List.forallb p (delete i l) = List.forallb p l.
Proof.
  revert i. induction l as [| y l IH]; intros [| i] Hget Hx; try discriminate.
  - injection Hget as ->. cbn. rewrite Hx. reflexivity.
  - change (delete (S i) (y :: l)) with (y :: delete i l).
    cbn [List.forallb]. rewrite (IH i Hget Hx). reflexivity.
Qed.

Lemma journal_trace_with_rows dept outcome rows (w : Journal.World) :
  Journal.authors_of rows
  = Journal.authors_of
      (Journal.JournalFormValues.authors (Journal.values (Journal.component w))) →
  (Journal.errors_of (Journal.with_authors rows (Journal.values (Journal.component w))) = []
   ↔ Journal.errors_of (Journal.values (Journal.component w)) = []) →
  (Journal.handleSubmit dept outcome (journal_with_rows rows w)).1.2
  = (Journal.handleSubmit dept outcome w).1.2.
Proof.
  intros Hrows Hrules. unfold Journal.handleSubmit.
  cbn [journal_with_rows Journal.component Journal.values].
  destruct (Journal.errors_of (Journal.values (Journal.component w))) as [| e l] eqn:He.
  - rewrite (proj2 Hrules eq_refl). cbn [fst snd].
    unfold Journal.onSubmit, Journal.payload_of.
    cbn -[Journal.authors_of]. rewrite Hrows.
    destruct (Journal.isVerified (Journal.component w));
      destruct (Journal.verificationData (Journal.component w)) as [vd |];
      cbn -[Journal.authors_of]; try reflexivity.
    destruct (JS.truthy (VerificationData.sessionId vd));
      cbn -[Journal.authors_of]; try reflexivity.
    destruct (Journal.authors_of
                (Journal.JournalFormValues.authors (Journal.values (Journal.component w))));
      cbn -[Journal.authors_of]; try reflexivity.
    destruct outcome as [e | [[] j]]; reflexivity.
  - destruct (Journal.errors_of
                (Journal.with_authors rows (Journal.values (Journal.component w))))
      as [| e' l'] eqn:He'; [| reflexivity].
    pose proof (proj1 Hrules eq_refl). discriminate.
Qed.

(** X11. What a click on the row buttons does to the next submission. On the
    research form rows without a name are invisible: after the add button, or
    after the removal of a row whose name is blank, the submit handler
    [handleSubmit(onSubmit)] sends and shows exactly what it did before and
    finds the same errors. On the journal form the row the add button appends
    has an empty given name, which breaks its [required] rule: submitting
    right after the click sends nothing, shows no toast and reports
    [Required] for the new row, whatever was sent before. Removing a journal
    row whose given name is white space only changes nothing the handler sends
    or shows, and the rules are broken after the removal exactly when they
    were before. *)
Theorem row_clicks_and_the_next_submission (dept : string) (outcome : FetchOutcome) :
  (∀ c (w : Research.World),
      let rows :=
        Research.ResearchFormValues.participants (Research.values (Research.component w)) in
      let w' := research_with_rows (Research.onClick c rows) w in
      (∀ i r, c = Research.remove_click i → rows !! i = Some r →
              named_participant r = false) →
      (Research.handleSubmit dept outcome w').1.2 = (Research.handleSubmit dept outcome w).1.2
      ∧ (Research.handleSubmit dept outcome w').2 = (Research.handleSubmit dept outcome w).2)
  ∧ (∀ w : Journal.World,
      let rows := Journal.JournalFormValues.authors (Journal.values (Journal.component w)) in
      let w' := journal_with_rows (Journal.onClick Journal.add_click rows) w in
      Journal.handleSubmit dept outcome w'
      = (w', [], Journal.errors_of (Journal.values (Journal.component w')))
      ∧ In (Journal.Field.authors_givenName (length rows), "Required")
           (Journal.errors_of (Journal.values (Journal.component w'))))
  ∧ (∀ i r (w : Journal.World),
      let rows := Journal.JournalFormValues.authors (Journal.values (Journal.component w)) in
      let w' := journal_with_rows (Journal.onClick (Journal.remove_click i) rows) w in
      rows !! i = Some r →
      spaces_only_author r →
      (Journal.handleSubmit dept outcome w').1.2 = (Journal.handleSubmit dept outcome w).1.2
      ∧ (Journal.errors_of (Journal.values (Journal.component w')) = []
         ↔ Journal.errors_of (Journal.values (Journal.component w)) = [])).
Proof.
  split; [| split].
  - intros c w rows w' Hunnamed. apply research_trace_with_rows.
    by apply research_click_keeps_named.
  - intros w rows w'.
    assert (Hin : In (Journal.Field.authors_givenName (length rows), "Required")
                     (Journal.errors_of (Journal.values (Journal.component w')))).
    { apply (journal_empty_name_is_an_error _ (length rows) Journal.new_author);
        [| reflexivity].
      subst w'. cbn. unfold Journal.append.
      rewrite lookup_app_r by lia. by rewrite Nat.sub_diag. }
    split; [| exact Hin].
    apply journal_handleSubmit_invalid. intros Hnil. rewrite Hnil in Hin. destruct Hin.
  - intros i r w rows w' Hget [Hfilled Hblank].
    assert (Hrules :
              Journal.errors_of (Journal.values (Journal.component w')) = []
              ↔ Journal.errors_of (Journal.values (Journal.component w)) = []).
    { subst w'. cbn [journal_with_rows Journal.component Journal.values].
      rewrite !journal_errors_nil.
      cbn [Journal.with_authors Journal.JournalFormValues.title
             Journal.JournalFormValues.genre Journal.JournalFormValues.abstract
             Journal.JournalFormValues.authors].
      fold rows. unfold Journal.onClick.
      destruct (Journal.rendered (Journal.remove_click i) rows); [| reflexivity].
      unfold Journal.remove.
      rewrite (forallb_delete _ rows i r Hget); [reflexivity |].
      by apply truthy_true. }
    split; [| exact Hrules].
    apply journal_trace_with_rows; [| exact Hrules].
    apply journal_click_keeps_named. intros j r' Hc Hget'.
    injection Hc as <-. fold rows in Hget'. rewrite Hget in Hget'.
    injection Hget' as <-. exact Hblank.
Qed.

(** The verified journal form of the samples sends its request; after a click
    on the add button it sends nothing and reports the new row. *)
Lemma row_clicks_witness :
  Journal.handleSubmit "d1" (Resolves Sample.ok_response) Cases.added_row_world
  = (Cases.added_row_world, [],
     [(Journal.Field.authors_givenName 1, "Required")])
  ∧ In (Journal.Field.authors_givenName 1, "Required")
       (Journal.errors_of (Journal.values (Journal.component Cases.added_row_world))).
Proof.
  exact (proj1 (proj2 (row_clicks_and_the_next_submission "d1" (Resolves Sample.ok_response)))
           Sample.journal_world).
Defined.

Lemma research_click_length (c : Research.Click) rows :
  (1 ≤ length rows)%nat → (1 ≤ length (Research.onClick c rows))%nat.
Proof.
  intros Hlen. unfold Research.onClick.
  destruct (Research.rendered c rows) eqn:Hr; [| exact Hlen].
  destruct c as [| i]; cbn [Research.rendered] in Hr.
  - unfold Research.append. rewrite length_app. lia.
  - apply andb_prop in Hr as [H1 Hi].
    apply Nat.ltb_lt in H1. apply Nat.ltb_lt in Hi.
    unfold Research.remove. rewrite length_delete; [lia |].
    by apply lookup_lt_is_Some.
Qed.

Lemma journal_click_length (c : Journal.Click) rows :
  (1 ≤ length rows)%nat → (1 ≤ length (Journal.onClick c rows))%nat.
Proof.
  intros Hlen. unfold Journal.onClick.
  destruct (Journal.rendered c rows) eqn:Hr; [| exact Hlen].
  destruct c as [| i]; cbn [Journal.rendered] in Hr.
  - unfold Journal.append. rewrite length_app. lia.
  - apply andb_prop in Hr as [H1 Hi].
    apply Nat.ltb_lt in H1. apply Nat.ltb_lt in Hi.
    unfold Journal.remove. rewrite length_delete; [lia |].
    by apply lookup_lt_is_Some.
Qed.

(** X12. The list of person rows never runs out: from a list with at least
    one row, any sequence of clicks on the add button and on the remove
    buttons that are rendered leaves at least one row, since the last row has
    no remove button; and removing the row just added gives the list back. *)
Theorem person_rows_never_run_out
    (rr : list Research.ParticipantForm.t) (rj : list Journal.AuthorForm.t)
    (Hr : (1 ≤ length rr)%nat) (Hj : (1 ≤ length rj)%nat) :
  (∀ clicks, (1 ≤ length (research_clicks clicks rr))%nat)
  ∧ (∀ clicks, (1 ≤ length (journal_clicks clicks rj))%nat)
  ∧ research_clicks [Research.add_click; Research.remove_click (length rr)] rr = rr
  ∧ journal_clicks [Journal.add_click; Journal.remove_click (length rj)] rj = rj.
Proof.
  split; [| split; [| split]].
  - intros clicks. revert rr Hr. unfold research_clicks.
    induction clicks as [| c clicks IH]; intros rows Hlen; cbn; [exact Hlen |].
    apply IH. by apply research_click_length.
  - intros clicks. revert rj Hj. unfold journal_clicks.
    induction clicks as [| c clicks IH]; intros rows Hlen; cbn; [exact Hlen |].
    apply IH. by apply journal_click_length.
  - unfold research_clicks. cbn [fold_left].
    unfold Research.onClick at 2. cbn [Research.rendered].
    unfold Research.onClick, Research.rendered, Research.append, Research.remove.
    rewrite length_app. cbn [length].
    replace (1 <? length rr + 1)%nat with true by (symmetry; apply Nat.ltb_lt; lia).
    replace (length rr <? length rr + 1)%nat with true by (symmetry; apply Nat.ltb_lt; lia).
    cbn [andb]. rewrite delete_middle. apply app_nil_r.
  - unfold journal_clicks. cbn [fold_left].
    unfold Journal.onClick at 2. cbn [Journal.rendered].
    unfold Journal.onClick, Journal.rendered, Journal.append, Journal.remove.
    rewrite length_app. cbn [length].
    replace (1 <? length rj + 1)%nat with true by (symmetry; apply Nat.ltb_lt; lia).
    replace (length rj <? length rj + 1)%nat with true by (symmetry; apply Nat.ltb_lt; lia).
    cbn [andb]. rewrite delete_middle. apply app_nil_r.
Qed.

(** The sample lists of one row, clicked on. *)
Lemma person_rows_witness :
  (1 ≤ length (research_clicks [Research.remove_click 0; Research.remove_click 0]
                 (Research.ResearchFormValues.participants Research.defaultValues)))%nat.
Proof.
  refine (proj1 (person_rows_never_run_out
                   (Research.ResearchFormValues.participants Research.defaultValues)
                   (Journal.JournalFormValues.authors Journal.defaultValues) _ _) _);
    cbn; lia.
Defined.

(** ** The verification step: every path of [handleVerify] *)

Lemma research_handleVerify_blank outcome (s : Research.VerificationStep.State)
    (storage : gmap string string) :
  JS.trim (Research.VerificationStep.name s) = ""
  ∨ JS.trim (Research.VerificationStep.email s) = "" →
  Research.VerificationStep.handleVerify outcome s storage
  = (s, storage, [toast "Please enter your name and email" true]).
Proof.
  unfold Research.VerificationStep.handleVerify.
  intros [H | H]; rewrite H; cbn; [reflexivity |].
  destruct (JS.truthy (JS.trim (Research.VerificationStep.name s))); reflexivity.
Qed.

Lemma journal_handleVerify_blank outcome (s : Journal.VerificationStep.State)
    (storage : gmap string string) :
  JS.trim (Journal.VerificationStep.name s) = ""
  ∨ JS.trim (Journal.VerificationStep.email s) = "" →
  Journal.VerificationStep.handleVerify outcome s storage
  = (s, storage, [toast "Please enter your name and email" true]).
Proof.
  unfold Journal.VerificationStep.handleVerify.
  intros [H | H]; rewrite H; cbn; [reflexivity |].
  destruct (JS.truthy (JS.trim (Journal.VerificationStep.name s))); reflexivity.
Qed.

Lemma research_handleVerify_open outcome (s : Research.VerificationStep.State)
    (storage : gmap string string) :
  JS.trim (Research.VerificationStep.name s) ≠ "" →
  JS.trim (Research.VerificationStep.email s) ≠ "" →
  Research.VerificationStep.handleVerify outcome s storage
  = let failed message :=
      (Research.VerificationStep.setSending false s, storage,
       [research_otp_request s; toast message true]) in
    match outcome with
    | Rejects e => failed (message_of e "Unable to send verification code")
    | Resolves response =>
        if Response.ok response then
          match json_or_empty response with
          | None => failed TypeError_null_message
          | Some body =>
              (Research.VerificationStep.setSending false s,
               <["pending_verification_name" := JS.trim (Research.VerificationStep.name s)]>
                 storage,
               [ research_otp_request s;
                 sessionStorage_setItem "pending_verification_name"
                   (JS.trim (Research.VerificationStep.name s));
                 router_push
                   ("/verification?"
                    +:+ JS.URLSearchParams_toString
                          [ ("email", JS.trim (Research.VerificationStep.email s));
                            ("name", JS.trim (Research.VerificationStep.name s));
                            ("type", "research");
                            ("session",
                             JS.ToString
                               (JS.or_else (ResponseBody.session_id body)
                                           (ResponseBody.sessionId body))) ]) ])
          end
        else
          failed (JS.or_default (detail_or_error (json_or_empty response))
                                "Unable to send verification code")
    end.
Proof.
  intros Hn He. apply truthy_true in Hn, He.
  unfold Research.VerificationStep.handleVerify. rewrite Hn, He. cbn.
  destruct outcome as [e | [[] j]]; reflexivity.
Qed.

Lemma journal_handleVerify_open outcome (s : Journal.VerificationStep.State)
    (storage : gmap string string) :
  JS.trim (Journal.VerificationStep.name s) ≠ "" →
  JS.trim (Journal.VerificationStep.email s) ≠ "" →
  Journal.VerificationStep.handleVerify outcome s storage
  = let failed message :=
      (Journal.VerificationStep.setSending false s, storage,
       [journal_otp_request s; toast message true]) in
    match outcome with
    | Rejects e => failed (message_of e "Unable to send verification code")
    | Resolves response =>
        if Response.ok response then
          match json_or_empty response with
          | None => failed TypeError_null_message
          | Some body =>
              (Journal.VerificationStep.setSending false s,
               <["pending_verification_name" := JS.trim (Journal.VerificationStep.name s)]>
                 storage,
               [ journal_otp_request s;
                 sessionStorage_setItem "pending_verification_name"
                   (JS.trim (Journal.VerificationStep.name s));
                 router_push
                   ("/verification?"
                    +:+ JS.URLSearchParams_toString
                          [ ("email", JS.trim (Journal.VerificationStep.email s));
                            ("name", JS.trim (Journal.VerificationStep.name s));
                            ("type", "journal");
                            ("session",
                             JS.ToString
                               (JS.or_else (ResponseBody.session_id body)
                                           (ResponseBody.sessionId body))) ]) ])
          end
        else
          failed (JS.or_default (detail_or_error (json_or_empty response))
                                "Unable to send verification code")
    end.
Proof.
  intros Hn He. apply truthy_true in Hn, He.
  unfold Journal.VerificationStep.handleVerify. rewrite Hn, He. cbn.
  destruct outcome as [e | [[] j]]; reflexivity.
Qed.

Lemma blank_or_not (s : string) : s = "" ∨ s ≠ "".
Proof. destruct s; [left; reflexivity | right; discriminate]. Qed.

(** X13. When the OTP request fails (it is rejected, answered without
    success, or answered with success and the body [null]) the verification
    step stays usable: nothing is stored, nothing is navigated to, the entered
    name and email are kept, [sending] is back to false, and one error toast
    follows the request; for a rejected or unsuccessful request the toast is
    the thrown error's message, or the server's [detail], else its [error],
    else the generic text. *)
Theorem failed_otp_request_keeps_step_usable
    (outcome : FetchOutcome)
    (sr : Research.VerificationStep.State) (sj : Journal.VerificationStep.State)
    (storage : gmap string string)
    (Hfailed : issues_session outcome = false)
    (Hr : JS.trim (Research.VerificationStep.name sr) ≠ ""
          ∧ JS.trim (Research.VerificationStep.email sr) ≠ "")
    (Hj : JS.trim (Journal.VerificationStep.name sj) ≠ ""
          ∧ JS.trim (Journal.VerificationStep.email sj) ≠ "") :
  ∃ message,
    Research.VerificationStep.handleVerify outcome sr storage
    = (Research.VerificationStep.setSending false sr, storage,
       [research_otp_request sr; toast message true])
    ∧ Journal.VerificationStep.handleVerify outcome sj storage
      = (Journal.VerificationStep.setSending false sj, storage,
         [journal_otp_request sj; toast message true])
    ∧ (fails outcome → message = surfaced_message outcome "Unable to send verification code")
    ∧ (¬ fails outcome → message = TypeError_null_message).
Proof.
  destruct Hr as [Hrn Hre], Hj as [Hjn Hje].
  rewrite (research_handleVerify_open outcome sr storage Hrn Hre).
  rewrite (journal_handleVerify_open outcome sj storage Hjn Hje).
  destruct outcome as [e | [[] j]]; cbn in Hfailed |- *.
  - eexists. split; [reflexivity | split; [reflexivity | split]].
    + reflexivity.
    + intros H. by destruct H.
  - destruct j; try discriminate. cbn.
    eexists. split; [reflexivity | split; [reflexivity | split]].
    + intros H. discriminate H.
    + reflexivity.
  - eexists. split; [reflexivity | split; [reflexivity | split]].
    + reflexivity.
    + intros H. by destruct H.
Qed.

(** The journal claimant of the samples, refused by the server. *)
Lemma failed_otp_request_witness :
  ∃ message,
    Research.VerificationStep.handleVerify (Resolves Cases.failed_response)
      Sample.research_claimant ∅
    = (Research.VerificationStep.setSending false Sample.research_claimant, ∅,
       [research_otp_request Sample.research_claimant; toast message true])
    ∧ Journal.VerificationStep.handleVerify (Resolves Cases.failed_response)
        Sample.journal_claimant ∅
      = (Journal.VerificationStep.setSending false Sample.journal_claimant, ∅,
         [journal_otp_request Sample.journal_claimant; toast message true])
    ∧ (fails (Resolves Cases.failed_response) →
       message = surfaced_message (Resolves Cases.failed_response)
                   "Unable to send verification code")
    ∧ (¬ fails (Resolves Cases.failed_response) → message = TypeError_null_message).
Proof.
  apply (failed_otp_request_keeps_step_usable (Resolves Cases.failed_response)
           Sample.research_claimant Sample.journal_claimant ∅).
  - reflexivity.
  - split; discriminate.
  - split; discriminate.
Defined.

(** X14. Every run of [handleVerify] ends in exactly one of two ways, a toast
    or a navigation, after at most one request. Without navigation the storage
    is untouched; with it, the trace is the request, the write of the trimmed
    name under [pending_verification_name], and the navigation, in this
    order. The entered name and email are never changed. *)
Theorem handleVerify_toast_or_navigation
    (outcome : FetchOutcome)
    (sr : Research.VerificationStep.State) (sj : Journal.VerificationStep.State)
    (storage : gmap string string) :
  (let r := Research.VerificationStep.handleVerify outcome sr storage in
   count is_toast r.2 + count is_push r.2 = 1
   ∧ (count is_fetch r.2 ≤ 1)%nat
   ∧ (count is_push r.2 = 0 → r.1.2 = storage)
   ∧ (count is_push r.2 = 1 →
      ∃ href,
        r.2 = [ research_otp_request sr;
                sessionStorage_setItem "pending_verification_name"
                  (JS.trim (Research.VerificationStep.name sr));
                router_push href ]
        ∧ r.1.2 = <["pending_verification_name" :=
                     JS.trim (Research.VerificationStep.name sr)]> storage)
   ∧ Research.VerificationStep.name r.1.1 = Research.VerificationStep.name sr
   ∧ Research.VerificationStep.email r.1.1 = Research.VerificationStep.email sr)
  ∧ (let r := Journal.VerificationStep.handleVerify outcome sj storage in
     count is_toast r.2 + count is_push r.2 = 1
     ∧ (count is_fetch r.2 ≤ 1)%nat
     ∧ (count is_push r.2 = 0 → r.1.2 = storage)
     ∧ (count is_push r.2 = 1 →
        ∃ href,
          r.2 = [ journal_otp_request sj;
                  sessionStorage_setItem "pending_verification_name"
                    (JS.trim (Journal.VerificationStep.name sj));
                  router_push href ]
          ∧ r.1.2 = <["pending_verification_name" :=
                       JS.trim (Journal.VerificationStep.name sj)]> storage)
     ∧ Journal.VerificationStep.name r.1.1 = Journal.VerificationStep.name sj
     ∧ Journal.VerificationStep.email r.1.1 = Journal.VerificationStep.email sj).
Proof.
  cbn zeta. split.
  - destruct (blank_or_not (JS.trim (Research.VerificationStep.name sr))) as [Hn | Hn];
      [rewrite research_handleVerify_blank by (left; exact Hn); cbn;
       repeat split; (lia || discriminate) |].
    destruct (blank_or_not (JS.trim (Research.VerificationStep.email sr))) as [He | He];
      [rewrite research_handleVerify_blank by (right; exact He); cbn;
       repeat split; (lia || discriminate) |].
    rewrite (research_handleVerify_open outcome sr storage Hn He).
    destruct outcome as [e | [[] [| | body]]]; cbn;
      repeat split; try lia; try discriminate; intros _; eexists; split; reflexivity.
  - destruct (blank_or_not (JS.trim (Journal.VerificationStep.name sj))) as [Hn | Hn];
      [rewrite journal_handleVerify_blank by (left; exact Hn); cbn;
       repeat split; (lia || discriminate) |].
    destruct (blank_or_not (JS.trim (Journal.VerificationStep.email sj))) as [He | He];
      [rewrite journal_handleVerify_blank by (right; exact He); cbn;
       repeat split; (lia || discriminate) |].
    rewrite (journal_handleVerify_open outcome sj storage Hn He).
    destruct outcome as [e | [[] [| | body]]]; cbn;
      repeat split; try lia; try discriminate; intros _; eexists; split; reflexivity.
Qed.

(** X15. A code is never requested for a blank name or email: every request
    [handleVerify] sends goes to the OTP endpoint and carries the trimmed
    email and name, both non-empty, with the purpose of the form the step
    belongs to. *)
Theorem otp_request_is_never_blank
    (outcome : FetchOutcome) (storage : gmap string string) :
  (∀ (s : Research.VerificationStep.State) url body,
      In (fetch url body) (Research.VerificationStep.handleVerify outcome s storage).2 →
      fetch url body = research_otp_request s
      ∧ JS.trim (Research.VerificationStep.email s) ≠ ""
      ∧ JS.trim (Research.VerificationStep.name s) ≠ "")
  ∧ (∀ (s : Journal.VerificationStep.State) url body,
      In (fetch url body) (Journal.VerificationStep.handleVerify outcome s storage).2 →
      fetch url body = journal_otp_request s
      ∧ JS.trim (Journal.VerificationStep.email s) ≠ ""
      ∧ JS.trim (Journal.VerificationStep.name s) ≠ "").
Proof.
  split; intros s url body.
  - destruct (blank_or_not (JS.trim (Research.VerificationStep.name s))) as [Hn | Hn];
      [rewrite research_handleVerify_blank by (left; exact Hn); cbn;
       intros [H | []]; discriminate |].
    destruct (blank_or_not (JS.trim (Research.VerificationStep.email s))) as [He | He];
      [rewrite research_handleVerify_blank by (right; exact He); cbn;
       intros [H | []]; discriminate |].
    rewrite (research_handleVerify_open outcome s storage Hn He).
    intros Hin. split; [| split; assumption].
    destruct outcome as [e | [[] [| | b]]]; cbn in Hin;
      repeat match goal with
             | H : _ ∨ _ |- _ => destruct H as [H | H]
             | H : False |- _ => destruct H
             end;
      try discriminate; symmetry; assumption.
  - destruct (blank_or_not (JS.trim (Journal.VerificationStep.name s))) as [Hn | Hn];
      [rewrite journal_handleVerify_blank by (left; exact Hn); cbn;
       intros [H | []]; discriminate |].
    destruct (blank_or_not (JS.trim (Journal.VerificationStep.email s))) as [He | He];
      [rewrite journal_handleVerify_blank by (right; exact He); cbn;
       intros [H | []]; discriminate |].
    rewrite (journal_handleVerify_open outcome s storage Hn He).
    intros Hin. split; [| split; assumption].
    destruct outcome as [e | [[] [| | b]]]; cbn in Hin;
      repeat match goal with
             | H : _ ∨ _ |- _ => destruct H as [H | H]
             | H : False |- _ => destruct H
             end;
      try discriminate; symmetry; assumption.
Qed.

(** The request of the sample journal claimant. *)
Lemma otp_request_witness :
  fetch "/api/submissions/otp/request"
        (Journal.otp_request "a@tcioe.edu.np" "A B" "journal_submission")
  = journal_otp_request Sample.journal_claimant
  ∧ JS.trim (Journal.VerificationStep.email Sample.journal_claimant) ≠ ""
  ∧ JS.trim (Journal.VerificationStep.name Sample.journal_claimant) ≠ "".
Proof.
  refine (proj2 (otp_request_is_never_blank (Resolves Sample.otp_response) ∅)
            Sample.journal_claimant _ _ _).
  vm_compute. left. reflexivity.
Defined.

(** X16. The button that calls [handleVerify] is enabled only when the guard
    of [handleVerify] lets the call through: from a state with the button
    enabled the request is always sent, and after a failed request the button
    is enabled again with the same name and email, so the user can retry at
    once. *)
Theorem enabled_button_sends_and_allows_retry
    (outcome : FetchOutcome)
    (sr : Research.VerificationStep.State) (sj : Journal.VerificationStep.State)
    (storage : gmap string string)
    (Hr : Research.VerificationStep.button_disabled sr = false)
    (Hj : Journal.VerificationStep.button_disabled sj = false) :
  (let r := Research.VerificationStep.handleVerify outcome sr storage in
   (∃ rest, r.2 = research_otp_request sr :: rest)
   ∧ Research.VerificationStep.button_disabled r.1.1 = false)
  ∧ (let r := Journal.VerificationStep.handleVerify outcome sj storage in
     (∃ rest, r.2 = journal_otp_request sj :: rest)
     ∧ Journal.VerificationStep.button_disabled r.1.1 = false).
Proof.
  cbn zeta.
  unfold Research.VerificationStep.button_disabled in Hr.
  unfold Journal.VerificationStep.button_disabled in Hj.
  apply orb_false_elim in Hr as [Hr Hre]. apply orb_false_elim in Hr as [_ Hrn].
  apply orb_false_elim in Hj as [Hj Hje]. apply orb_false_elim in Hj as [_ Hjn].
  apply negb_false_iff in Hrn, Hre, Hjn, Hje.
  pose proof Hrn as Hrn'. pose proof Hre as Hre'.
  pose proof Hjn as Hjn'. pose proof Hje as Hje'.
  apply truthy_true in Hrn', Hre', Hjn', Hje'.
  rewrite (research_handleVerify_open outcome sr storage Hrn' Hre').
  rewrite (journal_handleVerify_open outcome sj storage Hjn' Hje').
  unfold Research.VerificationStep.button_disabled,
    Journal.VerificationStep.button_disabled.
  destruct outcome as [e | [[] [| | body]]]; cbn -[JS.trim];
    rewrite ?Hrn, ?Hre, ?Hjn, ?Hje; repeat split; eexists; reflexivity.
Qed.

(** The sample claimants, with the network down. *)
Lemma enabled_button_witness :
  let r := Journal.VerificationStep.handleVerify (Rejects (ErrorObj "Failed to fetch"))
             Sample.journal_claimant ∅ in
  (∃ rest, r.2 = journal_otp_request Sample.journal_claimant :: rest)
  ∧ Journal.VerificationStep.button_disabled r.1.1 = false.
Proof.
  refine (proj2 (enabled_button_sends_and_allows_retry
                   (Rejects (ErrorObj "Failed to fetch"))
                   Sample.research_claimant Sample.journal_claimant ∅ _ _));
    reflexivity.
Defined.

(** ** The address navigated to *)

Lemma all_chars_app (test : ascii → bool) (a b : string) :
  all_chars test (a +:+ b) = all_chars test a && all_chars test b.
Proof.
  induction a as [| c a IH]; [reflexivity |].
  change (String c a +:+ b) with (String c (a +:+ b)).
  cbn [all_chars]. rewrite IH. apply andb_assoc.
Qed.

Lemma string_app_assoc (a b c : string) : (a +:+ b) +:+ c = a +:+ (b +:+ c).
Proof.
  induction a as [| x a IH]; [reflexivity |].
  change ((String x a +:+ b) +:+ c) with (String x ((a +:+ b) +:+ c)).
  rewrite IH. reflexivity.
Qed.

Lemma fold_right_append (l : list string) (x : string) :
  fold_right String.append x l = fold_right String.append "" l +:+ x.
Proof.
  induction l as [| y l IH]; cbn; [reflexivity |].
  rewrite IH. symmetry. apply string_app_assoc.
Qed.

Lemma encoded_char_is_safe (c : ascii) :
  all_chars query_safe
    (fold_right String.append "" (List.map JS.urlencoded_byte (JS.utf8 c))) = true.
Proof. destruct c as [[] [] [] [] [] [] [] []]; vm_compute; reflexivity. Qed.

Lemma urlencode_is_safe (s : string) : all_chars query_safe (JS.urlencode s) = true.
Proof.
  induction s as [| c r IH]; [reflexivity |].
  cbn [JS.urlencode]. rewrite fold_right_append, all_chars_app, IH.
  rewrite encoded_char_is_safe. reflexivity.
Qed.

Lemma verification_url_of_params (type email name session : string) :
  "/verification?"
  +:+ JS.URLSearchParams_toString
        [("email", email); ("name", name); ("type", type); ("session", session)]
  = verification_url (JS.urlencode type) (JS.urlencode email) (JS.urlencode name)
      (JS.urlencode session).
Proof.
  unfold JS.URLSearchParams_toString, verification_url. cbn [List.map JS.join_amp fst snd].
  change (JS.urlencode "email") with "email".
  change (JS.urlencode "name") with "name".
  change (JS.urlencode "type") with "type".
  change (JS.urlencode "session") with "session".
  rewrite !string_app_assoc. reflexivity.
Qed.

(** X17. No text can forge the address navigated to. Every address
    [handleVerify] pushes is [/verification?email=E&name=N&type=T&session=S]
    with [T] the form's own type and [E], [N], [S] the encodings of the trimmed
    email, the trimmed name and the session identifier; an encoding holds
    nothing but letters, digits and [* - . _ % +], so no [&], [=], [#], [?],
    [/] or space typed into a field or sent by the server can add, end or
    split a parameter. *)
Theorem navigation_url_cannot_be_forged
    (outcome : FetchOutcome) (storage : gmap string string) :
  (∀ (s : Research.VerificationStep.State) href,
      In (router_push href) (Research.VerificationStep.handleVerify outcome s storage).2 →
      ∃ S,
        href = verification_url "research"
                 (JS.urlencode (JS.trim (Research.VerificationStep.email s)))
                 (JS.urlencode (JS.trim (Research.VerificationStep.name s))) S
        ∧ all_chars query_safe
            (JS.urlencode (JS.trim (Research.VerificationStep.email s))) = true
        ∧ all_chars query_safe
            (JS.urlencode (JS.trim (Research.VerificationStep.name s))) = true
        ∧ all_chars query_safe S = true)
  ∧ (∀ (s : Journal.VerificationStep.State) href,
      In (router_push href) (Journal.VerificationStep.handleVerify outcome s storage).2 →
      ∃ S,
        href = verification_url "journal"
                 (JS.urlencode (JS.trim (Journal.VerificationStep.email s)))
                 (JS.urlencode (JS.trim (Journal.VerificationStep.name s))) S
        ∧ all_chars query_safe
            (JS.urlencode (JS.trim (Journal.VerificationStep.email s))) = true
        ∧ all_chars query_safe
            (JS.urlencode (JS.trim (Journal.VerificationStep.name s))) = true
        ∧ all_chars query_safe S = true)
  ∧ forallb (λ c, negb (query_safe c)) ["&"; "="; "#"; "?"; "/"; " "]%char = true.
Proof.
  split; [| split; [| reflexivity]]; intros s href.
  - destruct (blank_or_not (JS.trim (Research.VerificationStep.name s))) as [Hn | Hn];
      [rewrite research_handleVerify_blank by (left; exact Hn); cbn;
       intros [H | []]; discriminate |].
    destruct (blank_or_not (JS.trim (Research.VerificationStep.email s))) as [He | He];
      [rewrite research_handleVerify_blank by (right; exact He); cbn;
       intros [H | []]; discriminate |].
    rewrite (research_handleVerify_open outcome s storage Hn He).
    destruct outcome as [e | [[] [| | b]]]; cbn -[JS.URLSearchParams_toString JS.trim];
      intros Hin;
      repeat match goal with
             | H : _ ∨ _ |- _ => destruct H as [H | H]
             | H : False |- _ => destruct H
             end;
      try discriminate; injection Hin as <-;
      rewrite verification_url_of_params; eexists;
      (split; [reflexivity | repeat split; apply urlencode_is_safe]).
  - destruct (blank_or_not (JS.trim (Journal.VerificationStep.name s))) as [Hn | Hn];
      [rewrite journal_handleVerify_blank by (left; exact Hn); cbn;
       intros [H | []]; discriminate |].
    destruct (blank_or_not (JS.trim (Journal.VerificationStep.email s))) as [He | He];
      [rewrite journal_handleVerify_blank by (right; exact He); cbn;
       intros [H | []]; discriminate |].
    rewrite (journal_handleVerify_open outcome s storage Hn He).
    destruct outcome as [e | [[] [| | b]]]; cbn -[JS.URLSearchParams_toString JS.trim];
      intros Hin;
      repeat match goal with
             | H : _ ∨ _ |- _ => destruct H as [H | H]
             | H : False |- _ => destruct H
             end;
      try discriminate; injection Hin as <-;
      rewrite verification_url_of_params; eexists;
      (split; [reflexivity | repeat split; apply urlencode_is_safe]).
Qed.

(** A name that tries to add a parameter. *)
Lemma navigation_url_witness :
  ∃ S,
    "/verification?email=a%40x.np&name=Eve%26type%3Dadmin&type=journal&session=s1"
    = verification_url "journal" (JS.urlencode "a@x.np") (JS.urlencode "Eve&type=admin") S
    ∧ all_chars query_safe (JS.urlencode "a@x.np") = true
    ∧ all_chars query_safe (JS.urlencode "Eve&type=admin") = true
    ∧ all_chars query_safe S = true.
Proof.
  refine (proj1 (proj2 (navigation_url_cannot_be_forged (Resolves Sample.otp_response) ∅))
            {| Journal.VerificationStep.name := " Eve&type=admin ";
               Journal.VerificationStep.email := "a@x.np";
               Journal.VerificationStep.sending := false |}
            "/verification?email=a%40x.np&name=Eve%26type%3Dadmin&type=journal&session=s1"
            _).
  vm_compute. right. right. left. reflexivity.
Defined.

(** X18. Which session the address names. After a successful answer whose
    body is not [null], a non-empty [session_id] is used whatever [sessionId]
    holds; and when the body has neither field, as when it is [{}] or cannot
    be parsed at all, the step still stores the name and navigates, with the
    literal text [undefined] as the session. *)
Theorem session_parameter_of_the_answer
    (response : Response.t) (body : ResponseBody.t)
    (sr : Research.VerificationStep.State) (sj : Journal.VerificationStep.State)
    (storage : gmap string string)
    (Hok : Response.ok response = true)
    (Hbody : json_or_empty response = Some body)
    (Hr : JS.trim (Research.VerificationStep.name sr) ≠ ""
          ∧ JS.trim (Research.VerificationStep.email sr) ≠ "")
    (Hj : JS.trim (Journal.VerificationStep.name sj) ≠ ""
          ∧ JS.trim (Journal.VerificationStep.email sj) ≠ "") :
  let session :=
    match ResponseBody.session_id body, ResponseBody.sessionId body with
    | Some (String c r), _ => String c r
    | _, Some other => other
    | _, None => "undefined"
    end in
  list.last (Research.VerificationStep.handleVerify (Resolves response) sr storage).2
  = Some (router_push
            (verification_url "research"
               (JS.urlencode (JS.trim (Research.VerificationStep.email sr)))
               (JS.urlencode (JS.trim (Research.VerificationStep.name sr)))
               (JS.urlencode session)))
  ∧ list.last (Journal.VerificationStep.handleVerify (Resolves response) sj storage).2
    = Some (router_push
              (verification_url "journal"
                 (JS.urlencode (JS.trim (Journal.VerificationStep.email sj)))
                 (JS.urlencode (JS.trim (Journal.VerificationStep.name sj)))
                 (JS.urlencode session)))
  ∧ (Response.json response = json_rejects → session = "undefined").
Proof.
  destruct Hr as [Hrn Hre], Hj as [Hjn Hje]. cbn zeta.
  rewrite (research_handleVerify_open (Resolves response) sr storage Hrn Hre).
  rewrite (journal_handleVerify_open (Resolves response) sj storage Hjn Hje).
  cbn zeta. rewrite Hok, Hbody.
  cbn -[JS.URLSearchParams_toString JS.trim JS.urlencode verification_url].
  rewrite !verification_url_of_params.
  assert (Hsession :
            JS.ToString (JS.or_else (ResponseBody.session_id body)
                                    (ResponseBody.sessionId body))
            = match ResponseBody.session_id body, ResponseBody.sessionId body with
              | Some (String c r), _ => String c r
              | _, Some other => other
              | _, None => "undefined"
              end).
  { destruct (ResponseBody.session_id body) as [[| c r] |];
      destruct (ResponseBody.sessionId body); reflexivity. }
  rewrite Hsession. split; [reflexivity | split; [reflexivity |]].
  intros Hrejects. unfold json_or_empty in Hbody. rewrite Hrejects in Hbody.
  injection Hbody as <-. reflexivity.
Qed.

(** The journal claimant of the samples, answered with success and nothing
    else. *)
Lemma session_parameter_witness :
  list.last (Journal.VerificationStep.handleVerify (Resolves Sample.ok_response)
          Sample.journal_claimant ∅).2
  = Some (router_push
            "/verification?email=a%40tcioe.edu.np&name=A+B&type=journal&session=undefined").
Proof.
  refine (proj1 (proj2 (session_parameter_of_the_answer
                          Sample.ok_response ResponseBody.empty
                          Sample.research_claimant Sample.journal_claimant ∅ _ _ _ _))).
  - reflexivity.
  - reflexivity.
  - split; discriminate.
  - split; discriminate.
Defined.

(** ** The configuration module: further facts *)

Lemma string_length_app (a b : string) :
  String.length (a +:+ b) = (String.length a + String.length b)%nat.
Proof.
  induction a as [| c a IH]; [reflexivity |].
  change (String c a +:+ b) with (String c (a +:+ b)). cbn [String.length].
  by rewrite IH.
Qed.

Lemma with_leading_slash_of_slashed (path : string) :
  JS.startsWith_slash path = false →
  Config.with_leading_slash ("/" +:+ path) = Config.with_leading_slash path.
Proof. intros H. unfold Config.with_leading_slash. rewrite H. reflexivity. Qed.

Lemma getPublicApiUrl_is (env : process.env) (path : string) (console : list string) :
  Config.getPublicApiUrl env path console
  = (Config.resolved_url (Config.USE_PROXY env) path, console).
Proof.
  unfold Config.getPublicApiUrl, Config.resolved_url, Config.with_leading_slash.
  rewrite base_has_no_trailing_slash.
  destruct (Config.USE_PROXY env).
  - destruct (JS.startsWith_slash path); reflexivity.
  - destruct (Config.DEBUG_API env); reflexivity.
Qed.

Lemma string_app_cancel (a x y : string) : a +:+ x = a +:+ y → x = y.
Proof.
  induction a as [| c a IH]; [trivial |].
  change (String c a +:+ x) with (String c (a +:+ x)).
  change (String c a +:+ y) with (String c (a +:+ y)).
  intros H. injection H as H. by apply IH.
Qed.

(** X19. The resolver treats a path with and without its leading slash
    alike, and tells apart every two paths that differ otherwise: two paths
    resolve to the same address exactly when they are equal once a slash is
    put in front of the one that has none. *)
Theorem resolver_identifies_paths_up_to_leading_slash
    (env : process.env) (p q : string) (console : list string) :
  (Config.getPublicApiUrl env p console).1 = (Config.getPublicApiUrl env q console).1
  ↔ Config.with_leading_slash p = Config.with_leading_slash q.
Proof.
  rewrite !getPublicApiUrl_is. cbn [fst]. unfold Config.resolved_url.
  destruct (Config.USE_PROXY env); split; intros H;
    try (rewrite H; reflexivity); by apply string_app_cancel in H.
Qed.

(** X20. The resolver is not idempotent: its result starts with the proxy
    prefix or with the host, each followed by a slash, and is longer than the
    path it was given, so resolving an address that is already resolved never
    gives it back but puts the prefix in front once more. *)
Theorem resolver_always_prefixes
    (env : process.env) (path : string) (console : list string) :
  let url := (Config.getPublicApiUrl env path console).1 in
  (∃ rest, (url = "/api/proxy/" +:+ rest ∨ url = "https://cdn.tcioe.edu.np/" +:+ rest)
           ∧ Config.with_leading_slash path = "/" +:+ rest)
  ∧ (String.length path < String.length url)%nat
  ∧ (Config.getPublicApiUrl env url console).1 ≠ url.
Proof.
  cbn zeta.
  assert (Hlen : ∀ p, (String.length p
                       < String.length (Config.getPublicApiUrl env p console).1)%nat).
  { intros p. rewrite getPublicApiUrl_is. cbn [fst].
    unfold Config.resolved_url, Config.with_leading_slash.
    destruct (Config.USE_PROXY env), (JS.startsWith_slash p);
      rewrite ?string_length_app; cbn [String.length]; lia. }
  split; [| split; [apply Hlen |]].
  - rewrite getPublicApiUrl_is. cbn [fst].
    unfold Config.resolved_url, Config.with_leading_slash.
    destruct path as [| c r]; cbn [JS.startsWith_slash].
    + exists "". split; [| reflexivity].
      destruct (Config.USE_PROXY env); [left | right]; reflexivity.
    + destruct (Ascii.eqb_spec c "/") as [-> | Hc].
      * exists r. split; [| reflexivity].
        destruct (Config.USE_PROXY env); [left | right]; reflexivity.
      * exists (String c r). split; [| reflexivity].
        destruct (Config.USE_PROXY env); [left | right]; reflexivity.
  - intros Heq. pose proof (Hlen (Config.getPublicApiUrl env path console).1) as H.
    rewrite Heq in H. lia.
Qed.

Lemma lower_char_idempotent (c : ascii) : JS.lower_char (JS.lower_char c) = JS.lower_char c.
Proof. destruct c as [[] [] [] [] [] [] [] []]; vm_compute; reflexivity. Qed.

Lemma toLowerCase_idempotent (s : string) :
  JS.toLowerCase (JS.toLowerCase s) = JS.toLowerCase s.
Proof.
  induction s as [| c r IH]; cbn; [reflexivity |].
  by rewrite lower_char_idempotent, IH.
Qed.

Lemma toLowerCase_truthy (s : string) : JS.truthy (JS.toLowerCase s) = JS.truthy s.
Proof. destruct s; reflexivity. Qed.

Lemma or_default_lowered (o : option string) (d : string) :
  JS.toLowerCase (JS.or_default (JS.toLowerCase <$> o) d)
  = JS.toLowerCase (JS.or_default o d).
Proof.
  destruct o as [s |]; cbn; [| reflexivity].
  rewrite toLowerCase_truthy. destruct (JS.truthy s); [| reflexivity].
  apply toLowerCase_idempotent.
Qed.

Lemma or_else_lowered (a b : option string) :
  JS.or_else (JS.toLowerCase <$> a) (JS.toLowerCase <$> b)
  = JS.toLowerCase <$> JS.or_else a b.
Proof.
  unfold JS.or_else. destruct a as [s |]; cbn; [| reflexivity].
  rewrite toLowerCase_truthy. destruct (JS.truthy s); reflexivity.
Qed.

(** X21. The configuration does not depend on the letter case of its
    variables: writing any of them in lower case changes neither [USE_PROXY],
    nor [DEBUG_API], nor [DEPARTMENT_CODE]. The department code is never
    empty and always in lower case, and it is [doece] when the variable is
    unset or empty. A non-empty private debug variable decides [DEBUG_API]
    alone, whatever the public one says. *)
Theorem configuration_ignores_letter_case
    (env : process.env) (department : option string) :
  let lowered :=
    {| process.NEXT_PUBLIC_USE_PROXY := JS.toLowerCase <$> process.NEXT_PUBLIC_USE_PROXY env;
       process.DEBUG_API := JS.toLowerCase <$> process.DEBUG_API env;
       process.NEXT_PUBLIC_DEBUG_API := JS.toLowerCase <$> process.NEXT_PUBLIC_DEBUG_API env |} in
  Config.USE_PROXY lowered = Config.USE_PROXY env
  ∧ Config.DEBUG_API lowered = Config.DEBUG_API env
  ∧ Config.DEPARTMENT_CODE (JS.toLowerCase <$> department) = Config.DEPARTMENT_CODE department
  ∧ Config.DEPARTMENT_CODE department ≠ ""
  ∧ JS.toLowerCase (Config.DEPARTMENT_CODE department) = Config.DEPARTMENT_CODE department
  ∧ Config.DEPARTMENT_CODE None = "doece"
  ∧ Config.DEPARTMENT_CODE (Some "") = "doece"
  ∧ (JS.truthy_opt (process.DEBUG_API env) = true →
     ∀ public,
       Config.DEBUG_API
         {| process.NEXT_PUBLIC_USE_PROXY := process.NEXT_PUBLIC_USE_PROXY env;
            process.DEBUG_API := process.DEBUG_API env;
            process.NEXT_PUBLIC_DEBUG_API := public |}
       = Config.DEBUG_API env).
Proof.
  cbn zeta. unfold Config.USE_PROXY, Config.DEBUG_API, Config.DEPARTMENT_CODE,
    Config.PRIVATE_DEBUG_FLAG, Config.PUBLIC_DEBUG_FLAG.
  cbn [process.NEXT_PUBLIC_USE_PROXY process.DEBUG_API process.NEXT_PUBLIC_DEBUG_API].
  rewrite or_else_lowered, !or_default_lowered.
  repeat split.
  - destruct department as [[| c r] |]; cbn; discriminate.
  - apply toLowerCase_idempotent.
  - intros Hprivate public. unfold JS.or_else. rewrite Hprivate. reflexivity.
Qed.
